(** * TimeSheet: a shallow embedding of the time-tracking core

    The development follows the TypeScript sources of the repository:

    - [utils.ts]       time utilities, the entry validator, duration arithmetic;
    - [App.tsx]        the people/jobs registries, the session engine
                       (clock-in / clock-out) and the approval of entries,
                       in both variants (entries kept in the component, and
                       entries kept in a synchronised collection);
    - [Report.tsx]     the aggregation engine ([reportData]) and the text of
                       its exports;
    - [BulkImport.tsx] the bulk line parser and its confirm step;
    - [Dashboard.tsx], [EntriesList.tsx], [AddEntry.tsx]: the selection of
                       jobs, the search of the history, the entry form.

    Modelling conventions.

    - A JavaScript string is a Rocq [string], read as the UTF-8 encoding of
      the text; every character the program inspects ('|', ':', digits, the
      dash family, white space) is matched on that encoding.
    - A JavaScript [number] holding an instant (epoch milliseconds) is a [Z];
      a [number] holding minutes is a [Q]: arithmetic is exact, the rounding
      of IEEE doubles is not modelled.
    - The own properties of a JavaScript object used as a dictionary and
      never enumerated are a [gmap]; those of one that is enumerated
      ([Object.entries], [Object.values]) are a list in creation order,
      enumerated in the order the language prescribes.  A read [o[k]] that
      finds no own property goes on to [Object.prototype]
      ([JS.inherited]): the code reads its dictionaries that way.
    - What the host decides (time zone offset, collation, the wall clock,
      the text of a date, random identifiers, the answer to a dialog) is a
      field of the class [Host] or [Intl], or an explicit argument. *)

From Stdlib Require Import ZArith QArith Qround Qabs Qminmax Lia Ascii.
From Stdlib Require OrderedTypeEx.
From stdpp Require Import gmap strings list sorting pretty.

Local Open Scope string_scope.
Local Open Scope list_scope.
Local Open Scope Z_scope.

(** ** Part I: the platform (strings, arrays, dates) *)

Module JS.

(** *** Strings *)

Fixpoint starts_with (p s : string) : bool :=
  match p, s with
  | EmptyString, _ => true
  | String a p', String b s' => if Ascii.eqb a b then starts_with p' s' else false
  | String _ _, EmptyString => false
  end.

(** Length of the first pattern of [ps] that is a prefix of [s]. *)
Fixpoint match_any (ps : list string) (s : string) : option nat :=
  match ps with
  | [] => None
  | p :: ps' => if starts_with p s then Some (String.length p) else match_any ps' s
  end.

(** [String.prototype.includes]: [sub] occurs somewhere in [s]. *)
Fixpoint includes (sub s : string) : bool :=
  starts_with sub s ||
  match s with
  | EmptyString => false
  | String _ s' => includes sub s'
  end.

(** [s.split(sep)] where the separator is any one of the non-empty strings
    [seps].  [skip] counts the bytes of a separator still to be dropped and
    [cur] is the field being read. *)
Fixpoint split_go (seps : list string) (skip : nat) (cur s : string) : list string :=
  match s with
  | EmptyString => [cur]
  | String c s' =>
      match skip with
      | S k => split_go seps k cur s'
      | O =>
          match match_any seps s with
          | Some (S k) => cur :: split_go seps k EmptyString s'
          | _ => split_go seps O (cur +:+ String c EmptyString) s'
          end
      end
  end.

Definition split (seps : list string) (s : string) : list string :=
  split_go seps O EmptyString s.

(** The white space that [trim] removes: the ECMAScript WhiteSpace and
    LineTerminator code points, as UTF-8. *)
Definition utf8 (bytes : list N) : string :=
  String.string_of_list_ascii (List.map Ascii.ascii_of_N bytes).

Definition white_space : list string :=
  List.map utf8
    [ [9%N]; [10%N]; [11%N]; [12%N]; [13%N]; [32%N];
      [194%N; 160%N]; [225%N; 154%N; 128%N];
      [226%N; 128%N; 128%N]; [226%N; 128%N; 129%N]; [226%N; 128%N; 130%N];
      [226%N; 128%N; 131%N]; [226%N; 128%N; 132%N]; [226%N; 128%N; 133%N];
      [226%N; 128%N; 134%N]; [226%N; 128%N; 135%N]; [226%N; 128%N; 136%N];
      [226%N; 128%N; 137%N]; [226%N; 128%N; 138%N];
      [226%N; 128%N; 168%N]; [226%N; 128%N; 169%N]; [226%N; 128%N; 175%N];
      [226%N; 129%N; 159%N]; [227%N; 128%N; 128%N]; [239%N; 187%N; 191%N] ].

Fixpoint drop_leading (ws : list string) (skip : nat) (s : string) : string :=
  match s with
  | EmptyString => EmptyString
  | String c s' =>
      match skip with
      | S k => drop_leading ws k s'
      | O =>
          match match_any ws s with
          | Some (S k) => drop_leading ws k s'
          | _ => s
          end
      end
  end.

Definition trimStart (s : string) : string := drop_leading white_space O s.

Definition trimEnd (s : string) : string :=
  String.rev (drop_leading (List.map String.rev white_space) O (String.rev s)).

Definition trim (s : string) : string := trimEnd (trimStart s).

(** [toLowerCase], on the ASCII letters; other bytes are kept. *)
Definition lower_ascii (c : ascii) : ascii :=
  let n := Ascii.N_of_ascii c in
  if ((65 <=? n) && (n <=? 90))%N then Ascii.ascii_of_N (n + 32) else c.

Fixpoint toLowerCase (s : string) : string :=
  match s with
  | EmptyString => EmptyString
  | String c s' => String (lower_ascii c) (toLowerCase s')
  end.

(** [s.substring(0, n)], counted in bytes. *)
Fixpoint substring0 (n : nat) (s : string) : string :=
  match n, s with
  | S k, String c s' => String c (substring0 k s')
  | _, _ => EmptyString
  end.

(** [s.padStart(n, "0")]. *)
Definition padStart0 (n : nat) (s : string) : string :=
  String.string_of_list_ascii (List.repeat "0"%char (n - String.length s)) +:+ s.

(** A string is falsy exactly when it is empty; an absent field
    ([undefined]) is falsy too. *)
Definition truthy (s : string) : bool := negb (String.eqb s EmptyString).

Definition truthy_opt (o : option string) : bool :=
  match o with
  | Some s => truthy s
  | None => false
  end.

(** *** Arrays *)

(** [Array.prototype.sort]: a stable sort.  [before x y] says that the
    comparison of [x] with [y] is not positive, so that [x], which stood
    first, stays first. *)
Fixpoint sort_insert {A} (before : A -> A -> bool) (x : A) (l : list A) : list A :=
  match l with
  | [] => [x]
  | y :: l' => if before x y then x :: y :: l' else y :: sort_insert before x l'
  end.

Fixpoint Array_sort {A} (before : A -> A -> bool) (l : list A) : list A :=
  match l with
  | [] => []
  | x :: l' => sort_insert before x (Array_sort before l')
  end.

(** The default comparison of [sort()]: strings by code units. *)
Definition default_before (x y : string) : bool := String.leb x y.

(** [sort(cmp)] with a comparison function returning a number. *)
Definition before_of (A : Type) (cmp : A -> A -> Z) (x y : A) : bool := cmp x y <=? 0.
Arguments before_of {A} cmp x y.

(** *** Objects that are enumerated *)

(** Own properties in creation order. *)
Definition Obj (V : Type) : Type := list (string * V).

Fixpoint obj_get {V} (k : string) (o : Obj V) : option V :=
  match o with
  | [] => None
  | (k', v) :: o' => if String.eqb k k' then Some v else obj_get k o'
  end.

(** [o[k] = v]: an existing property keeps its place, a new one is added
    last. *)
Fixpoint obj_set {V} (k : string) (v : V) (o : Obj V) : Obj V :=
  match o with
  | [] => [(k, v)]
  | (k', v') :: o' => if String.eqb k k' then (k, v) :: o' else (k', v') :: obj_set k v o'
  end.

Definition digit_val (c : ascii) : option Z :=
  let n := Z.of_N (Ascii.N_of_ascii c) in
  if (48 <=? n) && (n <=? 57) then Some (n - 48) else None.

Fixpoint all_digits (s : string) : bool :=
  match s with
  | EmptyString => true
  | String c s' => match digit_val c with Some _ => all_digits s' | None => false end
  end.

Fixpoint decimal_value (acc : Z) (s : string) : Z :=
  match s with
  | EmptyString => acc
  | String c s' => decimal_value (10 * acc + default 0 (digit_val c)) s'
  end.

(** A property key is an array index when it is the canonical decimal
    writing of an integer below 2^32 - 1. *)
Definition array_index (k : string) : option Z :=
  match k with
  | EmptyString => None
  | String c rest =>
      if all_digits k
         && (negb (Ascii.eqb c "0"%char) || String.eqb rest EmptyString)
         && (String.length k <=? 10)%nat
      then let v := decimal_value 0 k in
           if v <? 4294967295 then Some v else None
      else None
  end.

Definition is_index {V} (p : string * V) : bool :=
  match array_index (fst p) with Some _ => true | None => false end.

Definition index_before {V} (p q : string * V) : bool :=
  default 0 (array_index (fst p)) <=? default 0 (array_index (fst q)).

(** [Object.entries(o)]: array indices in ascending order first, then the
    other keys in creation order. *)
Definition Object_entries {V} (o : Obj V) : list (string * V) :=
  Array_sort index_before (List.filter is_index o)
  ++ List.filter (fun p => negb (is_index p)) o.

Definition Object_values {V} (o : Obj V) : list V := List.map snd (Object_entries o).

(** *** What an object literal inherits *)

(** The properties of [Object.prototype] (ECMAScript, with its Annex B):
    ten functions, the function [Object] under "constructor", and the
    accessor "__proto__", which answers [Object.prototype] itself. *)
Definition prototype_names : list string :=
  ["constructor"; "hasOwnProperty"; "isPrototypeOf"; "propertyIsEnumerable";
   "toLocaleString"; "toString"; "valueOf"; "__proto__";
   "__defineGetter__"; "__defineSetter__"; "__lookupGetter__"; "__lookupSetter__"].

(** Does a read [o[k]] that finds no own property of the object literal
    [o] find an inherited one?  [extra] lists the names under which
    [Object.prototype] holds, beyond its own properties, a day object of
    the report ([Report.add_entry] shows how one gets there).  What is
    found is an object or a function in every case, hence truthy. *)
Definition inherited (extra : list string) (k : string) : bool :=
  bool_decide (k ∈ prototype_names ++ extra).

(** No property of a built-in object has a name that starts with a
    digit. *)
Definition starts_with_digit (s : string) : bool :=
  match s with
  | String c _ => match digit_val c with Some _ => true | None => false end
  | EmptyString => false
  end.

End JS.

(** *** Dates *)

(** What the program takes from its host. *)
Class Host := {
  (** offset of the host's local time from UTC, in milliseconds *)
  LocalTZA : Z;
  (** what [Date.parse] answers on a string that is not in the ECMAScript
      date-time format (the language leaves it to the implementation);
      [None] stands for NaN *)
  legacyParse : string -> option Z;
  (** [a.localeCompare(b)] in the host's collation *)
  localeCompare : string -> string -> Z
}.

(** What the program takes from the host's internationalisation library. *)
Class Intl := {
  (** [new Date(t).toLocaleString("en-US", { timeZone: "America/Toronto" })]:
      the wall clock of Toronto at the instant [t], in the writing of the
      en-US locale *)
  torontoString : Z -> string
}.

Module JSDate.

(** Exactly [n] decimal digits. *)
Fixpoint read_digits (n : nat) (s : string) : option (Z * string) :=
  match n with
  | O => Some (0, s)
  | S k =>
      match s with
      | String c s' =>
          d ← JS.digit_val c;
          '(v, rest) ← read_digits k s';
          Some (d * 10 ^ Z.of_nat k + v, rest)
      | EmptyString => None
      end
  end.

Record fields := {
  f_year : Z; f_month : Z; f_day : Z;
  f_time : option (Z * Z * Z * Z);      (* hours, minutes, seconds, milliseconds *)
  f_offset : option Z                   (* minutes east of UTC, when written *)
}.

Definition read_offset (s : string) : option (option Z) :=
  match s with
  | EmptyString => Some None
  | String "Z" EmptyString => Some (Some 0)
  | String sign r =>
      if Ascii.eqb sign "+" || Ascii.eqb sign "-" then
        '(h, r1) ← read_digits 2 r;
        match r1 with
        | String ":" r2 =>
            '(m, r3) ← read_digits 2 r2;
            match r3 with
            | EmptyString =>
                if (h <=? 23) && (m <=? 59)
                then Some (Some ((if Ascii.eqb sign "-" then -1 else 1) * (h * 60 + m)))
                else None
            | _ => None
            end
        | _ => None
        end
      else None
  end.

Definition read_time (s : string) : option ((Z * Z * Z * Z) * string) :=
  '(h, r1) ← read_digits 2 s;
  match r1 with
  | String ":" r2 =>
      '(m, r3) ← read_digits 2 r2;
      match r3 with
      | String ":" r4 =>
          '(sec, r5) ← read_digits 2 r4;
          match r5 with
          | String "." r6 =>
              '(ms, r7) ← read_digits 3 r6;
              Some ((h, m, sec, ms), r7)
          | _ => Some ((h, m, sec, 0), r5)
          end
      | _ => Some ((h, m, 0, 0), r3)
      end
  | _ => None
  end.

Definition read_date (s : string) : option ((Z * Z * Z) * string) :=
  '(y, r) ← read_digits 4 s;
  match r with
  | String "-" r1 =>
      '(m, r2) ← read_digits 2 r1;
      match r2 with
      | String "-" r3 =>
          '(d, r4) ← read_digits 2 r3;
          Some ((y, m, d), r4)
      | _ => Some ((y, m, 1), r2)
      end
  | _ => Some ((y, 1, 1), r)
  end.

(** The shape [YYYY[-MM[-DD]][THH:mm[:ss[.sss]][Z|±HH:mm]]]. *)
Definition read_fields (s : string) : option fields :=
  '(y, m, d, r) ← read_date s;
  match r with
  | EmptyString =>
      Some {| f_year := y; f_month := m; f_day := d; f_time := None; f_offset := None |}
  | String "T" r1 =>
      '(t, r2) ← read_time r1;
      off ← read_offset r2;
      Some {| f_year := y; f_month := m; f_day := d; f_time := Some t; f_offset := off |}
  | _ => None
  end.

Definition InLeapYear (y : Z) : bool :=
  (y mod 4 =? 0) && (negb (y mod 100 =? 0) || (y mod 400 =? 0)).

Definition DaysInMonth (y m : Z) : Z :=
  if m =? 2 then (if InLeapYear y then 29 else 28)
  else if (m =? 4) || (m =? 6) || (m =? 9) || (m =? 11) then 30
  else 31.

Definition DayFromYear (y : Z) : Z :=
  365 * (y - 1970) + (y - 1969) / 4 - (y - 1901) / 100 + (y - 1601) / 400.

Definition MakeDay (y m d : Z) : Z :=
  DayFromYear y
  + fold_left Z.add (List.map (DaysInMonth y) (seqZ 1 (m - 1))) 0
  + (d - 1).

Definition msPerDay : Z := 86400000.

Inductive iso_result :=
  | IsoLocal (t : Z)       (* a date-time with no offset: local time *)
  | IsoUTC (t : Z)         (* a date alone, or a date-time with an offset *)
  | IsoIllegal             (* the shape is right, an element is out of bounds *)
  | NotIso.                (* another shape, or a day the month does not have *)

Definition time_ok (t : Z * Z * Z * Z) : bool :=
  let '(h, m, s, ms) := t in
  ((h <=? 23) && (m <=? 59) && (s <=? 59))
  || ((h =? 24) && (m =? 0) && (s =? 0) && (ms =? 0)).

Definition time_ms (t : Z * Z * Z * Z) : Z :=
  let '(h, m, s, ms) := t in h * 3600000 + m * 60000 + s * 1000 + ms.

Definition parse_iso (s : string) : iso_result :=
  match read_fields s with
  | None => NotIso
  | Some f =>
      if negb ((1 <=? f_month f) && (f_month f <=? 12)
               && (1 <=? f_day f) && (f_day f <=? 31)
               && match f_time f with Some t => time_ok t | None => true end)
      then IsoIllegal
      else if DaysInMonth (f_year f) (f_month f) <? f_day f then NotIso
      else
        let day := MakeDay (f_year f) (f_month f) (f_day f) * msPerDay in
        match f_time f, f_offset f with
        | None, _ => IsoUTC day
        | Some t, None => IsoLocal (day + time_ms t)
        | Some t, Some off => IsoUTC (day + time_ms t - off * 60000)
        end
  end.

(** [new Date(s).getTime()], with [None] for NaN. *)
Definition parse `{Host} (s : string) : option Z :=
  match parse_iso s with
  | IsoLocal t => Some (t - LocalTZA)
  | IsoUTC t => Some t
  | IsoIllegal => None
  | NotIso => legacyParse s
  end.

(** The day number of a time value, and the year it falls in: the largest
    [y] with [DayFromYear y <= Day t].  Four hundred years are 146097
    days, which gives the year but for one. *)
Definition Day (t : Z) : Z := t / msPerDay.

Definition YearFromDay (d : Z) : Z :=
  let y := 1970 + 400 * d / 146097 in
  if DayFromYear (y + 1) <=? d then y + 1
  else if DayFromYear y <=? d then y
  else y - 1.

Definition YearFromTime (t : Z) : Z := YearFromDay (Day t).

(** Month (from 1) and day of the month (from 1) of the day numbered
    [dayWithinYear] (from 0) in the year [y]. *)
Definition month_and_date (y dayWithinYear : Z) : Z * Z :=
  let '(m, d) :=
    fold_left
      (fun '(m, d) k =>
         if (m =? k) && (DaysInMonth y k <=? d) then (k + 1, d - DaysInMonth y k) else (m, d))
      (seqZ 1 11) (1, dayWithinYear) in
  (m, d + 1).

Definition pad (n : nat) (v : Z) : string := JS.padStart0 n (pretty v).

(** [Date.prototype.toISOString] on a valid time value: the fields in UTC,
    the year on four digits, or signed on six outside 0..9999. *)
Definition toISOString (t : Z) : string :=
  let y := YearFromTime t in
  let '(m, d) := month_and_date y (Day t - DayFromYear y) in
  let ms := t mod msPerDay in
  (if (0 <=? y) && (y <=? 9999) then pad 4 y
   else (if y <? 0 then "-" else "+") +:+ pad 6 (Z.abs y))
  +:+ "-" +:+ pad 2 m +:+ "-" +:+ pad 2 d
  +:+ "T" +:+ pad 2 (ms / 3600000) +:+ ":" +:+ pad 2 (ms / 60000 mod 60)
  +:+ ":" +:+ pad 2 (ms / 1000 mod 60) +:+ "." +:+ pad 3 (ms mod 1000) +:+ "Z".

End JSDate.

(** ** Part II: the data model ([types.ts]) *)

Module TimeEntry.
Record t := mk {
  id : string;
  person_name : string;
  job_name : string;
  date : string;              (* YYYY-MM-DD *)
  clock_in : string;          (* HH:mm *)
  clock_out : string;         (* HH:mm *)
  lunch_30_min : bool;
  notes : string;
  created_at : Z;
  duration_mins : Q
}.
End TimeEntry.

(** [Partial<TimeEntry>]: every field may be absent. *)
Module PartialEntry.
Record t := mk {
  id : option string;
  person_name : option string;
  job_name : option string;
  date : option string;
  clock_in : option string;
  clock_out : option string;
  lunch_30_min : option bool;
  notes : option string;
  created_at : option Z;
  duration_mins : option Q
}.

(** The object [{}]. *)
Definition empty : t := mk None None None None None None None None None None.

Definition of_entry (e : TimeEntry.t) : t :=
  mk (Some (TimeEntry.id e)) (Some (TimeEntry.person_name e))
     (Some (TimeEntry.job_name e)) (Some (TimeEntry.date e))
     (Some (TimeEntry.clock_in e)) (Some (TimeEntry.clock_out e))
     (Some (TimeEntry.lunch_30_min e)) (Some (TimeEntry.notes e))
     (Some (TimeEntry.created_at e)) (Some (TimeEntry.duration_mins e)).
End PartialEntry.

Module ActiveSession.
Record t := mk {
  person_name : string;
  job_name : string;
  startTime : Z;
  accumulatedMsBeforeThisSession : Q
}.
End ActiveSession.

(** ** Part III: [utils.ts] *)

Module Utils.

(** [now] is the instant [new Date()] reads.  The text the host writes for
    the wall clock of Toronto is read back by [new Date(...)]: it is not in
    the ECMAScript format and carries no offset, so the host reads it as a
    time of its own zone.  [None] stands for an invalid date. *)
Definition getTorontoDate `{Host} `{Intl} (now : Z) : option Z :=
  JSDate.parse (torontoString now).

(** [None]: [toISOString] throws a RangeError on an invalid date. *)
Definition getTorontoISODate `{Host} `{Intl} (now : Z) : option string :=
  match getTorontoDate now with
  | Some d => Some (default "" (JS.split ["T"] (JSDate.toISOString d) !! 0%nat))
  | None => None
  end.

Definition Qltb (x y : Q) : bool := negb (Qle_bool y x).

Definition formatMinutesToHMM (totalMinutes : Q) : string :=
  let isNegative := Qltb totalMinutes 0 in
  let absMinutes := Qfloor (Qabs totalMinutes) in
  let hours := Qfloor (inject_Z absMinutes / 60) in
  let mins := Z.rem absMinutes 60 in
  (if isNegative then "-" else "") +:+ pretty hours +:+ ":" +:+ JS.padStart0 2 (pretty mins).

Definition validateEntry `{Host} (entry : PartialEntry.t) : option string :=
  if negb (JS.truthy_opt (PartialEntry.person_name entry)) then Some "Worker name is required"
  else if negb (JS.truthy_opt (PartialEntry.date entry)) then Some "Date is required"
  else if negb (JS.truthy_opt (PartialEntry.clock_in entry)) then Some "Clock-in time is required"
  else if negb (JS.truthy_opt (PartialEntry.clock_out entry)) then Some "Clock-out time is required"
  else
    let start := JSDate.parse ("2000-01-01T" +:+ default "" (PartialEntry.clock_in entry)) in
    let end_ := JSDate.parse ("2000-01-01T" +:+ default "" (PartialEntry.clock_out entry)) in
    match start, end_ with
    | None, _ => Some "Invalid clock-in time"
    | Some _, None => Some "Invalid clock-out time"
    | Some s, Some e =>
        if e <=? s then Some "Clock-out must be after clock-in" else None
    end.

Definition getDurationMinutes `{Host} (clockIn clockOut : string) (lunch30 : bool) : Q :=
  let start := JSDate.parse ("2000-01-01T" +:+ clockIn) in
  let end_ := JSDate.parse ("2000-01-01T" +:+ clockOut) in
  match start, end_ with
  | Some s, Some e =>
      let diffMins := (inject_Z (e - s) / inject_Z (1000 * 60))%Q in
      let diffMins := if lunch30 then (diffMins - 30)%Q else diffMins in
      Qmax 0 diffMins
  | _, _ => 0%Q
  end.

End Utils.

(** ** Part IV: [App.tsx] *)

Module App.

(** The handlers run on the state the component was last rendered with;
    the state they read and the state they update are the same value. *)

Definition addPerson (name : string) (people : list string) : list string :=
  if JS.truthy name && negb (bool_decide (name ∈ people))
  then JS.Array_sort JS.default_before (people ++ [name])
  else people.

Definition addJob (name : string) (jobs : list string) : list string :=
  if JS.truthy name && negb (bool_decide (name ∈ jobs))
  then JS.Array_sort JS.default_before (jobs ++ [name])
  else jobs.

(** [today] is the value of [getTorontoISODate()] and [now] the value of
    [Date.now()] at the call. *)
Definition handleClockIn (today : string) (now : Z) (entries : list TimeEntry.t)
    (person job : string) (prev : gmap string ActiveSession.t)
    : gmap string ActiveSession.t :=
  let accumulatedMinsToday :=
    fold_left (fun acc curr => (acc + TimeEntry.duration_mins curr)%Q)
      (List.filter (fun e => String.eqb (TimeEntry.person_name e) person
                             && String.eqb (TimeEntry.date e) today) entries)
      0%Q in
  <[person := ActiveSession.mk person job now
                (accumulatedMinsToday * 60 * 1000)%Q]> prev.

(** [handleClockIn] with its call of [getTorontoISODate()] in it: [clock]
    is the instant [new Date()] reads there, [now] what [Date.now()]
    answers in the updater.  [None]: the call throws. *)
Definition handleClockIn_at `{Host} `{Intl} (clock now : Z) (entries : list TimeEntry.t)
    (person job : string) (prev : gmap string ActiveSession.t)
    : option (gmap string ActiveSession.t) :=
  match Utils.getTorontoISODate clock with
  | Some today => Some (handleClockIn today now entries person job prev)
  | None => None
  end.

(** Writes sent to the entries collection of the signed-in user.
    [SetStray id person] is [setDoc] called, under [id], with the object
    [handleClockOut] builds for [person] from a value that is not a
    session: its [job_name] is not a string and its [duration_mins] is
    NaN. *)
Inductive write :=
  | SetDoc (e : TimeEntry.t)
  | DeleteDoc (id : string)
  | SetStray (id person : string).

(** The entries of the collection after a write; a stray document is not
    one of them, whether or not the store accepts it. *)
Definition apply_write (docs : gmap string TimeEntry.t) (w : write)
    : gmap string TimeEntry.t :=
  match w with
  | SetDoc e => <[TimeEntry.id e := e]> docs
  | DeleteDoc i => delete i docs
  | SetStray _ _ => docs
  end.

(** The collection after the writes have completed in the given order. *)
Definition run_writes (ws : list write) (docs : gmap string TimeEntry.t)
    : gmap string TimeEntry.t :=
  fold_left apply_write ws docs.

Definition upsertEntry (user : option string) (entry : TimeEntry.t) : list write :=
  match user with
  | None => []
  | Some _ => [SetDoc entry]
  end.

Definition removeEntry (user : option string) (id : string) : list write :=
  match user with
  | None => []
  | Some _ => [DeleteDoc id]
  end.

(** [upsertEntry] on the object built from a value that is not a
    session. *)
Definition upsertStray (user : option string) (id person : string) : list write :=
  match user with
  | None => []
  | Some _ => [SetStray id person]
  end.

(** What [handleClockOut] reads from the host, in the order of the calls. *)
Record readings := {
  prototypeExtra : list string;   (* what Object.prototype holds beyond its own, see JS.inherited *)
  endTime : Z;                    (* Date.now() *)
  randomUUID : string;            (* crypto.randomUUID() *)
  torontoISODate : string;        (* getTorontoISODate() *)
  localeTime : Z -> string;       (* new Date(t).toLocaleTimeString("en-US", ...) *)
  torontoTimeString : string;     (* getTorontoTimeString() *)
  createdAt : Z                   (* Date.now(), read again *)
}.

Definition handleClockOut (user : option string) (r : readings) (person : string)
    (activeSessions : gmap string ActiveSession.t)
    : list write * gmap string ActiveSession.t :=
  match activeSessions !! person with
  | None =>
      if JS.inherited (prototypeExtra r) person
      then
        (* [activeSessions[person]] is an inherited object: the guard
           [if (!session) return] lets it pass; it has no [startTime] that
           is a number, so the minutes are NaN *)
        (upsertStray user (randomUUID r) person, delete person activeSessions)
      else ([], activeSessions)
  | Some session =>
      let durationMs := endTime r - ActiveSession.startTime session in
      let durationMins := (inject_Z durationMs / inject_Z (1000 * 60))%Q in
      let newEntry :=
        TimeEntry.mk (randomUUID r) person (ActiveSession.job_name session)
          (torontoISODate r)
          (localeTime r (ActiveSession.startTime session))
          (torontoTimeString r)
          false
          ("Session: " +:+ ActiveSession.job_name session)
          (createdAt r)
          durationMins in
      (upsertEntry user newEntry, delete person activeSessions)
  end.

(** [confirmed] is the answer to the dialog. *)
Definition approveEntries (confirmed : bool) (user : option string) (ids : list string)
    : list write :=
  if negb confirmed then []
  else concat (List.map (removeEntry user) ids).

End App.

(** ** Part V: [Report.tsx] *)

Module DailySummary.
Record t := mk {
  date : string;
  duration_mins : Q;
  job_names : list string;
  entryIds : list string
}.
End DailySummary.

Module PersonReport.
Record t := mk {
  person_name : string;
  dailySummaries : list DailySummary.t;
  totalMins : Q;
  allIds : list string
}.
End PersonReport.

Module Report.

(** [a >= b] and [a <= b] on numbers that may be NaN. *)
Definition num_ge (a b : option Z) : bool :=
  match a, b with
  | Some x, Some y => y <=? x
  | _, _ => false
  end.

Definition num_le (a b : option Z) : bool :=
  match a, b with
  | Some x, Some y => x <=? y
  | _, _ => false
  end.

Definition matches `{Host} (filterPerson filterDateStart filterDateEnd : string)
    (entry : TimeEntry.t) : bool :=
  let matchesPerson :=
    String.eqb filterPerson "All" || String.eqb (TimeEntry.person_name entry) filterPerson in
  let entryDate := JSDate.parse (TimeEntry.date entry) in
  let matchesStart :=
    negb (JS.truthy filterDateStart) || num_ge entryDate (JSDate.parse filterDateStart) in
  let matchesEnd :=
    negb (JS.truthy filterDateEnd) || num_le entryDate (JSDate.parse filterDateEnd) in
  matchesPerson && matchesStart && matchesEnd.

(** How a run of the grouping loop ends. *)
Inductive outcome (A : Type) : Type :=
  | Done (a : A)     (* it completes, with this state *)
  | TypeError        (* the source throws a TypeError *)
  | Unfollowed.      (* it goes on inside a built-in object; not followed *)
Arguments Done {A} a.
Arguments TypeError {A}.
Arguments Unfollowed {A}.

(** The three updates of a day: minutes, identifiers, job names. *)
Definition add_to (day : DailySummary.t) (entry : TimeEntry.t) : DailySummary.t :=
  DailySummary.mk
    (DailySummary.date day)
    (DailySummary.duration_mins day + TimeEntry.duration_mins entry)%Q
    (if bool_decide (TimeEntry.job_name entry ∈ DailySummary.job_names day)
     then DailySummary.job_names day
     else DailySummary.job_names day ++ [TimeEntry.job_name entry])
    (DailySummary.entryIds day ++ [TimeEntry.id entry]).

(** The round of the [forEach] once [personMap[name]] is the own property
    [days] of [personMap].  [days[date]] is an own day; or a property of
    [Object.prototype], a function or [Object.prototype] itself, which is
    truthy and has no array [entryIds], so that [day.entryIds.push] throws;
    or a day object left on [Object.prototype], which takes the entry
    while [days] gets nothing; or nothing, and a day is created. *)
Definition add_day (personMap : JS.Obj (JS.Obj DailySummary.t)) (extra : list string)
    (days : JS.Obj DailySummary.t) (entry : TimeEntry.t)
    : outcome (JS.Obj (JS.Obj DailySummary.t) * list string) :=
  let name := TimeEntry.person_name entry in
  let date := TimeEntry.date entry in
  match JS.obj_get date days with
  | Some day =>
      Done (JS.obj_set name (JS.obj_set date (add_to day entry) days) personMap, extra)
  | None =>
      if bool_decide (date ∈ JS.prototype_names) then TypeError
      else if bool_decide (date ∈ extra) then Done (personMap, extra)
      else
        let day := DailySummary.mk date 0%Q [] [] in
        Done (JS.obj_set name (JS.obj_set date (add_to day entry) days) personMap, extra)
  end.

(** One round of the [forEach] that fills [personMap].  The state is the
    own properties of [personMap] and [extra], the names under which
    [Object.prototype] holds a day object (see [JS.inherited]).

    When [personMap[name]] is not an own property but an inherited object
    (a function of [Object.prototype], [Object.prototype] itself under
    "__proto__", or a day left there), no property is created in
    [personMap]: the day is looked up in, and if need be created on, that
    object.  Such a day is out of reach of [Object.entries(personMap)];
    created on [Object.prototype] itself, it is inherited by every object
    from then on.  The names of the properties built-in objects have do
    not start with a digit; for a date that does not, what the inherited
    object holds under it is not followed. *)
Definition add_entry (st : JS.Obj (JS.Obj DailySummary.t) * list string)
    (entry : TimeEntry.t) : outcome (JS.Obj (JS.Obj DailySummary.t) * list string) :=
  let '(personMap, extra) := st in
  let name := TimeEntry.person_name entry in
  let date := TimeEntry.date entry in
  match JS.obj_get name personMap with
  | Some days => add_day personMap extra days entry
  | None =>
      if JS.inherited extra name then
        if negb (JS.starts_with_digit date) then Unfollowed
        else if String.eqb name "__proto__" && negb (bool_decide (date ∈ extra))
             then Done (personMap, extra ++ [date])
             else Done (personMap, extra)
      else add_day (JS.obj_set name [] personMap) extra [] entry
  end.

(** The rounds of the [forEach], up to the first that does not
    complete. *)
Fixpoint add_entries (st : JS.Obj (JS.Obj DailySummary.t) * list string)
    (entries : list TimeEntry.t)
    : outcome (JS.Obj (JS.Obj DailySummary.t) * list string) :=
  match entries with
  | [] => Done st
  | entry :: rest =>
      match add_entry st entry with
      | Done st' => add_entries st' rest
      | TypeError => TypeError
      | Unfollowed => Unfollowed
      end
  end.

(** The comparison function of the sort of the days; NaN counts as 0. *)
Definition date_diff `{Host} (a b : DailySummary.t) : Z :=
  match JSDate.parse (DailySummary.date a), JSDate.parse (DailySummary.date b) with
  | Some x, Some y => x - y
  | _, _ => 0
  end.

Definition person_report `{Host} (p : string * JS.Obj DailySummary.t) : PersonReport.t :=
  let '(name, days) := p in
  let dailySummaries := JS.Array_sort (JS.before_of date_diff) (JS.Object_values days) in
  let totalMins :=
    fold_left (fun acc curr => (acc + DailySummary.duration_mins curr)%Q) dailySummaries 0%Q in
  let allIds := concat (List.map DailySummary.entryIds dailySummaries) in
  PersonReport.mk name dailySummaries totalMins allIds.

Definition name_diff `{Host} (a b : PersonReport.t) : Z :=
  localeCompare (PersonReport.person_name a) (PersonReport.person_name b).

(** The report, and what [Object.prototype] holds after the run; [extra]
    is what it held before. *)
Definition reportData `{Host} (extra : list string) (entries : list TimeEntry.t)
    (filterPerson filterDateStart filterDateEnd : string)
    : outcome (list PersonReport.t * list string) :=
  let filtered := List.filter (matches filterPerson filterDateStart filterDateEnd) entries in
  match add_entries ([], extra) filtered with
  | Done (personMap, extra') =>
      let results := List.map person_report (JS.Object_entries personMap) in
      Done (JS.Array_sort (JS.before_of name_diff) results, extra')
  | TypeError => TypeError
  | Unfollowed => Unfollowed
  end.

End Report.

(** The run of the report when every name and every date it meets is
    found among own properties or nowhere ([grouped_run] relates it to
    [Report.reportData]). *)
Module Grouped.

Definition add_entry (personMap : JS.Obj (JS.Obj DailySummary.t)) (entry : TimeEntry.t)
    : JS.Obj (JS.Obj DailySummary.t) :=
  let name := TimeEntry.person_name entry in
  let date := TimeEntry.date entry in
  let personMap :=
    match JS.obj_get name personMap with
    | Some _ => personMap
    | None => JS.obj_set name [] personMap
    end in
  let days := default [] (JS.obj_get name personMap) in
  let days :=
    match JS.obj_get date days with
    | Some _ => days
    | None => JS.obj_set date (DailySummary.mk date 0%Q [] []) days
    end in
  let day := default (DailySummary.mk date 0%Q [] []) (JS.obj_get date days) in
  JS.obj_set name (JS.obj_set date (Report.add_to day entry) days) personMap.

Definition reportData `{Host} (entries : list TimeEntry.t)
    (filterPerson filterDateStart filterDateEnd : string) : list PersonReport.t :=
  let filtered :=
    List.filter (Report.matches filterPerson filterDateStart filterDateEnd) entries in
  let personMap := fold_left add_entry filtered [] in
  let results := List.map Report.person_report (JS.Object_entries personMap) in
  JS.Array_sort (JS.before_of Report.name_diff) results.

End Grouped.

(** ** Part VI: [BulkImport.tsx] *)

Module BulkImport.

Record result := mk {
  entry : PartialEntry.t;
  error : option string
}.

Definition LF : string := JS.utf8 [10%N].
Definition DQUOTE : string := JS.utf8 [34%N].

(** The separators of [/[-–—]/]: hyphen, en dash, em dash. *)
Definition dashes : list string :=
  ["-"; JS.utf8 [226%N; 128%N; 147%N]; JS.utf8 [226%N; 128%N; 148%N]].

(** [/lunch|break|30|30min|0:30/.test(s)]. *)
Definition lunch_test (s : string) : bool :=
  existsb (fun p => JS.includes p s) ["lunch"; "break"; "30"; "30min"; "0:30"].

Definition or_default (o : option string) (d : string) : string :=
  if JS.truthy_opt o then default d o else d.

(** The body of the [forEach]; [uuid] and [now] are what
    [crypto.randomUUID()] and [Date.now()] answer when the round asks. *)
Definition parse_line `{Host} (uuid : string) (now : Z) (line : string) : result :=
  let parts := List.map JS.trim (JS.split ["|"] line) in
  if (length parts <? 3)%nat then
    mk PartialEntry.empty
       (Some ("Invalid format: " +:+ DQUOTE +:+ JS.substring0 30 line +:+ "..." +:+ DQUOTE))
  else
    let name := default "" (parts !! 0%nat) in
    let date := default "" (parts !! 1%nat) in
    let timeRange := default "" (parts !! 2%nat) in
    let hasLunch := lunch_test (JS.toLowerCase line) in
    let times := List.map JS.trim (JS.split dashes timeRange) in
    let clockIn := times !! 0%nat in
    let clockOut := times !! 1%nat in
    let entry :=
      TimeEntry.mk uuid name "Bulk Import" date
        (or_default clockIn "00:00") (or_default clockOut "00:00")
        hasLunch ("Bulk imported line: " +:+ line) now
        (Utils.getDurationMinutes (or_default clockIn "00:00")
           (or_default clockOut "00:00") hasLunch) in
    let error := Utils.validateEntry (PartialEntry.of_entry entry) in
    mk (PartialEntry.of_entry entry) error.

(** Does the round for [line] build a candidate (and so draw an identifier
    and read the clock)? *)
Definition well_formed (line : string) : bool :=
  negb (length (JS.split ["|"] line) <? 3)%nat.

(** The rounds of the [forEach]; [supply n] is what the [n]-th candidate
    built receives from [crypto.randomUUID()] and [Date.now()]. *)
Fixpoint parse_lines `{Host} (supply : nat -> string * Z) (n : nat) (lines : list string)
    : list result :=
  match lines with
  | [] => []
  | line :: rest =>
      parse_line (fst (supply n)) (snd (supply n)) line
      :: parse_lines supply (if well_formed line then S n else n) rest
  end.

Definition handleParse `{Host} (supply : nat -> string * Z) (inputText : string)
    : list result :=
  let lines := List.filter (fun line => JS.truthy (JS.trim line)) (JS.split [LF] inputText) in
  parse_lines supply 0 lines.

(** [Some l] when [onImport] is called, with [l]. *)
Definition confirmImport (results : list result) : option (list PartialEntry.t) :=
  let validEntries :=
    List.map entry (List.filter (fun r => negb (JS.truthy_opt (error r))) results) in
  if (0 <? length validEntries)%nat then Some validEntries else None.

End BulkImport.

(** ** Part VI-b: the rest of the sources *)

(** *** [utils.ts], continued *)

Module UtilsTime.

Fixpoint take_digits (s : string) : string :=
  match s with
  | EmptyString => EmptyString
  | String c s' =>
      match JS.digit_val c with
      | Some _ => String c (take_digits s')
      | None => EmptyString
      end
  end.

(** [parseInt(s, 10)]: leading white space is skipped, a sign is read, then
    the longest run of digits; [None] stands for NaN. *)
Definition parseInt10 (s : string) : option Z :=
  let s := JS.trimStart s in
  let '(sign, s) :=
    match s with
    | String "-" r => (-1, r)
    | String "+" r => (1, r)
    | _ => (1, s)
    end in
  match take_digits s with
  | EmptyString => None
  | ds => Some (sign * JS.decimal_value 0 ds)
  end.

Definition formatTimeTo12h (time24 : string) : string :=
  if negb (JS.truthy time24) then ""
  else
    let parts := JS.split [":"] time24 in
    let hours := default "" (parts !! 0%nat) in
    let minutes := parts !! 1%nat in
    let h := parseInt10 hours in
    let m := match minutes with Some m => m | None => "undefined" end in
    let ampm :=
      match h with
      | Some v => if 12 <=? v then "PM" else "AM"
      | None => "AM"
      end in
    let h := (fun v => Z.rem v 12) <$> h in
    let h :=
      match h with
      | Some v => if v =? 0 then 12 else v
      | None => 12
      end in
    pretty h +:+ ":" +:+ m +:+ " " +:+ ampm.

Definition calculateDailyMinutes (entry : TimeEntry.t) : Q :=
  TimeEntry.duration_mins entry.

End UtilsTime.

(** *** [Dashboard.tsx] *)

Module Dashboard.

(** [prev[p]] read for its truth: the own property, a string, when there
    is one; else what [Object.prototype] holds under [p]. *)
Definition selected (extra : list string) (prev : gmap string string) (p : string) : bool :=
  match prev !! p with
  | Some job => JS.truthy job
  | None => JS.inherited extra p
  end.

(** The updater of [selectedJobs]; [extra] as in [JS.inherited]. *)
Definition handleJobChange (extra : list string) (people : list string)
    (personName jobName : string) (prev : gmap string string) : gmap string string :=
  let next := <[personName := jobName]> prev in
  if JS.truthy jobName then
    fold_left
      (fun next p =>
         if negb (selected extra prev p) && negb (String.eqb p personName)
         then <[p := jobName]> next
         else next)
      people next
  else next.

End Dashboard.

(** *** [EntriesList.tsx] *)

Module EntriesList.

Definition filteredEntries (entries : list TimeEntry.t) (searchTerm filterPerson : string)
    : list TimeEntry.t :=
  List.filter
    (fun entry =>
       let matchesSearch :=
         JS.includes (JS.toLowerCase searchTerm) (JS.toLowerCase (TimeEntry.person_name entry))
         || JS.includes (JS.toLowerCase searchTerm) (JS.toLowerCase (TimeEntry.job_name entry))
         || JS.includes (JS.toLowerCase searchTerm) (JS.toLowerCase (TimeEntry.notes entry)) in
       let matchesPerson :=
         String.eqb filterPerson "All" || String.eqb (TimeEntry.person_name entry) filterPerson in
       matchesSearch && matchesPerson)
    entries.

End EntriesList.

(** *** [App.tsx], the variant that keeps the entries in the component *)

Module LocalApp.

(** [editing] says whether [editingEntry] is set. *)
Definition saveEntry (editing : bool) (entry : TimeEntry.t) (prev : list TimeEntry.t)
    : list TimeEntry.t :=
  if editing
  then List.map (fun e => if String.eqb (TimeEntry.id e) (TimeEntry.id entry)
                          then entry else e) prev
  else entry :: prev.

Definition deleteEntry (confirmed : bool) (id : string) (prev : list TimeEntry.t)
    : list TimeEntry.t :=
  if confirmed
  then List.filter (fun e => negb (String.eqb (TimeEntry.id e) id)) prev
  else prev.

Definition approveEntries (ids : list string) (prev : list TimeEntry.t)
    : list TimeEntry.t :=
  List.filter (fun e => negb (bool_decide (TimeEntry.id e ∈ ids))) prev.

End LocalApp.

(** *** [App.tsx], the synchronised variant, continued *)

Module AppStore.

Definition saveEntry (user : option string) (entry : TimeEntry.t) : list App.write :=
  App.upsertEntry user entry.

Definition deleteEntry (confirmed : bool) (user : option string) (id : string)
    : list App.write :=
  if confirmed then App.removeEntry user id else [].

End AppStore.

(** *** [AddEntry.tsx] *)

Module AddEntry.

(** [isoDate] is [new Date().toISOString().split('T')[0]] and [now] is
    [Date.now()], read when the component renders. *)
Definition initialState (isoDate : string) (now : Z) : TimeEntry.t :=
  TimeEntry.mk "" "" "Manual Entry" isoDate "08:00" "17:00" true "" now 510.

(** The effect that keeps [duration_mins] in step with the times and the
    lunch flag. *)
Definition sync_duration `{Host} (formData : TimeEntry.t) : TimeEntry.t :=
  let mins :=
    Utils.getDurationMinutes (TimeEntry.clock_in formData) (TimeEntry.clock_out formData)
      (TimeEntry.lunch_30_min formData) in
  if negb (Qeq_bool (TimeEntry.duration_mins formData) mins)
  then TimeEntry.mk (TimeEntry.id formData) (TimeEntry.person_name formData)
         (TimeEntry.job_name formData) (TimeEntry.date formData)
         (TimeEntry.clock_in formData) (TimeEntry.clock_out formData)
         (TimeEntry.lunch_30_min formData) (TimeEntry.notes formData)
         (TimeEntry.created_at formData) mins
  else formData.

Record outcome := {
  saved : option TimeEntry.t;       (* the argument of [onSave], when called *)
  formData' : TimeEntry.t;          (* the form afterwards *)
  error' : option string            (* the error shown afterwards *)
}.

(** [uuid] and [now] are what [crypto.randomUUID()] and [Date.now()] answer
    if asked; [editing] says whether [editingEntry] is set; [error] is the
    error shown before. *)
Definition handleSubmit `{Host} (uuid : string) (now : Z) (isoDate : string) (now0 : Z)
    (editing : bool) (formData : TimeEntry.t) : outcome :=
  let validationError := Utils.validateEntry (PartialEntry.of_entry formData) in
  if JS.truthy_opt validationError then
    {| saved := None; formData' := formData; error' := validationError |}
  else
    let entry :=
      TimeEntry.mk
        (if JS.truthy (TimeEntry.id formData) then TimeEntry.id formData else uuid)
        (TimeEntry.person_name formData) (TimeEntry.job_name formData)
        (TimeEntry.date formData) (TimeEntry.clock_in formData)
        (TimeEntry.clock_out formData) (TimeEntry.lunch_30_min formData)
        (TimeEntry.notes formData)
        (if TimeEntry.created_at formData =? 0 then now else TimeEntry.created_at formData)
        (TimeEntry.duration_mins formData) in
    {| saved := Some entry;
       formData' :=
         if editing then formData
         else
           let i := initialState isoDate now0 in
           TimeEntry.mk (TimeEntry.id i) (TimeEntry.person_name formData)
             (TimeEntry.job_name i) (TimeEntry.date formData)
             (TimeEntry.clock_in i) (TimeEntry.clock_out i)
             (TimeEntry.lunch_30_min i) (TimeEntry.notes i)
             (TimeEntry.created_at i) (TimeEntry.duration_mins i);
       error' := None |}.

End AddEntry.

(** *** [Report.tsx], the text of the clipboard table *)

Module ReportText.

(** [s.padEnd(n)], with spaces. *)
Definition padEnd (n : nat) (s : string) : string :=
  s +:+ String.string_of_list_ascii (List.repeat " "%char (n - String.length s)).

(** [names.join(', ')]. *)
Fixpoint join (names : list string) : string :=
  match names with
  | [] => ""
  | [x] => x
  | x :: rest => x +:+ ", " +:+ join rest
  end.

Definition job_column (d : DailySummary.t) : string :=
  JS.substring0 20 (padEnd 20 (join (DailySummary.job_names d))).

Definition day_row (d : DailySummary.t) : string :=
  padEnd 10 (DailySummary.date d) +:+ " | " +:+ job_column d +:+ " | "
  +:+ Utils.formatMinutesToHMM (DailySummary.duration_mins d) +:+ BulkImport.LF.

Definition rule_row : string :=
  "-----------|----------------------|-------" +:+ BulkImport.LF.

Definition person_block (personReport : PersonReport.t) : string :=
  "Employee: " +:+ PersonReport.person_name personReport +:+ BulkImport.LF
  +:+ "DATE       | JOB SITES            | TOTAL" +:+ BulkImport.LF
  +:+ rule_row
  +:+ fold_left (fun text d => text +:+ day_row d)
        (PersonReport.dailySummaries personReport) ""
  +:+ rule_row
  +:+ "TOTAL: " +:+ Utils.formatMinutesToHMM (PersonReport.totalMins personReport)
  +:+ BulkImport.LF +:+ BulkImport.LF.

Definition copyAsTableText (filterDateStart filterDateEnd : string)
    (reportData : list PersonReport.t) : string :=
  fold_left (fun text personReport => text +:+ person_block personReport)
    reportData
    ("Daily Timesheet Report (" +:+ filterDateStart +:+ " - " +:+ filterDateEnd +:+ ")"
     +:+ BulkImport.LF +:+ BulkImport.LF).

(** The rows handed to the spreadsheet: date, job sites, total hours. *)
Definition excel_rows (personReport : PersonReport.t) : list (string * string * string) :=
  List.map (fun d => (DailySummary.date d, join (DailySummary.job_names d),
                      Utils.formatMinutesToHMM (DailySummary.duration_mins d)))
    (PersonReport.dailySummaries personReport)
  ++ [("TOTAL", "", Utils.formatMinutesToHMM (PersonReport.totalMins personReport))].

End ReportText.

(** A host used to run the definitions on concrete inputs: five hours west
    of UTC, nothing recognised outside the standard date format, collation
    by code units. *)
Definition sample_host : Host :=
  {| LocalTZA := -18000000;
     legacyParse := fun _ => None;
     localeCompare := fun a b =>
       match String.compare a b with Lt => -1 | Eq => 0 | Gt => 1 end |}.

(** A host in Toronto on a winter evening, five hours west of UTC.  At the
    instant 1705368600000 (2024-01-16T01:30:00Z) the wall clock of Toronto
    reads half past eight in the evening of 15 January 2024; the host
    writes it the en-US way and reads that text back as a time of its own
    zone, which gives the same instant. *)
Definition evening : Z := 1705368600000.

Definition evening_text : string := "1/15/2024, 8:30:00 PM".

Definition evening_host : Host :=
  {| LocalTZA := -18000000;
     legacyParse := fun s => if String.eqb s evening_text then Some evening else None;
     localeCompare := fun a b =>
       match String.compare a b with Lt => -1 | Eq => 0 | Gt => 1 end |}.

Definition evening_intl : Intl :=
  {| torontoString := fun t =>
       if (evening <=? t) && (t <? evening + 1000) then evening_text else "" |}.

(** ** Part VII: the vocabulary of the properties *)

Section Vocabulary.
Context `{Host}.
Import Utils App Report BulkImport.

(** *** Numbers and digits *)

(** Truncation toward zero. *)
Definition Qtrunc (m : Q) : Z := Z.quot (Qnum m) (Zpos (Qden m)).

Definition digit_char (d : Z) : ascii := Ascii.ascii_of_N (48 + Z.to_N d).

Definition two_digits (n : Z) : string :=
  String (digit_char (n / 10)) (String (digit_char (n mod 10)) EmptyString).

Definition is_digit (c : ascii) : bool :=
  match JS.digit_val c with Some _ => true | None => false end.

(** Two digits, a colon, two digits. *)
Definition is_HHmm (s : string) : bool :=
  match s with
  | String a (String b (String ":" (String c (String d EmptyString)))) =>
      is_digit a && is_digit b && is_digit c && is_digit d
  | _ => false
  end.

Definition two_digit_value (a b : ascii) : Z :=
  10 * default 0 (JS.digit_val a) + default 0 (JS.digit_val b).

(** The minute of the day an [HH:mm] string names: hours 00 to 23 with
    minutes 00 to 59, or 24:00 for the end of the day. *)
Definition minute_of_day (s : string) : option Z :=
  match s with
  | String a (String b (String ":" (String c (String d EmptyString)))) =>
      let h := two_digit_value a b in
      let m := two_digit_value c d in
      if is_digit a && is_digit b && is_digit c && is_digit d
         && (((h <=? 23) && (m <=? 59)) || ((h =? 24) && (m =? 0)))
      then Some (h * 60 + m) else None
  | _ => None
  end.

(** Local midnight of 2000-01-01, before the zone offset is taken off. *)
Definition day2000 : Z := 946684800000.

(** *** The rules of the validator *)

(** The rules of the validator, in the order of their precedence. *)
Inductive rule :=
  | MissingName | MissingDate | MissingClockIn | MissingClockOut
  | BadClockIn | BadClockOut | NotAfter.

Definition rules : list rule :=
  [MissingName; MissingDate; MissingClockIn; MissingClockOut;
   BadClockIn; BadClockOut; NotAfter].

Definition message (r : rule) : string :=
  match r with
  | MissingName => "Worker name is required"
  | MissingDate => "Date is required"
  | MissingClockIn => "Clock-in time is required"
  | MissingClockOut => "Clock-out time is required"
  | BadClockIn => "Invalid clock-in time"
  | BadClockOut => "Invalid clock-out time"
  | NotAfter => "Clock-out must be after clock-in"
  end.

Definition missing (o : option string) : bool :=
  match o with
  | None => true
  | Some s => bool_decide (s = "")
  end.

(** The instant a clock field names on the reference day, if any. *)
Definition clock_instant (o : option string) : option Z :=
  JSDate.parse ("2000-01-01T" +:+ default "" o).

Definition strictly_after (e s : option Z) : bool :=
  match s, e with
  | Some s, Some e => bool_decide (s < e)
  | _, _ => false
  end.

(** Does the entry break the rule? *)
Definition breaks (entry : PartialEntry.t) (r : rule) : bool :=
  match r with
  | MissingName => missing (PartialEntry.person_name entry)
  | MissingDate => missing (PartialEntry.date entry)
  | MissingClockIn => missing (PartialEntry.clock_in entry)
  | MissingClockOut => missing (PartialEntry.clock_out entry)
  | BadClockIn => bool_decide (clock_instant (PartialEntry.clock_in entry) = None)
  | BadClockOut => bool_decide (clock_instant (PartialEntry.clock_out entry) = None)
  | NotAfter =>
      negb (strictly_after (clock_instant (PartialEntry.clock_out entry))
                           (clock_instant (PartialEntry.clock_in entry)))
  end.

(** The validator as the specification words it: the message of the first
    rule, in precedence order, that the entry breaks. *)
Definition first_broken_rule (entry : PartialEntry.t) : option string :=
  message <$> List.find (breaks entry) rules.

(** *** Orders and sums *)

(** [x] may stand before [y] for the comparison [before]. *)
Definition precedes {A : Type} (before : A -> A -> bool) (x y : A) : Prop :=
  before x y = true.

Definition any_string (s : string) : Prop := True.

Definition ascending (l : list string) : Prop :=
  StronglySorted (precedes JS.default_before) l.

(** The sum of a list of minutes. *)
Definition Qsum (l : list Q) : Q := foldr Qplus 0%Q l.

(** The entries of [person] dated [today]. *)
Definition entries_of (person today : string) (entries : list TimeEntry.t)
    : list TimeEntry.t :=
  filter (fun e => TimeEntry.person_name e = person /\ TimeEntry.date e = today) entries.

(** *** Sessions, and sample values *)

Definition entry_of_session (r : readings) (person : string) (session : ActiveSession.t)
    : TimeEntry.t :=
  TimeEntry.mk (randomUUID r) person (ActiveSession.job_name session)
    (torontoISODate r) (localeTime r (ActiveSession.startTime session))
    (torontoTimeString r) false
    ("Session: " +:+ ActiveSession.job_name session) (createdAt r)
    (inject_Z (endTime r - ActiveSession.startTime session) / inject_Z 60000)%Q.

(** A shift that ends before it starts. *)
Definition backwards_shift : PartialEntry.t :=
  PartialEntry.mk (Some "id") (Some "Alice") (Some "Site A") (Some "2024-01-01")
    (Some "09:00") (Some "08:00") (Some false) (Some "") (Some 0) (Some 0%Q).

Definition backwards_entry : TimeEntry.t :=
  TimeEntry.mk "" "Alice" "Site A" "2024-01-01" "09:00" "08:00" false "" 0 0.

(** A session opened at instant 1000 and closed at instant 61000. *)
Definition sample_readings : App.readings :=
  {| App.prototypeExtra := []; App.endTime := 61000; App.randomUUID := "uuid-1";
     App.torontoISODate := "2024-01-01"; App.localeTime := fun _ => "08:00";
     App.torontoTimeString := "08:01"; App.createdAt := 61001 |}.

Definition sample_session : ActiveSession.t :=
  ActiveSession.mk "Alice" "Site A" 1000 0.

Definition alice_morning : TimeEntry.t :=
  TimeEntry.mk "id1" "Alice" "Site A" "2024-01-01" "08:00" "09:00" false "" 1 60.

Definition alice_noon : TimeEntry.t :=
  TimeEntry.mk "id2" "Alice" "Site B" "2024-01-01" "10:00" "10:30" false "" 2 30.

Definition bob_morning : TimeEntry.t :=
  TimeEntry.mk "id3" "Bob" "Site A" "2024-01-02" "08:00" "08:45" false "" 3 45.

Definition sample_docs : gmap string TimeEntry.t :=
  <["id1" := alice_morning]> (<["id3" := bob_morning]> ∅).

(** *** Bulk lines *)

Definition format_error (line : string) : string :=
  "Invalid format: " +:+ DQUOTE +:+ JS.substring0 30 line +:+ "..." +:+ DQUOTE.

(** The candidate a well-formed line gives rise to. *)
Definition candidate (uuid : string) (now : Z) (line : string) : TimeEntry.t :=
  let parts := List.map JS.trim (JS.split ["|"] line) in
  let times := List.map JS.trim (JS.split dashes (default "" (parts !! 2%nat))) in
  let clockIn := or_default (times !! 0%nat) "00:00" in
  let clockOut := or_default (times !! 1%nat) "00:00" in
  let hasLunch := lunch_test (JS.toLowerCase line) in
  TimeEntry.mk uuid (default "" (parts !! 0%nat)) "Bulk Import"
    (default "" (parts !! 1%nat)) clockIn clockOut hasLunch
    ("Bulk imported line: " +:+ line) now
    (Utils.getDurationMinutes clockIn clockOut hasLunch).



Definition john_line : string := "John | 2026-02-01 | 08:00-17:00 | lunch".

Definition john_entry (uuid : string) (now : Z) : TimeEntry.t :=
  TimeEntry.mk uuid "John" "Bulk Import" "2026-02-01" "08:00" "17:00" true
    ("Bulk imported line: " +:+ john_line) now
    (Utils.getDurationMinutes "08:00" "17:00" true).

(** *** Grouping and reports *)

(** The distinct members of a list, in the order of their first
    occurrence. *)
Fixpoint first_seen (l : list string) : list string :=
  match l with
  | [] => []
  | x :: l' => x :: filter (fun y => y <> x) (first_seen l')
  end.

(** The summary of the entries of [p] dated [d] among [L]. *)
Definition summary_of (p d : string) (L : list TimeEntry.t) : DailySummary.t :=
  let B := entries_of p d L in
  DailySummary.mk d
    (fold_left Qplus (List.map TimeEntry.duration_mins B) 0%Q)
    (first_seen (List.map TimeEntry.job_name B))
    (List.map TimeEntry.id B).

Definition empty_day (d : string) : DailySummary.t := DailySummary.mk d 0%Q [] [].

Definition day_inv (p d : string) (L : list TimeEntry.t) (o : option DailySummary.t) : Prop :=
  match o with
  | None => entries_of p d L = []
  | Some day => day = summary_of p d L /\ entries_of p d L <> []
  end.

Definition days_inv (p : string) (L : list TimeEntry.t) (days : JS.Obj DailySummary.t) : Prop :=
  NoDup days.*1 /\ forall d, day_inv p d L (JS.obj_get d days).

Definition person_inv (p : string) (L : list TimeEntry.t)
    (o : option (JS.Obj DailySummary.t)) : Prop :=
  match o with
  | None => forall d, entries_of p d L = []
  | Some days => days <> [] /\ days_inv p L days
  end.

Definition map_inv (L : list TimeEntry.t) (pm : JS.Obj (JS.Obj DailySummary.t)) : Prop :=
  NoDup pm.*1 /\ forall p, person_inv p L (JS.obj_get p pm).

(** The round of the loop on the days of one person. *)
Definition add_to_day (day : DailySummary.t) (entry : TimeEntry.t) : DailySummary.t :=
  DailySummary.mk
    (DailySummary.date day)
    (DailySummary.duration_mins day + TimeEntry.duration_mins entry)%Q
    (if bool_decide (TimeEntry.job_name entry ∈ DailySummary.job_names day)
     then DailySummary.job_names day
     else DailySummary.job_names day ++ [TimeEntry.job_name entry])
    (DailySummary.entryIds day ++ [TimeEntry.id entry]).

(** What the filter lets through. *)
Definition in_filter (filterPerson filterDateStart filterDateEnd : string)
    (e : TimeEntry.t) : Prop :=
  (filterPerson = "All" \/ TimeEntry.person_name e = filterPerson)
  /\ (filterDateStart = ""
      \/ exists x y, JSDate.parse (TimeEntry.date e) = Some x
                     /\ JSDate.parse filterDateStart = Some y /\ y <= x)
  /\ (filterDateEnd = ""
      \/ exists x y, JSDate.parse (TimeEntry.date e) = Some x
                     /\ JSDate.parse filterDateEnd = Some y /\ x <= y).

(** Ascending by the instant the date names. *)
Definition date_le (a b : DailySummary.t) : Prop :=
  exists x y, JSDate.parse (DailySummary.date a) = Some x
              /\ JSDate.parse (DailySummary.date b) = Some y /\ x <= y.

Definition name_le (a b : PersonReport.t) : Prop :=
  localeCompare (PersonReport.person_name a) (PersonReport.person_name b) <= 0.

(** One summary of a report against the filtered entries [F]. *)
Definition day_ok (F : list TimeEntry.t) (p : string) (day : DailySummary.t) : Prop :=
  let B := entries_of p (DailySummary.date day) F in
  B <> []
  /\ (DailySummary.duration_mins day == Qsum (List.map TimeEntry.duration_mins B))%Q
  /\ DailySummary.job_names day = first_seen (List.map TimeEntry.job_name B)
  /\ DailySummary.entryIds day = List.map TimeEntry.id B.

Definition report_ok (F : list TimeEntry.t) (r : PersonReport.t) : Prop :=
  let p := PersonReport.person_name r in
  let days := PersonReport.dailySummaries r in
  NoDup (List.map DailySummary.date days)
  /\ (forall d, d ∈ List.map DailySummary.date days
                <-> exists e, e ∈ F /\ TimeEntry.person_name e = p /\ TimeEntry.date e = d)
  /\ Forall (day_ok F p) days
  /\ StronglySorted date_le days
  /\ (PersonReport.totalMins r == Qsum (List.map DailySummary.duration_mins days))%Q
  /\ PersonReport.allIds r = concat (List.map DailySummary.entryIds days).

Definition parses (day : DailySummary.t) : Prop :=
  is_Some (JSDate.parse (DailySummary.date day)).

Definition alice_report : PersonReport.t :=
  PersonReport.mk "Alice"
    [DailySummary.mk "2024-01-01" 90 ["Site A"; "Site B"] ["id1"; "id2"]]
    90 ["id1"; "id2"].

Definition bob_report : PersonReport.t :=
  PersonReport.mk "Bob"
    [DailySummary.mk "2024-01-02" 45 ["Site A"] ["id3"]]
    45 ["id3"].

(** *** Further vocabulary: clock faces, selections, keyed lists *)

Definition digits : list ascii :=
  ["0"; "1"; "2"; "3"; "4"; "5"; "6"; "7"; "8"; "9"]%char.

Definition HHmm (a b c d : ascii) : string :=
  String a (String b (String ":" (String c (String d EmptyString)))).

(** The hour of the twelve-hour clock for the hour [h]. *)
Definition hour12 (h : Z) : Z := if h mod 12 =? 0 then 12 else h mod 12.

Definition to12_check (a b c d : ascii) : bool :=
  String.eqb
    (UtilsTime.formatTimeTo12h (HHmm a b c d))
    (pretty (hour12 (two_digit_value a b)) +:+ ":" +:+ String c (String d EmptyString)
     +:+ " " +:+ (if 12 <=? two_digit_value a b then "PM" else "AM")).

(** Nothing is selected for [p]: the empty string, or no property at all,
    own or inherited. *)
Definition unselected (extra : list string) (prev : gmap string string) (p : string) : Prop :=
  prev !! p = Some "" \/ (prev !! p = None /\ JS.inherited extra p = false).

Definition ids_of (l : list TimeEntry.t) : list string := List.map TimeEntry.id l.

(** The members of [L] keyed [k]. *)
Definition keyed {A} (key : A -> string) (k : string) (L : list A) : list A :=
  filter (fun x => key x = k) L.

(** The entries of [p] among [L]. *)
Definition entries_of_person (p : string) (L : list TimeEntry.t) : list TimeEntry.t :=
  keyed TimeEntry.person_name p L.

Definition half_past_line : string := "Sarah | 2026-02-01 | 08:30-17:00".

(** No person and no date of [l] is the name of something inherited. *)
Definition ordinary_keys (extra : list string) (l : list TimeEntry.t) : bool :=
  forallb (fun e => negb (JS.inherited extra (TimeEntry.person_name e))
                    && negb (JS.inherited extra (TimeEntry.date e))) l.

(** A worker called constructor, and one called __proto__. *)
Definition constructor_morning : TimeEntry.t :=
  TimeEntry.mk "id4" "constructor" "Site A" "2024-01-01" "08:00" "09:00" false "" 4 60.

Definition proto_morning : TimeEntry.t :=
  TimeEntry.mk "id5" "__proto__" "Site A" "2024-01-01" "08:00" "09:00" false "" 5 60.

(** An entry whose date is the word constructor, as a bulk line can
    give. *)
Definition alice_undated : TimeEntry.t :=
  TimeEntry.mk "id7" "Alice" "Bulk Import" "constructor" "08:00" "09:00" false "" 7 60.

(** An hour worked by Alice on 15 January 2024. *)
Definition alice_evening : TimeEntry.t :=
  TimeEntry.mk "id6" "Alice" "Site A" "2024-01-15" "18:00" "19:00" false "" 6 60.

(** Only characters of one byte, for which the length in bytes is the
    length JavaScript counts. *)
Definition ascii_only (s : string) : bool :=
  forallb (fun c => (Ascii.N_of_ascii c <? 128)%N) (String.list_ascii_of_string s).

End Vocabulary.

(** ** Part VIII: properties *)

(** *** The platform model at work *)

Example split_keeps_empty_fields : JS.split ["|"] "a||b|" = ["a"; ""; "b"; ""].
Proof. reflexivity. Qed.

Example split_of_empty : JS.split ["|"] "" = [""].
Proof. reflexivity. Qed.

Example trim_both_ends : JS.trim "  08:00 " = "08:00".
Proof. reflexivity. Qed.

Example parse_iso_date : JSDate.parse_iso "2024-01-01" = JSDate.IsoUTC 1704067200000.
Proof. reflexivity. Qed.

Example parse_iso_clock :
  JSDate.parse_iso "2000-01-01T08:00" = JSDate.IsoLocal 946713600000.
Proof. reflexivity. Qed.

Example parse_iso_hour_25 : JSDate.parse_iso "2000-01-01T25:00" = JSDate.IsoIllegal.
Proof. reflexivity. Qed.

Example parse_iso_one_digit_hour : JSDate.parse_iso "2000-01-01T8:00" = JSDate.NotIso.
Proof. reflexivity. Qed.

Example array_index_canonical :
  JS.array_index "12" = Some 12 /\ JS.array_index "012" = None
  /\ JS.array_index "2024-01-01" = None /\ JS.array_index "4294967295" = None.
Proof. by repeat split. Qed.

Example sort_is_stable :
  JS.Array_sort (fun x y : Z * string => fst x <=? fst y)
    [(2, "a"); (1, "b"); (2, "c"); (1, "d")]
  = [(1, "b"); (1, "d"); (2, "a"); (2, "c")].
Proof. reflexivity. Qed.

(** *** Formatting minutes *)

Section Format.

Import Utils.

Lemma Qltb_spec (x y : Q) : Qltb x y = true <-> (x < y)%Q.
Proof.
  unfold Qltb. rewrite negb_true_iff. split.
  - intros Hb. apply Qnot_le_lt. intros Hle.
    apply Qle_bool_iff in Hle. congruence.
  - intros Hlt. destruct (Qle_bool y x) eqn:E; [|done].
    apply Qle_bool_iff in E. exfalso. by apply (Qlt_not_le x y).
Qed.

Lemma Qfloor_Qabs (m : Q) : Qfloor (Qabs m) = Z.abs (Qtrunc m).
Proof.
  destruct m as [n d]. unfold Qtrunc. simpl.
  rewrite <- (Z.quot_div_nonneg (Z.abs n) (Z.pos d)) by lia.
  rewrite <- (Z.abs_eq (Z.pos d)) at 1 by lia.
  apply Z.quot_abs. lia.
Qed.

Lemma Qfloor_div60 (a : Z) : Qfloor (inject_Z a / 60) = a / 60.
Proof. unfold Qdiv, Qmult, Qinv, inject_Z. simpl. by rewrite Z.mul_1_r. Qed.

Lemma pad_two_digits_table :
  Forall (fun n => JS.padStart0 2 (pretty n) = two_digits n) (seqZ 0 60).
Proof. apply (bool_decide_unpack _). by vm_compute. Qed.

Lemma pad_two_digits (n : Z) :
  0 <= n < 60 -> JS.padStart0 2 (pretty n) = two_digits n.
Proof.
  intros Hn. eapply (proj1 (Forall_forall _ _) pad_two_digits_table).
  apply elem_of_seqZ. lia.
Qed.

Lemma formatMinutesToHMM_unfold (m : Q) :
  formatMinutesToHMM m
  = (if Qltb m 0 then "-" else "")
    +:+ pretty (Z.abs (Qtrunc m) / 60) +:+ ":" +:+ two_digits (Z.abs (Qtrunc m) mod 60).
Proof.
  unfold formatMinutesToHMM. rewrite Qfloor_div60, Qfloor_Qabs.
  rewrite Z.rem_mod_nonneg by lia.
  rewrite pad_two_digits; [done|]. apply Z.mod_pos_bound. lia.
Qed.

(** C9.  [formatMinutesToHMM m] writes the minutes truncated toward zero:
    with [t] the absolute value of the truncation of [m], the output is
    the decimal writing of [t / 60] (which carries no sign), a colon, and
    the two decimal digits of [t mod 60]; a negative [m] gets exactly one
    leading '-', followed by the output for [-m].  So 90 gives "1:30",
    -90 gives "-1:30" and 5 gives "0:05". *)
Theorem formatMinutesToHMM_truncates_and_pads (m : Q) :
  let t := Z.abs (Qtrunc m) in
  ((0 <= m)%Q ->
     formatMinutesToHMM m = pretty (t / 60) +:+ ":" +:+ two_digits (t mod 60))
  /\ ((m < 0)%Q ->
        formatMinutesToHMM m = "-" +:+ formatMinutesToHMM (- m)
        /\ formatMinutesToHMM (- m) = pretty (t / 60) +:+ ":" +:+ two_digits (t mod 60))
  /\ (forall s, pretty (t / 60) +:+ ":" +:+ two_digits (t mod 60) ≠ "-" +:+ s)
  /\ 0 <= t mod 60 < 60
  /\ formatMinutesToHMM 90 = "1:30"
  /\ formatMinutesToHMM (-90) = "-1:30"
  /\ formatMinutesToHMM 5 = "0:05".
Proof.
  intros t. split; [|split; [|split; [|split]]].
  - intros Hm. rewrite formatMinutesToHMM_unfold. fold t.
    destruct (Qltb m 0) eqn:E; [|done].
    apply Qltb_spec in E. exfalso. by apply (Qlt_not_le m 0).
  - intros Hm. rewrite !formatMinutesToHMM_unfold.
    assert (Z.abs (Qtrunc (- m)) = t) as ->.
    { unfold t, Qtrunc. destruct m as [n d]. simpl.
      rewrite Z.quot_opp_l by lia. apply Z.abs_opp. }
    fold t. apply Qltb_spec in Hm as Hb. rewrite Hb.
    destruct (Qltb (- m) 0) eqn:E; [|done].
    apply Qltb_spec in E. exfalso.
    apply (Qlt_irrefl 0). apply Qlt_trans with (- m)%Q; [|done].
    rewrite <- (Qopp_opp 0) in Hm |- *. change (- - 0)%Q with 0%Q. 
    by apply Qopp_lt_compat in Hm.
  - intros s Hs.
    assert (0 <= t / 60) as Hh by (apply Z.div_pos; unfold t; lia).
    destruct (t / 60) as [|p|p] eqn:Eh; [done| |lia].
    revert Hs. unfold pretty at 1, pretty_Z, pretty, pretty_positive, pretty, pretty_N.
    case_decide; [done|].
    destruct (pretty_N_go (N.pos p) "") as [|c r] eqn:Ego; [done|].
    simpl. intros [= -> _].
    by apply (pretty_N_go_ne_dash (N.pos p) "" r).
  - apply Z.mod_pos_bound. lia.
  - by vm_compute.
Qed.

End Format.

(** An hour and a half owed. *)
Lemma formatMinutesToHMM_truncates_and_pads_witness :
  Utils.formatMinutesToHMM (-90) = "-" +:+ Utils.formatMinutesToHMM (- (-90))
  /\ Utils.formatMinutesToHMM (- (-90))
     = pretty (Z.abs (Qtrunc (-90)) / 60) +:+ ":" +:+ two_digits (Z.abs (Qtrunc (-90)) mod 60).
Proof.
  exact (proj1 (proj2 (formatMinutesToHMM_truncates_and_pads (-90))) eq_refl).
Defined.

(** *** Times of day *)

Lemma digit_val_range (c : ascii) (d : Z) : JS.digit_val c = Some d -> 0 <= d <= 9.
Proof.
  unfold JS.digit_val. intros Hd.
  destruct (_ && _) eqn:E; [|done].
  apply andb_true_iff in E as [?%Z.leb_le ?%Z.leb_le]. simplify_eq. lia.
Qed.

Lemma read_two_digits (a b : ascii) (r : string) :
  is_digit a = true -> is_digit b = true ->
  JSDate.read_digits 2 (String a (String b r)) = Some (two_digit_value a b, r).
Proof.
  unfold is_digit, two_digit_value. intros Ha Hb. simpl.
  destruct (JS.digit_val a) as [x|]; [|done].
  destruct (JS.digit_val b) as [y|]; [|done].
  simpl. do 2 f_equal. lia.
Qed.

Lemma read_fields_2000 (s : string) :
  JSDate.read_fields ("2000-01-01T" +:+ s)
  = '(t, r) ← JSDate.read_time s;
    off ← JSDate.read_offset r;
    Some {| JSDate.f_year := 2000; JSDate.f_month := 1; JSDate.f_day := 1;
            JSDate.f_time := Some t; JSDate.f_offset := off |}.
Proof. reflexivity. Qed.

Lemma is_HHmm_inv (s : string) :
  is_HHmm s = true ->
  exists a b c d,
    s = String a (String b (String ":" (String c (String d EmptyString))))
    /\ is_digit a && is_digit b && is_digit c && is_digit d = true.
Proof.
  destruct s as [|a [|b [|x [|c [|d s']]]]];
    try (by destruct x as [[] [] [] [] [] [] [] []]); try done.
  intros Hs. exists a, b, c, d.
  destruct x as [[] [] [] [] [] [] [] []]; try done.
  destruct s'; done.
Qed.

Lemma parse_iso_HHmm (s : string) :
  is_HHmm s = true ->
  JSDate.parse_iso ("2000-01-01T" +:+ s)
  = match minute_of_day s with
    | Some k => JSDate.IsoLocal (day2000 + k * 60000)
    | None => JSDate.IsoIllegal
    end.
Proof.
  intros (a & b & c & d & -> & Hd)%is_HHmm_inv.
  unfold minute_of_day.
  rewrite Hd. simpl andb.
  apply andb_true_iff in Hd as [[[Ha Hb]%andb_true_iff Hc]%andb_true_iff Hd].
  unfold JSDate.parse_iso. rewrite read_fields_2000.
  unfold JSDate.read_time.
  rewrite (read_two_digits a b) by done. cbn [mbind option_bind].
  rewrite (read_two_digits c d) by done. cbn [mbind option_bind JSDate.read_offset].
  cbn [JSDate.f_month JSDate.f_day JSDate.f_time JSDate.f_year JSDate.f_offset].
  assert (0 <= two_digit_value a b <= 99 /\ 0 <= two_digit_value c d <= 99) as [Hh Hm].
  { unfold two_digit_value, is_digit in *.
    destruct (JS.digit_val a) eqn:Ea; [|done]. destruct (JS.digit_val b) eqn:Eb; [|done].
    destruct (JS.digit_val c) eqn:Ec; [|done]. destruct (JS.digit_val d) eqn:Ed; [|done].
    apply digit_val_range in Ea, Eb, Ec, Ed. simpl. lia. }
  set (h := two_digit_value a b) in *. set (m := two_digit_value c d) in *.
  unfold JSDate.time_ok.
  replace (0 <=? 59) with true by done. replace (0 =? 0) with true by done.
  rewrite !andb_true_r.
  change ((1 <=? 1) && (1 <=? 12) && (1 <=? 1) && (1 <=? 31)) with true.
  rewrite andb_true_l.
  destruct (_ || _) eqn:E; [|done].
  simpl negb. cbv iota.
  change (JSDate.DaysInMonth 2000 1 <? 1) with false. cbv iota.
  f_equal. change (JSDate.MakeDay 2000 1 1 * JSDate.msPerDay) with day2000.
  unfold JSDate.time_ms. lia.
Qed.

Section Clock.
Context `{Host}.

(** [new Date(`2000-01-01T${s}`).getTime()] on an [HH:mm] string. *)
Lemma parse_HHmm (s : string) :
  is_HHmm s = true ->
  JSDate.parse ("2000-01-01T" +:+ s)
  = (fun k => day2000 + k * 60000 - LocalTZA) <$> minute_of_day s.
Proof.
  intros Hs. unfold JSDate.parse. rewrite parse_iso_HHmm by done.
  by destruct (minute_of_day s).
Qed.

End Clock.

(** *** Durations *)

Lemma minutes_exact (k : Z) : (inject_Z (k * 60000) / inject_Z (1000 * 60) == inject_Z k)%Q.
Proof. unfold Qeq, Qdiv, Qmult, Qinv, inject_Z. simpl. lia. Qed.

Lemma Qmax_inject_Z (a b : Z) : (Qmax (inject_Z a) (inject_Z b) == inject_Z (Z.max a b))%Q.
Proof.
  destruct (Z.max_spec a b) as [[Hlt ->]|[Hle ->]].
  - apply Q.max_r. rewrite <- Zle_Qle. lia.
  - apply Q.max_l. by rewrite <- Zle_Qle.
Qed.

Section Duration.
Context `{Host}.
Import Utils.

Lemma getDurationMinutes_parsed (clockIn clockOut : string) (lunch : bool) (s e : Z) :
  JSDate.parse ("2000-01-01T" +:+ clockIn) = Some s ->
  JSDate.parse ("2000-01-01T" +:+ clockOut) = Some e ->
  getDurationMinutes clockIn clockOut lunch
  = Qmax 0 (if lunch then inject_Z (e - s) / inject_Z (1000 * 60) - 30
            else inject_Z (e - s) / inject_Z (1000 * 60))%Q.
Proof. unfold getDurationMinutes. intros -> ->. by destruct lunch. Qed.

(** The minutes between two valid [HH:mm] times, less the lunch, floored. *)
Lemma getDurationMinutes_HHmm (clockIn clockOut : string) (lunch : bool) (a b : Z) :
  is_HHmm clockIn = true ->
  is_HHmm clockOut = true ->
  minute_of_day clockIn = Some a ->
  minute_of_day clockOut = Some b ->
  (getDurationMinutes clockIn clockOut lunch
   == inject_Z (Z.max 0 (b - a - (if lunch then 30 else 0))))%Q.
Proof.
  intros Hin Hout Ha Hb.
  rewrite (getDurationMinutes_parsed _ _ _ (day2000 + a * 60000 - LocalTZA)
             (day2000 + b * 60000 - LocalTZA))
    by (rewrite parse_HHmm by done; by rewrite ?Ha, ?Hb).
  replace (day2000 + b * 60000 - LocalTZA - (day2000 + a * 60000 - LocalTZA))
    with ((b - a) * 60000) by lia.
  rewrite <- Qmax_inject_Z.
  apply Q.max_compat; [done|].
  destruct lunch.
  - rewrite minutes_exact. unfold Qeq, Qminus, Qplus, Qopp, inject_Z. simpl. lia.
  - rewrite minutes_exact. by rewrite Z.sub_0_r.
Qed.

(** C1.  On [HH:mm] strings: when both parse and the clock-out instant is
    strictly after the clock-in instant, the strings name minutes [a < b]
    of the day, the instants differ by [b - a] minutes, and the result is
    [b - a], less 30 when [lunch] is set, floored at 0 (so it is not
    negative); when either string does not parse the result is 0.  The
    function is total. *)
Theorem getDurationMinutes_spec (clockIn clockOut : string) (lunch : bool) :
  is_HHmm clockIn = true ->
  is_HHmm clockOut = true ->
  (forall s e,
      JSDate.parse ("2000-01-01T" +:+ clockIn) = Some s ->
      JSDate.parse ("2000-01-01T" +:+ clockOut) = Some e ->
      s < e ->
      exists a b,
        minute_of_day clockIn = Some a /\ minute_of_day clockOut = Some b
        /\ a < b /\ e - s = (b - a) * 60000
        /\ (getDurationMinutes clockIn clockOut lunch
            == inject_Z (Z.max 0 (b - a - (if lunch then 30 else 0))))%Q
        /\ (0 <= getDurationMinutes clockIn clockOut lunch)%Q)
  /\ (JSDate.parse ("2000-01-01T" +:+ clockIn) = None
      \/ JSDate.parse ("2000-01-01T" +:+ clockOut) = None ->
      getDurationMinutes clockIn clockOut lunch = 0%Q).
Proof.
  intros Hin Hout. split.
  - intros s e Hs He Hlt.
    pose proof (Q.le_max_l 0 (if lunch then inject_Z (e - s) / inject_Z (1000 * 60) - 30
                              else inject_Z (e - s) / inject_Z (1000 * 60))%Q) as Hpos.
    rewrite <- (getDurationMinutes_parsed clockIn clockOut lunch s e) in Hpos by done.
    rewrite parse_HHmm in Hs, He by done.
    destruct (minute_of_day clockIn) as [a|] eqn:Ea; [|done].
    destruct (minute_of_day clockOut) as [b|] eqn:Eb; [|done].
    simpl in Hs, He. simplify_eq.
    exists a, b. repeat split; try done; try lia.
    by apply getDurationMinutes_HHmm.
  - unfold getDurationMinutes. intros [-> | ->]; [done|].
    by destruct (JSDate.parse _).
Qed.

End Duration.

(** The shift 08:00 to 17:00 with lunch, on the sample host. *)
Lemma getDurationMinutes_spec_witness :
  exists a b,
    minute_of_day "08:00" = Some a /\ minute_of_day "17:00" = Some b
    /\ a < b /\ 946764000000 - 946731600000 = (b - a) * 60000
    /\ (@Utils.getDurationMinutes sample_host "08:00" "17:00" true
        == inject_Z (Z.max 0 (b - a - 30)))%Q
    /\ (0 <= @Utils.getDurationMinutes sample_host "08:00" "17:00" true)%Q.
Proof.
  exact (proj1 (@getDurationMinutes_spec sample_host "08:00" "17:00" true eq_refl eq_refl)
           946731600000 946764000000 eq_refl eq_refl eq_refl).
Defined.

(** *** The entry validator *)

Section Validator.
Context `{Host}.
Import Utils.

Lemma truthy_opt_missing (o : option string) : negb (JS.truthy_opt o) = missing o.
Proof.
  destruct o as [s|]; [|done]. unfold JS.truthy_opt, JS.truthy, missing.
  rewrite negb_involutive.
  destruct (String.eqb_spec s "");
    [by rewrite bool_decide_true|by rewrite bool_decide_false].
Qed.

Lemma validateEntry_first_broken_rule (entry : PartialEntry.t) :
  validateEntry entry = first_broken_rule entry.
Proof.
  unfold validateEntry, first_broken_rule, rules. cbn [List.find breaks].
  rewrite !truthy_opt_missing.
  destruct (missing (PartialEntry.person_name entry)); [done|].
  destruct (missing (PartialEntry.date entry)); [done|].
  destruct (missing (PartialEntry.clock_in entry)); [done|].
  destruct (missing (PartialEntry.clock_out entry)); [done|].
  unfold clock_instant.
  destruct (JSDate.parse ("2000-01-01T" +:+ default "" (PartialEntry.clock_in entry)))
    as [s|]; [|done].
  destruct (JSDate.parse ("2000-01-01T" +:+ default "" (PartialEntry.clock_out entry)))
    as [e|]; [|done].
  rewrite bool_decide_false by done. rewrite bool_decide_false by done.
  unfold strictly_after.
  destruct (Z.leb_spec e s).
  - by rewrite bool_decide_false by lia.
  - by rewrite bool_decide_true by lia.
Qed.

(** C6.  The validator answers with the message of the first rule broken,
    in the order: missing worker name, missing date, missing clock-in,
    missing clock-out, unparseable clock-in, unparseable clock-out,
    clock-out not strictly after clock-in; it answers "valid" exactly when
    no rule is broken, and an error names one rule, which is broken while
    every rule before it holds.  An entry whose clock-out equals its
    clock-in is rejected, and so is one whose clock-out instant is earlier
    than its clock-in instant. *)
Theorem validateEntry_precedence (entry : PartialEntry.t) :
  validateEntry entry = first_broken_rule entry
  /\ (validateEntry entry = None <-> Forall (fun r => breaks entry r = false) rules)
  /\ (forall msg, validateEntry entry = Some msg ->
        exists before r after,
          rules = (before ++ r :: after)%list /\ msg = message r
          /\ breaks entry r = true
          /\ Forall (fun r' => breaks entry r' = false) before)
  /\ (PartialEntry.clock_out entry = PartialEntry.clock_in entry ->
        validateEntry entry <> None)
  /\ (forall s e,
        clock_instant (PartialEntry.clock_in entry) = Some s ->
        clock_instant (PartialEntry.clock_out entry) = Some e ->
        e < s ->
        validateEntry entry <> None).
Proof.
  rewrite validateEntry_first_broken_rule. unfold first_broken_rule.
  split; [done|]. split; [|split; [|split]].
  - rewrite fmap_None. split.
    + intros Hnone. apply Forall_forall. intros r Hr.
      apply list_elem_of_In in Hr.
      destruct (breaks entry r) eqn:E; [|done].
      by apply (find_none _ _ Hnone) in Hr; congruence.
    + intros Hall. destruct (List.find _ _) as [r|] eqn:E; [|done].
      apply find_some in E as [Hr%list_elem_of_In Hb].
      rewrite Forall_forall in Hall. apply Hall in Hr. congruence.
  - intros msg (r & Hfind & ->)%fmap_Some.
    revert Hfind. unfold rules. cbn [List.find].
    destruct (breaks entry MissingName) eqn:E1.
    { intros [= <-]. exists [], MissingName, (tail rules). by repeat split. }
    destruct (breaks entry MissingDate) eqn:E2.
    { intros [= <-]. exists (take 1 rules), MissingDate, (drop 2 rules).
      repeat split; try done. by repeat constructor. }
    destruct (breaks entry MissingClockIn) eqn:E3.
    { intros [= <-]. exists (take 2 rules), MissingClockIn, (drop 3 rules).
      repeat split; try done. by repeat constructor. }
    destruct (breaks entry MissingClockOut) eqn:E4.
    { intros [= <-]. exists (take 3 rules), MissingClockOut, (drop 4 rules).
      repeat split; try done. by repeat constructor. }
    destruct (breaks entry BadClockIn) eqn:E5.
    { intros [= <-]. exists (take 4 rules), BadClockIn, (drop 5 rules).
      repeat split; try done. by repeat constructor. }
    destruct (breaks entry BadClockOut) eqn:E6.
    { intros [= <-]. exists (take 5 rules), BadClockOut, (drop 6 rules).
      repeat split; try done. by repeat constructor. }
    destruct (breaks entry NotAfter) eqn:E7; [|done].
    intros [= <-]. exists (take 6 rules), NotAfter, [].
    repeat split; try done. by repeat constructor.
  - intros Heq Hnone%fmap_None.
    assert (breaks entry NotAfter = false) as Hb.
    { apply (find_none _ _ Hnone). unfold rules. simpl. tauto. }
    revert Hb. cbn [breaks]. rewrite Heq. unfold strictly_after.
    destruct (clock_instant _); [|done].
    rewrite bool_decide_false by lia. done.
  - intros s e Hs He Hlt Hnone%fmap_None.
    assert (breaks entry NotAfter = false) as Hb.
    { apply (find_none _ _ Hnone). unfold rules. simpl. tauto. }
    revert Hb. cbn [breaks]. rewrite Hs, He. unfold strictly_after.
    rewrite bool_decide_false by lia. done.
Qed.

End Validator.

Lemma validateEntry_precedence_witness :
  @Utils.validateEntry sample_host backwards_shift <> None.
Proof.
  exact (proj2 (proj2 (proj2 (proj2 (@validateEntry_precedence sample_host backwards_shift))))
           946735200000 946731600000 eq_refl eq_refl eq_refl).
Defined.

(** *** Sorting *)

Section Sorting.
Context {A : Type} (before : A -> A -> bool).

Lemma sort_insert_Permutation (x : A) (l : list A) :
  JS.sort_insert before x l ≡ₚ x :: l.
Proof.
  induction l as [|y l IH]; simpl; [done|].
  destruct (before x y); [done|].
  rewrite IH. apply Permutation_swap.
Qed.

Lemma Array_sort_Permutation (l : list A) : JS.Array_sort before l ≡ₚ l.
Proof.
  induction l as [|x l IH]; simpl; [done|].
  by rewrite sort_insert_Permutation, IH.
Qed.

(** The comparison need only be consistent on the elements sorted. *)
Variable valid : A -> Prop.
Hypothesis before_total :
  forall x y, valid x -> valid y -> precedes before x y \/ precedes before y x.
Hypothesis before_trans :
  forall x y z, valid x -> valid y -> valid z ->
    precedes before x y -> precedes before y z -> precedes before x z.

Lemma sort_insert_sorted (x : A) (l : list A) :
  valid x -> Forall valid l ->
  StronglySorted (precedes before) l -> StronglySorted (precedes before) (JS.sort_insert before x l).
Proof.
  intros Hx Hl Hs. induction Hs as [|y l Hs IH Hy]; simpl.
  - repeat constructor.
  - apply Forall_cons in Hl as [Hvy Hvl].
    destruct (before x y) eqn:E.
    + constructor; [by constructor|].
      constructor; [done|].
      rewrite Forall_forall in Hy, Hvl. apply Forall_forall. intros z Hz.
      apply (before_trans x y z); auto.
    + constructor; [by apply IH|].
      rewrite sort_insert_Permutation. constructor; [|done].
      destruct (before_total x y) as [Hxy|Hyx]; [done..| |done].
      unfold precedes in Hxy. congruence.
Qed.

Lemma Array_sort_sorted (l : list A) :
  Forall valid l -> StronglySorted (precedes before) (JS.Array_sort before l).
Proof.
  induction 1 as [|x l Hx Hl IH]; simpl; [constructor|].
  apply sort_insert_sorted; [done| |done].
  by rewrite Array_sort_Permutation.
Qed.

End Sorting.

(** The order of strings by code units. *)
Lemma string_leb_iff (a b : string) :
  String.leb a b = true <-> a = b \/ OrderedTypeEx.String_as_OT.lt a b.
Proof.
  unfold String.leb.
  destruct (String.compare a b) eqn:E.
  - apply OrderedTypeEx.String_as_OT.cmp_eq in E. tauto.
  - apply OrderedTypeEx.String_as_OT.cmp_lt in E. tauto.
  - split; [done|]. intros [->|Hlt].
    + assert (String.compare b b = Eq) as Hb
        by by apply OrderedTypeEx.String_as_OT.cmp_eq.
      congruence.
    + apply OrderedTypeEx.String_as_OT.cmp_lt in Hlt.
      unfold OrderedTypeEx.String_as_OT.cmp in Hlt. congruence.
Qed.

Lemma default_before_total (x y : string) :
  any_string x -> any_string y ->
  precedes JS.default_before x y \/ precedes JS.default_before y x.
Proof. intros _ _. apply String.leb_total. Qed.

Lemma default_before_trans (x y z : string) :
  any_string x -> any_string y -> any_string z ->
  precedes JS.default_before x y -> precedes JS.default_before y z ->
  precedes JS.default_before x z.
Proof.
  intros _ _ _. unfold precedes, JS.default_before. rewrite !string_leb_iff.
  intros [->|Hxy] [->|Hyz]; auto.
  right. by eapply OrderedTypeEx.String_as_OT.lt_trans.
Qed.

(** *** The registries of people and jobs *)

Section Registry.
Import App.

(** C10.  [addPerson] and [addJob] are the same function of the name and
    the list.  With the empty name, or a name already listed, the list
    comes back unchanged; with a new non-empty name the result holds the
    members of the previous list and the name, each as often as before,
    in ascending order.  Hence a list free of duplicates and ascending
    stays so. *)
Theorem registry_add (name : string) (l : list string) :
  addJob name l = addPerson name l
  /\ (name = "" \/ name ∈ l -> addPerson name l = l)
  /\ (name <> "" -> name ∉ l ->
        addPerson name l ≡ₚ l ++ [name] /\ ascending (addPerson name l))
  /\ (NoDup l -> ascending l ->
        NoDup (addPerson name l) /\ ascending (addPerson name l)).
Proof.
  assert (name = "" \/ name ∈ l -> addPerson name l = l) as Hsame.
  { unfold addPerson, JS.truthy. intros [->|Hin]; [done|].
    rewrite (bool_decide_true _ Hin). by rewrite andb_false_r. }
  assert (name <> "" -> name ∉ l ->
          addPerson name l = JS.Array_sort JS.default_before (l ++ [name])) as Hnew.
  { unfold addPerson, JS.truthy. intros Hne Hnotin.
    rewrite (bool_decide_false _ Hnotin).
    by destruct (String.eqb_spec name ""). }
  split; [done|]. split; [done|]. split.
  - intros Hne Hnotin. rewrite Hnew by done. split.
    + apply Array_sort_Permutation.
    + apply (Array_sort_sorted _ _ default_before_total default_before_trans).
      by apply Forall_forall.
  - intros Hnd Hasc.
    destruct (decide (name = "")) as [->|Hne]; [by rewrite Hsame by auto|].
    destruct (decide (name ∈ l)) as [Hin|Hnotin]; [by rewrite Hsame by auto|].
    rewrite Hnew by done. split.
    + rewrite Array_sort_Permutation. apply NoDup_app. split; [done|].
      split; [|apply NoDup_singleton].
      intros x Hx ->%list_elem_of_singleton. done.
    + apply (Array_sort_sorted _ _ default_before_total default_before_trans).
      by apply Forall_forall.
Qed.

End Registry.

(** Adding "Bob" to the list of Alice and Carol. *)
Lemma registry_add_witness :
  App.addPerson "Bob" ["Alice"; "Carol"] ≡ₚ ["Alice"; "Carol"] ++ ["Bob"]
  /\ ascending (App.addPerson "Bob" ["Alice"; "Carol"]).
Proof.
  apply (proj1 (proj2 (proj2 (registry_add "Bob" ["Alice"; "Carol"])))).
  - discriminate.
  - intros Hin. by repeat (apply elem_of_cons in Hin as [Hin|Hin]; [discriminate|]);
      apply elem_of_nil in Hin.
Defined.

(** *** The session engine *)

Lemma fold_left_Qplus {A} (f : A -> Q) (l : list A) (acc : Q) :
  (fold_left (fun a e => a + f e) l acc == acc + Qsum (List.map f l))%Q.
Proof.
  revert acc. induction l as [|e l IH]; intros acc; simpl.
  - by rewrite Qplus_0_r.
  - rewrite IH. by rewrite Qplus_assoc.
Qed.

Lemma filter_entries_of (person today : string) (entries : list TimeEntry.t) :
  List.filter (fun e => String.eqb (TimeEntry.person_name e) person
                        && String.eqb (TimeEntry.date e) today) entries
  = entries_of person today entries.
Proof.
  unfold entries_of. induction entries as [|e l IH]; [done|].
  simpl. rewrite IH.
  destruct (String.eqb_spec (TimeEntry.person_name e) person) as [Hp|Hp];
    destruct (String.eqb_spec (TimeEntry.date e) today) as [Hd|Hd]; simpl.
  - by rewrite filter_cons_True.
  - rewrite filter_cons_False; [done|]. tauto.
  - rewrite filter_cons_False; [done|]. tauto.
  - rewrite filter_cons_False; [done|]. tauto.
Qed.

Section Sessions.
Import App.

(** X21.  With [today] the text [getTorontoISODate()] answered at the
    call, [handleClockIn] leaves a session for [person], started at [now]
    on [job], whose accumulated milliseconds are 60000 times the sum of the
    minutes of the stored entries of [person] dated [today]; this holds
    whether or not [person] had a session before (the old one is replaced,
    nothing fails), and every other person's session is as it was. *)
Theorem handleClockIn_spec (today : string) (now : Z) (entries : list TimeEntry.t)
    (person job : string) (prev : gmap string ActiveSession.t) :
  let next := handleClockIn today now entries person job prev in
  (exists s,
      next !! person = Some s
      /\ ActiveSession.person_name s = person
      /\ ActiveSession.job_name s = job
      /\ ActiveSession.startTime s = now
      /\ (ActiveSession.accumulatedMsBeforeThisSession s
          == Qsum (List.map TimeEntry.duration_mins (entries_of person today entries))
             * 60000)%Q)
  /\ (forall other, other <> person -> next !! other = prev !! other)
  /\ dom next = {[person]} ∪ dom prev.
Proof.
  intros next. unfold next, handleClockIn. split; [|split].
  - eexists. split; [apply lookup_insert_eq|]. simpl. repeat split.
    rewrite filter_entries_of, fold_left_Qplus.
    rewrite Qplus_0_l, <- Qmult_assoc. apply Qmult_comp; [done|]. done.
  - intros other Hne. by rewrite lookup_insert_ne.
  - apply dom_insert_L.
Qed.

(** X20.  Without a session for [person], and [person] not being the name
    of anything inherited from [Object.prototype], [handleClockOut] sends
    no write and returns the sessions as they were; when [person] is such
    a name the guard is passed, and an object that is not an entry is
    handed to [upsertEntry] while the sessions stay as they were.  With a
    session, it hands exactly one entry to [upsertEntry]: its minutes,
    times 60000, are the clock reading less the start time (so they are
    negative when the clock reads earlier than the start: nothing is
    clamped), its lunch flag is off; the session of [person] is removed
    and the other sessions are kept.  For a signed-in user the write, once
    run, adds that entry under its identifier. *)
Theorem handleClockOut_spec (user : option string) (r : readings) (person : string)
    (sessions : gmap string ActiveSession.t) :
  (sessions !! person = None -> JS.inherited (prototypeExtra r) person = false ->
     handleClockOut user r person sessions = ([], sessions)
     /\ forall docs, run_writes (fst (handleClockOut user r person sessions)) docs = docs)
  /\ (sessions !! person = None -> JS.inherited (prototypeExtra r) person = true ->
        handleClockOut user r person sessions
        = (upsertStray user (randomUUID r) person, sessions))
  /\ (forall session, sessions !! person = Some session ->
        let e := entry_of_session r person session in
        handleClockOut user r person sessions
        = (upsertEntry user e, delete person sessions)
        /\ (TimeEntry.duration_mins e * 60000
            == inject_Z (endTime r - ActiveSession.startTime session))%Q
        /\ (endTime r < ActiveSession.startTime session ->
              (TimeEntry.duration_mins e < 0)%Q)
        /\ TimeEntry.lunch_30_min e = false
        /\ TimeEntry.person_name e = person
        /\ snd (handleClockOut user r person sessions) !! person = None
        /\ (forall other, other <> person ->
              snd (handleClockOut user r person sessions) !! other = sessions !! other)
        /\ (forall uid docs, user = Some uid ->
              fst (handleClockOut user r person sessions) = [SetDoc e]
              /\ run_writes (fst (handleClockOut user r person sessions)) docs
                 = <[TimeEntry.id e := e]> docs
              /\ (docs !! TimeEntry.id e = None ->
                    size (run_writes (fst (handleClockOut user r person sessions)) docs)
                    = S (size docs)))).
Proof.
  split; [|split].
  - intros Hnone Hplain. unfold handleClockOut. by rewrite Hnone, Hplain.
  - intros Hnone Hinh. unfold handleClockOut. rewrite Hnone, Hinh.
    by rewrite delete_id.
  - intros session Hs e.
    assert (handleClockOut user r person sessions
            = (upsertEntry user e, delete person sessions)) as Heq.
    { unfold handleClockOut. by rewrite Hs. }
    rewrite Heq. cbn [fst snd]. split; [done|].
    set (d := endTime r - ActiveSession.startTime session).
    assert (TimeEntry.duration_mins e * 60000 == inject_Z d)%Q as Hd.
    { cbn [e entry_of_session TimeEntry.duration_mins]. fold d.
      unfold Qeq, Qdiv, Qmult, Qinv, inject_Z. simpl. lia. }
    split; [done|]. split.
    { intros Hlt. cbn [e entry_of_session TimeEntry.duration_mins]. fold d.
      unfold Qlt, Qdiv, Qmult, Qinv, inject_Z. simpl. lia. }
    split; [done|]. split; [done|].
    split; [apply lookup_delete_eq|].
    split; [intros other Hne; by apply lookup_delete_ne|].
    intros uid docs ->. cbn [upsertEntry run_writes fold_left apply_write].
    split; [done|]. split; [done|].
    intros Hfresh. by apply map_size_insert_None.
Qed.

End Sessions.

Lemma handleClockOut_spec_witness :
  App.handleClockOut (Some "u") sample_readings "Alice" {["Alice" := sample_session]}
  = (App.upsertEntry (Some "u") (entry_of_session sample_readings "Alice" sample_session),
     delete "Alice" {["Alice" := sample_session]})
  /\ App.handleClockOut (Some "u") sample_readings "Bob" {["Alice" := sample_session]}
     = ([], {["Alice" := sample_session]}).
Proof.
  split.
  - apply (proj2 (proj2 (handleClockOut_spec (Some "u") sample_readings "Alice"
                           {["Alice" := sample_session]})) sample_session).
    apply lookup_singleton_eq.
  - apply (proj1 (handleClockOut_spec (Some "u") sample_readings "Bob"
                    {["Alice" := sample_session]})).
    + by apply lookup_singleton_ne.
    + reflexivity.
Defined.


(** *** The date of today *)

(** [YearFromDay d] is the year the day [d] falls in. *)
Lemma YearFromDay_spec (d : Z) :
  JSDate.DayFromYear (JSDate.YearFromDay d) <= d
  < JSDate.DayFromYear (JSDate.YearFromDay d + 1).
Proof.
  unfold JSDate.YearFromDay. cbv zeta.
  set (y := 1970 + 400 * d / 146097).
  assert (JSDate.DayFromYear (y - 1) <= d < JSDate.DayFromYear (y + 2)) as Hy.
  { assert (146097 * (y - 1970) <= 400 * d < 146097 * (y - 1970) + 146097) as Hest.
    { unfold y. pose proof (Z.div_mod (400 * d) 146097 ltac:(lia)).
      pose proof (Z.mod_pos_bound (400 * d) 146097 ltac:(lia)). lia. }
    clearbody y. unfold JSDate.DayFromYear. split.
    - pose proof (Z.div_mod (y - 1 - 1969) 4 ltac:(lia)).
      pose proof (Z.mod_pos_bound (y - 1 - 1969) 4 ltac:(lia)).
      pose proof (Z.div_mod (y - 1 - 1901) 100 ltac:(lia)).
      pose proof (Z.mod_pos_bound (y - 1 - 1901) 100 ltac:(lia)).
      pose proof (Z.div_mod (y - 1 - 1601) 400 ltac:(lia)).
      pose proof (Z.mod_pos_bound (y - 1 - 1601) 400 ltac:(lia)).
      generalize dependent ((y - 1 - 1969) / 4).
      generalize dependent ((y - 1 - 1901) / 100).
      generalize dependent ((y - 1 - 1601) / 400).
      generalize dependent ((y - 1 - 1969) mod 4).
      generalize dependent ((y - 1 - 1901) mod 100).
      generalize dependent ((y - 1 - 1601) mod 400). intros. lia.
    - pose proof (Z.div_mod (y + 2 - 1969) 4 ltac:(lia)).
      pose proof (Z.mod_pos_bound (y + 2 - 1969) 4 ltac:(lia)).
      pose proof (Z.div_mod (y + 2 - 1901) 100 ltac:(lia)).
      pose proof (Z.mod_pos_bound (y + 2 - 1901) 100 ltac:(lia)).
      pose proof (Z.div_mod (y + 2 - 1601) 400 ltac:(lia)).
      pose proof (Z.mod_pos_bound (y + 2 - 1601) 400 ltac:(lia)).
      generalize dependent ((y + 2 - 1969) / 4).
      generalize dependent ((y + 2 - 1901) / 100).
      generalize dependent ((y + 2 - 1601) / 400).
      generalize dependent ((y + 2 - 1969) mod 4).
      generalize dependent ((y + 2 - 1901) mod 100).
      generalize dependent ((y + 2 - 1601) mod 400). intros. lia. }
  clearbody y.
  destruct (Z.leb_spec (JSDate.DayFromYear (y + 1)) d) as [H1|H1].
  - replace (y + 1 + 1) with (y + 2) by lia. tauto.
  - destruct (Z.leb_spec (JSDate.DayFromYear y) d) as [H0|H0]; [tauto|].
    replace (y - 1 + 1) with y by lia. tauto.
Qed.

Example toISOString_epoch : JSDate.toISOString 0 = "1970-01-01T00:00:00.000Z".
Proof. reflexivity. Qed.

Example toISOString_leap_day :
  JSDate.toISOString 1709251199999 = "2024-02-29T23:59:59.999Z".
Proof. reflexivity. Qed.

Example toISOString_before_epoch :
  JSDate.toISOString (-1) = "1969-12-31T23:59:59.999Z".
Proof. reflexivity. Qed.

Example toISOString_parse_round_trip :
  @JSDate.parse sample_host (JSDate.toISOString 951782400000) = Some 951782400000.
Proof. reflexivity. Qed.

(** C4.  In Toronto at half past eight in the evening of 15 January 2024,
    on a host set to Toronto's zone, [getTorontoISODate()] answers
    2024-01-16: the text of Toronto's wall clock, read back as local time,
    is the instant itself, whose date in UTC, taken by [toISOString], is
    the next day.  So [handleClockIn] finds no entry of today for Alice,
    who worked an hour on the 15th, and the session it opens records 0
    accumulated milliseconds where the entries dated today in Toronto
    amount to 3600000. *)
Theorem handleClockIn_evening :
  @torontoString evening_intl evening = "1/15/2024, 8:30:00 PM"
  /\ @Utils.getTorontoISODate evening_host evening_intl evening = Some "2024-01-16"
  /\ @App.handleClockIn_at evening_host evening_intl evening evening [alice_evening]
       "Alice" "Site A" ∅
     = Some {["Alice" := ActiveSession.mk "Alice" "Site A" evening 0]}
  /\ (Qsum (List.map TimeEntry.duration_mins
              (entries_of "Alice" "2024-01-15" [alice_evening])) * 60000 == 3600000)%Q.
Proof.
  split; [reflexivity|]. split; [reflexivity|]. split; [|reflexivity].
  unfold App.handleClockIn_at.
  change (@Utils.getTorontoISODate evening_host evening_intl evening)
    with (Some "2024-01-16").
  reflexivity.
Qed.

(** *** Approval *)

Section Approval.
Import App.

Lemma run_deletes_lookup (ids : list string) (docs : gmap string TimeEntry.t) (i : string) :
  run_writes (List.map DeleteDoc ids) docs !! i
  = if decide (i ∈ ids) then None else docs !! i.
Proof.
  revert docs. induction ids as [|j ids IH]; intros docs.
  - destruct (decide (i ∈ [])) as [Hd%elem_of_nil|]; done.
  - cbn [List.map run_writes fold_left apply_write].
    fold (run_writes (List.map DeleteDoc ids) (delete j docs)). rewrite IH.
    destruct (decide (i ∈ ids)) as [Hin|Hnotin].
    + by rewrite decide_True by (by apply elem_of_cons; right).
    + destruct (decide (i = j)) as [->|Hne].
      * rewrite decide_True by apply list_elem_of_here. apply lookup_delete_eq.
      * rewrite decide_False.
        { by apply lookup_delete_ne. }
        intros [?|?]%elem_of_cons; done.
Qed.

Lemma approveEntries_deletes (uid : string) (ids : list string) :
  approveEntries true (Some uid) ids = List.map DeleteDoc ids.
Proof.
  unfold approveEntries. simpl. induction ids as [|j ids IH]; [done|].
  simpl. by rewrite IH.
Qed.

Lemma approveEntries_nothing_sent (confirmed : bool) (user : option string) (ids : list string) :
  confirmed = false \/ user = None -> approveEntries confirmed user ids = [].
Proof.
  unfold approveEntries. intros [->| ->]; [done|].
  destruct confirmed; [|done]. simpl. by induction ids.
Qed.

(** C8, as the code has it.  Whatever the order in which the removals
    complete: when the dialog is accepted and a user is signed in, the
    collection afterwards holds no entry under an identifier of [ids]
    (nothing remains of it, no flag) and, under every other identifier,
    what it held before; when the dialog is declined or nobody is signed
    in, no removal is sent and the collection is unchanged. *)
Theorem approveEntries_spec (confirmed : bool) (user : option string)
    (ids : list string) (docs : gmap string TimeEntry.t) (ws : list write) :
  ws ≡ₚ approveEntries confirmed user ids ->
  (confirmed = true -> is_Some user ->
     (forall i, run_writes ws docs !! i = if decide (i ∈ ids) then None else docs !! i)
     /\ run_writes ws docs = filter (fun kv => kv.1 ∉ ids) docs)
  /\ (confirmed = false \/ user = None -> ws = [] /\ run_writes ws docs = docs).
Proof.
  intros Hp. split.
  - intros -> [uid ->]. rewrite approveEntries_deletes in Hp.
    apply Permutation_map_inv in Hp as (ids' & -> & Hids).
    assert (forall i, run_writes (List.map DeleteDoc ids') docs !! i
                      = if decide (i ∈ ids) then None else docs !! i) as Hlook.
    { intros i. rewrite run_deletes_lookup.
      destruct (decide (i ∈ ids')) as [Hin|Hnotin].
      - rewrite decide_True; [done|]. by rewrite Hids.
      - rewrite decide_False; [done|]. by rewrite Hids. }
    split; [done|].
    apply map_eq. intros i. rewrite Hlook.
    destruct (decide (i ∈ ids)) as [Hin|Hnotin].
    + symmetry. apply map_lookup_filter_None. right. intros x _ Hx. by apply Hx.
    + destruct (docs !! i) as [x|] eqn:E.
      * symmetry. by apply map_lookup_filter_Some.
      * symmetry. apply map_lookup_filter_None. by left.
  - intros Hno. rewrite approveEntries_nothing_sent in Hp by done.
    apply Permutation_nil_r in Hp as ->. done.
Qed.

End Approval.

(** Approval is not unconditional: with the dialog declined, an entry
    whose identifier is in the set stays in the collection. *)
Lemma approveEntries_declined_keeps_entry :
  ~ (forall (confirmed : bool) (user : option string) (ids : list string)
            (docs : gmap string TimeEntry.t) (i : string),
        i ∈ ids ->
        App.run_writes (App.approveEntries confirmed user ids) docs !! i = None).
Proof.
  intros Hall.
  specialize (Hall false (Some "u") ["id1"] {["id1" := alice_morning]} "id1"
                (list_elem_of_here _ _)).
  simpl in Hall. by rewrite lookup_singleton_eq in Hall.
Qed.

Lemma approveEntries_spec_witness :
  App.run_writes [App.DeleteDoc "id2"; App.DeleteDoc "id1"] sample_docs !! "id1" = None
  /\ App.run_writes [App.DeleteDoc "id2"; App.DeleteDoc "id1"] sample_docs !! "id3"
     = Some bob_morning.
Proof.
  pose proof (proj1 (proj1 (approveEntries_spec true (Some "u") ["id1"; "id2"] sample_docs
                       [App.DeleteDoc "id2"; App.DeleteDoc "id1"]
                       (Permutation_swap _ _ _))
                    eq_refl (mk_is_Some _ _ eq_refl))) as Hlook.
  split.
  - apply (Hlook "id1").
  - apply (Hlook "id3").
Defined.

(** *** Bulk import *)

Section Bulk.
Context `{Host}.
Import BulkImport.

Lemma parse_line_cases (uuid : string) (now : Z) (line : string) :
  parse_line uuid now line
  = if well_formed line
    then mk (PartialEntry.of_entry (candidate uuid now line))
            (Utils.validateEntry (PartialEntry.of_entry (candidate uuid now line)))
    else mk PartialEntry.empty (Some (format_error line)).
Proof.
  unfold parse_line, well_formed. rewrite length_map.
  by destruct (length (JS.split ["|"] line) <? 3)%nat.
Qed.




Lemma validateEntry_message_nonempty (entry : PartialEntry.t) (msg : string) :
  Utils.validateEntry entry = Some msg -> msg <> "".
Proof.
  rewrite validateEntry_first_broken_rule. unfold first_broken_rule.
  intros (r & _ & ->)%fmap_Some. by destruct r.
Qed.



End Bulk.


(** *** The documented example of a bulk line *)

Section BulkExample.
Context `{Host}.
Import BulkImport.

Lemma candidate_john (uuid : string) (now : Z) :
  candidate uuid now john_line = john_entry uuid now.
Proof. reflexivity. Qed.

Lemma getDurationMinutes_john : (Utils.getDurationMinutes "08:00" "17:00" true == 510)%Q.
Proof.
  exact (getDurationMinutes_HHmm "08:00" "17:00" true 480 1020
           eq_refl eq_refl eq_refl eq_refl).
Qed.

Lemma validateEntry_john (uuid : string) (now : Z) :
  Utils.validateEntry (PartialEntry.of_entry (john_entry uuid now)) = None.
Proof.
  unfold Utils.validateEntry, john_entry, PartialEntry.of_entry.
  cbn [PartialEntry.person_name PartialEntry.date PartialEntry.clock_in
       PartialEntry.clock_out TimeEntry.person_name TimeEntry.date
       TimeEntry.clock_in TimeEntry.clock_out JS.truthy_opt default from_option id].
  change (JS.truthy "John") with true. change (JS.truthy "2026-02-01") with true.
  change (JS.truthy "08:00") with true. change (JS.truthy "17:00") with true.
  cbn [negb]. rewrite !parse_HHmm by done.
  change (minute_of_day "08:00") with (Some 480).
  change (minute_of_day "17:00") with (Some 1020).
  cbn [fmap option_fmap option_map].
  destruct (Z.leb_spec (day2000 + 1020 * 60000 - LocalTZA)
                       (day2000 + 480 * 60000 - LocalTZA)); [lia|done].
Qed.

(** The lunch marker is looked for in the whole line, lower-cased. *)
Lemma lunch_test_iff (s : string) :
  lunch_test s = true
  <-> exists p, p ∈ ["lunch"; "break"; "30"; "30min"; "0:30"] /\ JS.includes p s = true.
Proof.
  unfold lunch_test. rewrite existsb_exists.
  split; intros (p & Hp & Hi); exists p; split; try done; by apply list_elem_of_In.
Qed.

(** C5, as the code has it.  The line
    "John | 2026-02-01 | 08:00-17:00 | lunch" gives exactly one result; it
    passes the validator; its lunch flag is set because the lower-cased
    line contains one of lunch, break, 30, 30min, 0:30; and its minutes are
    540 - 30 = 510. *)
Theorem bulk_line_john (supply : nat -> string * Z) :
  let e := john_entry (fst (supply 0%nat)) (snd (supply 0%nat)) in
  handleParse supply john_line = [mk (PartialEntry.of_entry e) None]
  /\ TimeEntry.lunch_30_min e = lunch_test (JS.toLowerCase john_line)
  /\ (exists p, p ∈ ["lunch"; "break"; "30"; "30min"; "0:30"]
                /\ JS.includes p (JS.toLowerCase john_line) = true)
  /\ TimeEntry.lunch_30_min e = true
  /\ (TimeEntry.duration_mins e == 510)%Q
  /\ (TimeEntry.duration_mins e == 540 - 30)%Q
  /\ confirmImport (handleParse supply john_line) = Some [PartialEntry.of_entry e].
Proof.
  intros e.
  assert (handleParse supply john_line = [mk (PartialEntry.of_entry e) None]) as Hparse.
  { change (handleParse supply john_line) with (parse_lines supply 0 [john_line]).
    cbn [parse_lines]. rewrite parse_line_cases.
    change (well_formed john_line) with true. cbv iota.
    rewrite candidate_john. by rewrite validateEntry_john. }
  split; [done|]. split; [done|]. split.
  { apply lunch_test_iff. reflexivity. }
  split; [done|]. split; [apply getDurationMinutes_john|].
  split; [apply getDurationMinutes_john|].
  by rewrite Hparse.
Qed.

End BulkExample.

(** On the sample host the minutes of that line are 510, not 480. *)
Lemma bulk_line_john_not_480 :
  ~ (exists r q,
        @BulkImport.handleParse sample_host (fun _ => ("u", 0)) john_line = [r]
        /\ BulkImport.error r = None
        /\ PartialEntry.lunch_30_min (BulkImport.entry r) = Some true
        /\ PartialEntry.duration_mins (BulkImport.entry r) = Some q
        /\ (q == 480)%Q).
Proof.
  intros (r & q & Hparse & _ & _ & Hq & H480).
  vm_compute in Hparse. injection Hparse as <-.
  injection Hq as <-. vm_compute in H480. discriminate.
Qed.

(** *** Objects as dictionaries *)

Section Objects.
Context {V : Type}.
Implicit Types (o : JS.Obj V) (k : string) (v : V).

Lemma obj_get_set_eq k v o : JS.obj_get k (JS.obj_set k v o) = Some v.
Proof.
  induction o as [|[k' v'] o IH]; simpl.
  - by rewrite String.eqb_refl.
  - destruct (String.eqb_spec k k') as [->|Hne]; simpl.
    + by rewrite String.eqb_refl.
    + by destruct (String.eqb_spec k k').
Qed.

Lemma obj_get_set_ne k k' v o :
  k <> k' -> JS.obj_get k' (JS.obj_set k v o) = JS.obj_get k' o.
Proof.
  intros Hne. induction o as [|[k0 v0] o IH]; simpl.
  - by destruct (String.eqb_spec k' k) as [->|].
  - destruct (String.eqb_spec k k0) as [->|Hk]; simpl.
    + by destruct (String.eqb_spec k' k0) as [->|].
    + by rewrite IH.
Qed.

Lemma obj_set_set k v v' o : JS.obj_set k v' (JS.obj_set k v o) = JS.obj_set k v' o.
Proof.
  induction o as [|[k0 v0] o IH]; simpl.
  - by rewrite String.eqb_refl.
  - destruct (String.eqb_spec k k0) as [->|Hk]; simpl.
    + by rewrite String.eqb_refl.
    + destruct (String.eqb_spec k k0); [done|]. by rewrite IH.
Qed.

Lemma obj_get_None k o : JS.obj_get k o = None <-> k ∉ o.*1.
Proof.
  induction o as [|[k0 v0] o IH]; simpl.
  - split; [intros _; apply not_elem_of_nil|done].
  - rewrite not_elem_of_cons.
    destruct (String.eqb_spec k k0) as [->|Hk]; [|tauto].
    split; [done|]. by intros [? _].
Qed.

Lemma obj_get_Some_elem k v o : JS.obj_get k o = Some v -> (k, v) ∈ o.
Proof.
  induction o as [|[k0 v0] o IH]; simpl; [done|].
  destruct (String.eqb_spec k k0) as [->|Hk].
  - intros [= ->]. apply list_elem_of_here.
  - intros Hget. apply list_elem_of_further. auto.
Qed.

Lemma obj_elem_get k v o : NoDup o.*1 -> (k, v) ∈ o -> JS.obj_get k o = Some v.
Proof.
  induction o as [|[k0 v0] o IH]; simpl.
  - intros _ Hin. by apply elem_of_nil in Hin.
  - intros [Hk0 Hnd]%NoDup_cons [Heq|Hin]%elem_of_cons.
    + simplify_eq. by rewrite String.eqb_refl.
    + destruct (String.eqb_spec k k0) as [->|Hk]; [|auto].
      exfalso. apply Hk0. apply list_elem_of_fmap. by exists (k0, v).
Qed.

Lemma obj_set_keys k v o :
  (JS.obj_set k v o).*1
  = match JS.obj_get k o with Some _ => o.*1 | None => (o.*1 ++ [k])%list end.
Proof.
  induction o as [|[k0 v0] o IH]; csimpl; [done|].
  destruct (String.eqb_spec k k0) as [->|Hk]; csimpl; [done|].
  rewrite IH. by destruct (JS.obj_get k o).
Qed.

Lemma obj_set_NoDup k v o : NoDup o.*1 -> NoDup (JS.obj_set k v o).*1.
Proof.
  intros Hnd. rewrite obj_set_keys.
  destruct (JS.obj_get k o) eqn:E; [done|].
  apply obj_get_None in E. apply NoDup_app. split; [done|].
  split; [|apply NoDup_singleton].
  intros x Hx ->%list_elem_of_singleton. done.
Qed.

Lemma obj_set_nonempty k v o : JS.obj_set k v o <> [].
Proof. destruct o as [|[k0 v0] o]; simpl; [done|]. by destruct (String.eqb k k0). Qed.

Lemma filter_split_Permutation {A} (f : A -> bool) (l : list A) :
  (List.filter f l ++ List.filter (fun x => negb (f x)) l)%list ≡ₚ l.
Proof.
  induction l as [|x l IH]; simpl; [done|].
  destruct (f x); simpl.
  - by rewrite IH.
  - rewrite <- Permutation_middle. by rewrite IH.
Qed.

Lemma Object_entries_Permutation o : JS.Object_entries o ≡ₚ o.
Proof.
  unfold JS.Object_entries. rewrite Array_sort_Permutation.
  apply filter_split_Permutation.
Qed.

End Objects.

(** *** Grouping by person and date *)

Lemma elem_of_first_seen (x : string) (l : list string) : x ∈ first_seen l <-> x ∈ l.
Proof.
  induction l as [|y l IH]; simpl; [done|].
  rewrite !elem_of_cons, list_elem_of_filter, IH.
  destruct (decide (x = y)); tauto.
Qed.

Lemma first_seen_NoDup (l : list string) : NoDup (first_seen l).
Proof.
  induction l as [|y l IH]; simpl; [constructor|].
  constructor.
  - rewrite list_elem_of_filter. intros [Hne _]. by apply Hne.
  - by apply NoDup_filter.
Qed.

Lemma first_seen_snoc (l : list string) (x : string) :
  first_seen (l ++ [x]) = if decide (x ∈ l) then first_seen l else first_seen l ++ [x].
Proof.
  induction l as [|y l IH]; simpl; [done|].
  rewrite IH. destruct (decide (x ∈ l)) as [Hin|Hnotin].
  - by rewrite decide_True by (by right).
  - rewrite filter_app. destruct (decide (x = y)) as [->|Hne].
    + rewrite decide_True by (by left).
      rewrite filter_cons_False by (intros Hne; by apply Hne). by rewrite app_nil_r.
    + rewrite decide_False by (intros [?|?]%elem_of_cons; done).
      by rewrite filter_cons_True by done.
Qed.

Lemma entries_of_snoc (p d : string) (L : list TimeEntry.t) (e : TimeEntry.t) :
  entries_of p d (L ++ [e])
  = entries_of p d L
    ++ (if decide (TimeEntry.person_name e = p /\ TimeEntry.date e = d) then [e] else []).
Proof.
  unfold entries_of. by rewrite filter_app.
Qed.

Lemma entries_of_elem (p d : string) (L : list TimeEntry.t) (e : TimeEntry.t) :
  e ∈ entries_of p d L <-> e ∈ L /\ TimeEntry.person_name e = p /\ TimeEntry.date e = d.
Proof. unfold entries_of. rewrite list_elem_of_filter. tauto. Qed.

Lemma entries_of_nonempty (p d : string) (L : list TimeEntry.t) :
  entries_of p d L <> []
  <-> exists e, e ∈ L /\ TimeEntry.person_name e = p /\ TimeEntry.date e = d.
Proof.
  split.
  - destruct (entries_of p d L) as [|e B] eqn:E; [done|]. intros _.
    exists e. apply entries_of_elem. rewrite E. apply list_elem_of_here.
  - intros (e & He). apply entries_of_elem in He. intros Hnil.
    rewrite Hnil in He. by apply elem_of_nil in He.
Qed.

Lemma add_entry_unfold (pm : JS.Obj (JS.Obj DailySummary.t)) (e : TimeEntry.t) :
  Grouped.add_entry pm e
  = let days := default [] (JS.obj_get (TimeEntry.person_name e) pm) in
    let day := default (empty_day (TimeEntry.date e)) (JS.obj_get (TimeEntry.date e) days) in
    JS.obj_set (TimeEntry.person_name e)
      (JS.obj_set (TimeEntry.date e) (add_to_day day e) days) pm.
Proof.
  unfold Grouped.add_entry. cbv zeta.
  destruct (JS.obj_get (TimeEntry.person_name e) pm) as [days|] eqn:Ep.
  - rewrite Ep. cbn [default from_option id].
    destruct (JS.obj_get (TimeEntry.date e) days) as [day|] eqn:Ed.
    + by rewrite Ed.
    + rewrite obj_get_set_eq, obj_set_set. cbn [default from_option id]. reflexivity.
  - rewrite obj_get_set_eq. cbn [default from_option id JS.obj_get].
    rewrite !obj_get_set_eq, !obj_set_set. cbn [default from_option id]. reflexivity.
Qed.

Lemma add_to_day_summary (p d : string) (L : list TimeEntry.t) (e : TimeEntry.t) :
  TimeEntry.person_name e = p -> TimeEntry.date e = d ->
  add_to_day (summary_of p d L) e = summary_of p d (L ++ [e]).
Proof.
  intros Hp Hd. unfold add_to_day, summary_of. cbv zeta.
  cbn [DailySummary.date DailySummary.duration_mins DailySummary.job_names
       DailySummary.entryIds].
  rewrite entries_of_snoc, decide_True by done.
  rewrite !map_app. cbn [List.map]. rewrite fold_left_app. cbn [fold_left].
  rewrite first_seen_snoc. f_equal.
  destruct (decide (TimeEntry.job_name e ∈ _)) as [Hin|Hnotin].
  - rewrite bool_decide_true; [done|]. by apply elem_of_first_seen.
  - rewrite bool_decide_false; [done|]. by rewrite elem_of_first_seen.
Qed.

Lemma empty_day_summary (p d : string) (L : list TimeEntry.t) :
  entries_of p d L = [] -> empty_day d = summary_of p d L.
Proof. intros Hnil. unfold summary_of. by rewrite Hnil. Qed.

Lemma entries_of_snoc_other (p d : string) (L : list TimeEntry.t) (e : TimeEntry.t) :
  ~ (TimeEntry.person_name e = p /\ TimeEntry.date e = d) ->
  entries_of p d (L ++ [e]) = entries_of p d L.
Proof. intros Hm. by rewrite entries_of_snoc, decide_False, app_nil_r. Qed.

Lemma day_inv_snoc_other (p d : string) (L : list TimeEntry.t) (e : TimeEntry.t)
    (o : option DailySummary.t) :
  ~ (TimeEntry.person_name e = p /\ TimeEntry.date e = d) ->
  day_inv p d L o -> day_inv p d (L ++ [e]) o.
Proof.
  intros Hm. unfold day_inv, summary_of. by rewrite entries_of_snoc_other.
Qed.

Lemma map_inv_step (L : list TimeEntry.t) (pm : JS.Obj (JS.Obj DailySummary.t))
    (e : TimeEntry.t) :
  map_inv L pm -> map_inv (L ++ [e]) (Grouped.add_entry pm e).
Proof.
  intros [Hnd Hpm]. rewrite add_entry_unfold. cbv zeta.
  set (p0 := TimeEntry.person_name e). set (d0 := TimeEntry.date e).
  set (days0 := default [] (JS.obj_get p0 pm)).
  assert (days_inv p0 L days0) as [Hnd0 Hdays0].
  { unfold days0. specialize (Hpm p0). destruct (JS.obj_get p0 pm) as [days|]; simpl.
    - apply Hpm.
    - split; [constructor|]. intros d. apply Hpm. }
  split; [by apply obj_set_NoDup|].
  intros p. destruct (decide (p = p0)) as [->|Hp].
  - rewrite obj_get_set_eq. split; [apply obj_set_nonempty|].
    split; [by apply obj_set_NoDup|].
    intros d. destruct (decide (d = d0)) as [->|Hd].
    + rewrite obj_get_set_eq. split.
      * specialize (Hdays0 d0). destruct (JS.obj_get d0 days0) as [day|]; simpl.
        -- destruct Hdays0 as [-> _]. by apply add_to_day_summary.
        -- rewrite (empty_day_summary p0 d0 L) by done. by apply add_to_day_summary.
      * apply entries_of_nonempty. exists e. rewrite elem_of_app, list_elem_of_singleton.
        auto.
    + rewrite obj_get_set_ne by done.
      apply day_inv_snoc_other; [|done]. intros [_ ?]. done.
  - rewrite obj_get_set_ne by done.
    specialize (Hpm p). unfold person_inv, days_inv in *.
    destruct (JS.obj_get p pm) as [days|].
    + destruct Hpm as (Hne & Hndd & Hd). split; [done|]. split; [done|].
      intros d. apply day_inv_snoc_other; [|done]. intros [? _]. done.
    + intros d. rewrite entries_of_snoc_other; [done|]. intros [? _]. done.
Qed.

Lemma map_inv_fold (L0 L : list TimeEntry.t) (pm : JS.Obj (JS.Obj DailySummary.t)) :
  map_inv L0 pm -> map_inv (L0 ++ L) (fold_left Grouped.add_entry L pm).
Proof.
  revert L0 pm. induction L as [|e L IH]; intros L0 pm Hinv; simpl.
  - by rewrite app_nil_r.
  - rewrite (cons_middle e L0 L), app_assoc. apply IH. by apply map_inv_step.
Qed.

Lemma map_inv_grouped (L : list TimeEntry.t) :
  map_inv L (fold_left Grouped.add_entry L []).
Proof.
  apply (map_inv_fold [] L []). split; [constructor|]. intros p d. done.
Qed.

(** *** The run on ordinary keys *)

Lemma inherited_false (extra : list string) (k : string) :
  JS.inherited extra k = false -> (k ∉ JS.prototype_names) /\ (k ∉ extra).
Proof.
  unfold JS.inherited. intros Hk%bool_decide_eq_false.
  rewrite elem_of_app in Hk. tauto.
Qed.

Lemma add_entry_ordinary (extra : list string) (pm : JS.Obj (JS.Obj DailySummary.t))
    (e : TimeEntry.t) :
  JS.inherited extra (TimeEntry.person_name e) = false ->
  JS.inherited extra (TimeEntry.date e) = false ->
  Report.add_entry (pm, extra) e = Report.Done (Grouped.add_entry pm e, extra).
Proof.
  intros Hp Hd. apply inherited_false in Hd as [Hd1 Hd2]. rewrite add_entry_unfold.
  unfold Report.add_entry. cbv zeta.
  destruct (JS.obj_get (TimeEntry.person_name e) pm) as [days|] eqn:Ep.
  - unfold Report.add_day. cbv zeta. cbn [default from_option id].
    destruct (JS.obj_get (TimeEntry.date e) days) as [day|] eqn:Ed; [done|].
    by rewrite !bool_decide_false by done.
  - rewrite Hp. unfold Report.add_day. cbv zeta. cbn [JS.obj_get default from_option id].
    rewrite !bool_decide_false by done. by rewrite obj_set_set.
Qed.

Lemma add_entries_ordinary (extra : list string) (l : list TimeEntry.t)
    (pm : JS.Obj (JS.Obj DailySummary.t)) :
  ordinary_keys extra l = true ->
  Report.add_entries (pm, extra) l = Report.Done (fold_left Grouped.add_entry l pm, extra).
Proof.
  revert pm. induction l as [|e l IH]; intros pm Hl; [done|].
  cbn [ordinary_keys forallb] in Hl.
  apply andb_true_iff in Hl as [[Hp%negb_true_iff Hd%negb_true_iff]%andb_true_iff Hl].
  cbn [Report.add_entries fold_left]. rewrite add_entry_ordinary by done. by apply IH.
Qed.

Lemma ordinary_keys_sublist (extra : list string) (l l' : list TimeEntry.t) :
  (forall e, e ∈ l' -> e ∈ l) -> ordinary_keys extra l = true -> ordinary_keys extra l' = true.
Proof.
  unfold ordinary_keys. rewrite !forallb_forall. intros Hsub Hl e He.
  apply Hl, list_elem_of_In, Hsub, list_elem_of_In, He.
Qed.

(** *** The report *)

Lemma fold_left_Qplus_list (l : list Q) (acc : Q) :
  (fold_left Qplus l acc == acc + Qsum l)%Q.
Proof.
  revert acc. induction l as [|x l IH]; intros acc; simpl.
  - by rewrite Qplus_0_r.
  - rewrite IH. by rewrite Qplus_assoc.
Qed.

Lemma StronglySorted_valid_impl {A} (R R' : A -> A -> Prop) (valid : A -> Prop)
    (l : list A) :
  (forall x y, valid x -> valid y -> R x y -> R' x y) ->
  Forall valid l -> StronglySorted R l -> StronglySorted R' l.
Proof.
  intros Himpl Hv Hs. induction Hs as [|x l Hs IH Hx]; [constructor|].
  apply Forall_cons in Hv as [Hvx Hvl]. constructor; [by apply IH|].
  rewrite Forall_forall in Hx, Hvl. apply Forall_forall. intros y Hy. auto.
Qed.

Section ReportProperties.
Context `{Host}.
Import Report.
Import Grouped.

Lemma truthy_false_iff (s : string) : negb (JS.truthy s) = true <-> s = "".
Proof.
  unfold JS.truthy. rewrite negb_involutive. by destruct (String.eqb_spec s "").
Qed.

Lemma num_ge_iff (a b : option Z) :
  num_ge a b = true <-> exists x y, a = Some x /\ b = Some y /\ y <= x.
Proof.
  destruct a as [x|], b as [y|]; simpl; try (split; [done|by intros (? & ? & ? & ? & ?)]).
  rewrite Z.leb_le. split; [by eauto|]. by intros (? & ? & [= ->] & [= ->] & ?).
Qed.

Lemma num_le_iff (a b : option Z) :
  num_le a b = true <-> exists x y, a = Some x /\ b = Some y /\ x <= y.
Proof.
  destruct a as [x|], b as [y|]; simpl; try (split; [done|by intros (? & ? & ? & ? & ?)]).
  rewrite Z.leb_le. split; [by eauto|]. by intros (? & ? & [= ->] & [= ->] & ?).
Qed.

Lemma matches_iff (fp fs fe : string) (e : TimeEntry.t) :
  matches fp fs fe e = true <-> in_filter fp fs fe e.
Proof.
  unfold matches, in_filter. cbv zeta.
  rewrite !andb_true_iff, !orb_true_iff, !truthy_false_iff, num_ge_iff, num_le_iff.
  rewrite !String.eqb_eq. tauto.
Qed.

Section Filtered.
Variables (entries : list TimeEntry.t) (fp fs fe : string).
Hypothesis dates_parse :
  fs = "" -> fe = "" ->
  Forall (fun e => is_Some (JSDate.parse (TimeEntry.date e))) entries.

Let F := List.filter (matches fp fs fe) entries.

Lemma filtered_iff (e : TimeEntry.t) : e ∈ F <-> e ∈ entries /\ in_filter fp fs fe e.
Proof.
  unfold F. rewrite list_elem_of_In, filter_In, <- list_elem_of_In, matches_iff. done.
Qed.

Lemma filtered_date_parses (e : TimeEntry.t) :
  e ∈ F -> is_Some (JSDate.parse (TimeEntry.date e)).
Proof.
  intros [He (_ & Hs & He')]%filtered_iff.
  destruct Hs as [->|(x & _ & -> & _)]; [|by eexists].
  destruct He' as [->|(x & _ & -> & _)]; [|by eexists].
  pose proof (dates_parse eq_refl eq_refl) as Hall.
  rewrite Forall_forall in Hall. by apply Hall.
Qed.

Lemma date_before_total (a b : DailySummary.t) :
  parses a -> parses b ->
  precedes (JS.before_of date_diff) a b \/ precedes (JS.before_of date_diff) b a.
Proof.
  unfold parses, precedes, JS.before_of, date_diff. intros [x ->] [y ->].
  rewrite !Z.leb_le. lia.
Qed.

Lemma date_before_trans (a b c : DailySummary.t) :
  parses a -> parses b -> parses c ->
  precedes (JS.before_of date_diff) a b -> precedes (JS.before_of date_diff) b c ->
  precedes (JS.before_of date_diff) a c.
Proof.
  unfold parses, precedes, JS.before_of, date_diff. intros [x ->] [y ->] [z ->].
  rewrite !Z.leb_le. lia.
Qed.

Lemma date_before_le (a b : DailySummary.t) :
  parses a -> parses b -> precedes (JS.before_of date_diff) a b -> date_le a b.
Proof.
  unfold parses, precedes, JS.before_of, date_diff, date_le. intros [x Hx] [y Hy].
  rewrite Hx, Hy, Z.leb_le. intros Hle. exists x, y. repeat split; [done..|lia].
Qed.

Lemma days_inv_elem (p : string) (days : JS.Obj DailySummary.t) (d : string)
    (day : DailySummary.t) :
  days_inv p F days -> (d, day) ∈ days ->
  day = summary_of p d F /\ entries_of p d F <> [].
Proof.
  intros [Hnd Hinv] Hin. specialize (Hinv d).
  by rewrite (obj_elem_get d day days Hnd Hin) in Hinv.
Qed.

Lemma days_inv_dates (p : string) (days : JS.Obj DailySummary.t) :
  days_inv p F days -> List.map DailySummary.date days.*2 = days.*1.
Proof.
  intros Hinv.
  assert (Forall (fun kv => DailySummary.date kv.2 = kv.1) days) as Hall.
  { apply Forall_forall. intros [d day] Hin.
    by destruct (days_inv_elem p days d day Hinv Hin) as [-> _]. }
  clear Hinv. induction Hall as [|[d day] l Hd Hl IH]; [done|].
  csimpl in *. by rewrite IH, Hd.
Qed.

Lemma summary_of_day_ok (p d : string) :
  entries_of p d F <> [] -> day_ok F p (summary_of p d F).
Proof.
  intros Hne. unfold day_ok, summary_of. cbv zeta.
  cbn [DailySummary.date DailySummary.duration_mins DailySummary.job_names
       DailySummary.entryIds].
  repeat split; try done.
  rewrite fold_left_Qplus_list. apply Qplus_0_l.
Qed.

Lemma person_report_ok (p : string) (days : JS.Obj DailySummary.t) :
  days_inv p F days -> report_ok F (person_report (p, days)).
Proof.
  intros Hinv. unfold report_ok, person_report. cbv zeta.
  cbn [PersonReport.person_name PersonReport.dailySummaries PersonReport.totalMins
       PersonReport.allIds].
  set (sorted := JS.Array_sort (JS.before_of date_diff) (JS.Object_values days)).
  assert (sorted ≡ₚ days.*2) as Hperm.
  { unfold sorted, JS.Object_values. rewrite Array_sort_Permutation.
    change (List.map snd (JS.Object_entries days)) with ((JS.Object_entries days).*2)
      at 1 || idtac.
    apply Permutation_map. apply Object_entries_Permutation. }
  assert (forall day, day ∈ sorted ->
            exists d, day = summary_of p d F /\ entries_of p d F <> []) as Hday.
  { intros day Hin. rewrite Hperm in Hin.
    apply list_elem_of_fmap in Hin as ([d day'] & -> & Hin).
    exists d. by apply (days_inv_elem p days). }
  assert (List.map DailySummary.date sorted ≡ₚ days.*1) as Hdates.
  { rewrite <- (days_inv_dates p days Hinv). by apply Permutation_map. }
  split; [|split; [|split; [|split; [|split]]]].
  - rewrite Hdates. apply Hinv.
  - intros d. rewrite Hdates. destruct Hinv as [Hnd Hinv]. specialize (Hinv d).
    rewrite <- entries_of_nonempty.
    destruct (JS.obj_get d days) as [day|] eqn:E; simpl in Hinv.
    + split; [intros _; apply Hinv|]. intros _.
      apply obj_get_Some_elem in E. apply list_elem_of_fmap. by exists (d, day).
    + split; [|done]. intros Hin. by apply obj_get_None in E.
  - apply Forall_forall. intros day Hin.
    destruct (Hday day Hin) as (d & -> & Hne). by apply summary_of_day_ok.
  - assert (Forall parses sorted) as Hvalid.
    { apply Forall_forall. intros day Hin.
      destruct (Hday day Hin) as (d & -> & Hne).
      apply entries_of_nonempty in Hne as (e & He & _ & <-).
      by apply filtered_date_parses. }
    apply (StronglySorted_valid_impl (precedes (JS.before_of date_diff)) _ parses);
      [apply date_before_le|done|].
    apply (Array_sort_sorted _ parses date_before_total date_before_trans).
    unfold sorted in Hvalid. by rewrite Array_sort_Permutation in Hvalid.
  - rewrite fold_left_Qplus. apply Qplus_0_l.
  - done.
Qed.

End Filtered.

End ReportProperties.

Section ReportTheorem.
Context `{Host}.
Import Report.
Import Grouped.

Lemma person_report_name (pm : JS.Obj (JS.Obj DailySummary.t)) :
  List.map PersonReport.person_name (List.map person_report pm) = pm.*1.
Proof.
  induction pm as [|[p days] pm IH]; [done|]. csimpl. by rewrite IH.
Qed.

Lemma example_grouped :
  List.map person_report
    (JS.Object_entries
       (fold_left add_entry
          (List.filter (matches "All" "2024-01-01" "2024-01-02")
             [alice_morning; alice_noon; bob_morning]) []))
  = [alice_report; bob_report].
Proof. reflexivity. Qed.

Lemma grouped_spec (entries : list TimeEntry.t) (fp fs fe : string) :
  (forall a b, localeCompare a b <= 0 \/ localeCompare b a <= 0) ->
  (forall a b c, localeCompare a b <= 0 -> localeCompare b c <= 0 ->
                 localeCompare a c <= 0) ->
  (fs = "" -> fe = "" ->
     Forall (fun e => is_Some (JSDate.parse (TimeEntry.date e))) entries) ->
  let F := List.filter (matches fp fs fe) entries in
  let R := reportData entries fp fs fe in
  (forall e, e ∈ F <-> e ∈ entries /\ in_filter fp fs fe e)
  /\ NoDup (List.map PersonReport.person_name R)
  /\ (forall p, p ∈ List.map PersonReport.person_name R
                <-> exists e, e ∈ F /\ TimeEntry.person_name e = p)
  /\ StronglySorted name_le R
  /\ Forall (report_ok F) R
  /\ (localeCompare "Alice" "Bob" < 0 ->
        reportData [alice_morning; alice_noon; bob_morning] "All" "2024-01-01" "2024-01-02"
        = [alice_report; bob_report]).
Proof.
  intros Htotal Htrans Hdates F R.
  set (pm := fold_left add_entry F []).
  destruct (map_inv_grouped F) as [Hnd Hpm]. fold pm in Hnd, Hpm.
  assert (R ≡ₚ List.map person_report pm) as HR.
  { unfold R, reportData. cbv zeta. fold F. fold pm.
    rewrite Array_sort_Permutation. apply Permutation_map, Object_entries_Permutation. }
  assert (List.map PersonReport.person_name R ≡ₚ pm.*1) as Hnames.
  { rewrite <- person_report_name. by apply Permutation_map. }
  split; [apply filtered_iff|].
  split; [by rewrite Hnames|]. split; [|split; [|split]].
  - intros p. rewrite Hnames. specialize (Hpm p).
    destruct (JS.obj_get p pm) as [days|] eqn:E; simpl in Hpm.
    + destruct Hpm as [Hne Hinv]. split.
      * intros _. destruct days as [|[d day] days]; [done|].
        destruct (days_inv_elem entries fp fs fe p _ d day Hinv (list_elem_of_here _ _))
          as [_ (e & He & Hp & _)%entries_of_nonempty].
        by exists e.
      * intros _. apply obj_get_Some_elem in E.
        apply list_elem_of_fmap. by exists (p, days).
    + split.
      * intros Hin. by apply obj_get_None in E.
      * intros (e & He & Hp). exfalso.
        assert (e ∈ entries_of p (TimeEntry.date e) F) as Hin
          by by apply entries_of_elem.
        rewrite Hpm in Hin. by apply elem_of_nil in Hin.
  - unfold R, reportData. cbv zeta.
    apply (StronglySorted_valid_impl (precedes (JS.before_of name_diff)) _
             (fun _ => True)).
    + intros a b _ _. unfold precedes, JS.before_of, name_diff, name_le.
      by rewrite Z.leb_le.
    + by apply Forall_forall.
    + apply (Array_sort_sorted _ (fun _ => True)).
      * intros a b _ _. unfold precedes, JS.before_of, name_diff.
        rewrite !Z.leb_le. apply Htotal.
      * intros a b c _ _ _. unfold precedes, JS.before_of, name_diff.
        rewrite !Z.leb_le. apply Htrans.
      * by apply Forall_forall.
  - apply Forall_forall. intros r Hr. rewrite HR in Hr.
    apply list_elem_of_In, in_map_iff in Hr as ([p days] & <- & Hin%list_elem_of_In).
    specialize (Hpm p). rewrite (obj_elem_get p days pm Hnd Hin) in Hpm.
    destruct Hpm as [_ Hinv].
    by apply (person_report_ok entries fp fs fe Hdates).
  - intros Halice. unfold reportData. cbv zeta. rewrite example_grouped.
    cbn [JS.Array_sort JS.sort_insert].
    unfold JS.before_of at 1, name_diff.
    cbn [alice_report bob_report PersonReport.person_name].
    destruct (Z.leb_spec (localeCompare "Alice" "Bob") 0); [done|lia].
Qed.

(** On ordinary keys the run is [Grouped.reportData], and
    [Object.prototype] is left as it was. *)
Lemma grouped_run (extra : list string) (entries : list TimeEntry.t) (fp fs fe : string) :
  ordinary_keys extra (List.filter (matches fp fs fe) entries) = true ->
  Report.reportData extra entries fp fs fe
  = Report.Done (Grouped.reportData entries fp fs fe, extra).
Proof.
  intros Hord. unfold Report.reportData, Grouped.reportData. cbv zeta.
  by rewrite add_entries_ordinary.
Qed.

(** X19.  Let [F] be the entries the filter lets through, and let no
    person and no date of [F] be the name of something inherited from
    [Object.prototype].  Then the run returns a report and leaves
    [Object.prototype] as it was.  The report has one person-report for
    each person with an entry in [F], none twice, in ascending order of
    collation of the names.  In the report of a person there is one
    summary for each date on which that person has an entry in [F], none
    twice, in ascending order of the dates; the summary of a date sums the
    minutes of the person's entries of that date, lists their job names
    without repetition in the order of first occurrence, and lists their
    identifiers in order; the person's total is the sum of the daily
    totals and the person's identifiers are those of the days,
    concatenated.  The collation is assumed to be a total preorder, and,
    when no date bound is given, the dates of the entries are assumed to
    parse.  On the three entries Alice 2024-01-01 60 min, Alice 2024-01-01
    30 min, Bob 2024-01-02 45 min the report has two person-reports,
    Alice's first (Alice collating before Bob), and Alice's only day sums
    to 90 minutes with the identifiers of both her entries. *)
Theorem reportData_spec (extra : list string) (entries : list TimeEntry.t)
    (fp fs fe : string) :
  (forall a b, localeCompare a b <= 0 \/ localeCompare b a <= 0) ->
  (forall a b c, localeCompare a b <= 0 -> localeCompare b c <= 0 ->
                 localeCompare a c <= 0) ->
  (fs = "" -> fe = "" ->
     Forall (fun e => is_Some (JSDate.parse (TimeEntry.date e))) entries) ->
  let F := List.filter (matches fp fs fe) entries in
  ordinary_keys extra F = true ->
  exists R,
    Report.reportData extra entries fp fs fe = Done (R, extra)
    /\ (forall e, e ∈ F <-> e ∈ entries /\ in_filter fp fs fe e)
    /\ NoDup (List.map PersonReport.person_name R)
    /\ (forall p, p ∈ List.map PersonReport.person_name R
                  <-> exists e, e ∈ F /\ TimeEntry.person_name e = p)
    /\ StronglySorted name_le R
    /\ Forall (report_ok F) R
    /\ (localeCompare "Alice" "Bob" < 0 ->
          Report.reportData [] [alice_morning; alice_noon; bob_morning]
            "All" "2024-01-01" "2024-01-02"
          = Done ([alice_report; bob_report], [])).
Proof.
  intros Htotal Htrans Hdates F Hord.
  destruct (grouped_spec entries fp fs fe Htotal Htrans Hdates)
    as (HF & Hnd & Hnames & Hsorted & Hok & Hexample).
  exists (Grouped.reportData entries fp fs fe).
  split; [by apply grouped_run|]. repeat (split; [done|]).
  intros Halice. rewrite grouped_run by reflexivity. by rewrite Hexample.
Qed.

End ReportTheorem.

(** The collation of the sample host is the order by code units. *)
Lemma sample_collation_le (a b : string) :
  @localeCompare sample_host a b <= 0 <-> String.leb a b = true.
Proof.
  unfold String.leb. simpl. destruct (String.compare a b); split; (done || lia).
Qed.

Lemma sample_collation_total (a b : string) :
  @localeCompare sample_host a b <= 0 \/ @localeCompare sample_host b a <= 0.
Proof. rewrite !sample_collation_le. apply String.leb_total. Qed.

Lemma sample_collation_trans (a b c : string) :
  @localeCompare sample_host a b <= 0 -> @localeCompare sample_host b c <= 0 ->
  @localeCompare sample_host a c <= 0.
Proof.
  rewrite !sample_collation_le.
  apply (default_before_trans a b c); exact I.
Qed.

Lemma reportData_spec_witness :
  exists R,
    @Report.reportData sample_host [] [alice_morning; alice_noon; bob_morning]
      "All" "2024-01-01" "2024-01-02"
    = Report.Done (R, [])
    /\ StronglySorted (@name_le sample_host) R
    /\ R = [alice_report; bob_report].
Proof.
  destruct (@reportData_spec sample_host [] [alice_morning; alice_noon; bob_morning]
              "All" "2024-01-01" "2024-01-02"
              sample_collation_total sample_collation_trans
              (fun Hs : "2024-01-01" = "" => ltac:(discriminate Hs)) eq_refl)
    as (R & HR & _ & _ & _ & Hsorted & _ & Hexample).
  exists R. split; [exact HR|]. split; [exact Hsorted|].
  rewrite (Hexample eq_refl) in HR. by injection HR.
Defined.

(** C2.  A worker called constructor has an entry that passes the filter
    and no person-report: [personMap["constructor"]] is the function
    [Object], inherited, so no property is created for the worker and the
    day is put on that function; the report of the entries of that worker
    and of Bob is Bob's alone.  For a worker called __proto__ the day is
    put on [Object.prototype] itself: Alice, who has an entry of the same
    date after it, gets a person-report without a day, with total 0 and
    no identifier, and the date stays on [Object.prototype].  With no date
    bound, an entry dated by the word constructor makes the run throw. *)
Theorem reportData_inherited_name :
  @Report.reportData sample_host [] [constructor_morning; bob_morning]
    "All" "2024-01-01" "2024-01-02"
  = Report.Done ([bob_report], [])
  /\ constructor_morning
     ∈ List.filter (@Report.matches sample_host "All" "2024-01-01" "2024-01-02")
         [constructor_morning; bob_morning]
  /\ @Report.reportData sample_host [] [proto_morning; alice_morning]
       "All" "2024-01-01" "2024-01-02"
     = Report.Done ([PersonReport.mk "Alice" [] 0 []], ["2024-01-01"])
  /\ @Report.reportData sample_host [] [alice_undated] "All" "" "" = Report.TypeError.
Proof.
  split; [reflexivity|]. split; [|split; reflexivity].
  apply list_elem_of_here.
Qed.

(** ** Part IX: further properties of the sources *)

(** *** The twelve-hour clock *)

Lemma is_digit_elem (a : ascii) : is_digit a = true -> a ∈ digits.
Proof.
  destruct a as [[] [] [] [] [] [] [] []]; try discriminate; intros _;
    unfold digits; repeat (first [apply list_elem_of_here | apply list_elem_of_further]).
Qed.

Lemma to12_table :
  forallb (fun a => forallb (fun b => forallb (fun c => forallb (fun d =>
    to12_check a b c d) digits) digits) digits) digits = true.
Proof. by vm_compute. Qed.

(** X1.  On two digits, a colon and two digits, [formatTimeTo12h] writes
    the hour of the twelve-hour clock (between 1 and 12, 12 for the hours
    0 and 12), the minutes as they were, and AM below 12, PM from 12 on;
    for an hour up to 23 the output names the same hour again. *)
Theorem formatTimeTo12h_HHmm (a b c d : ascii) :
  is_digit a = true -> is_digit b = true -> is_digit c = true -> is_digit d = true ->
  let h := two_digit_value a b in
  UtilsTime.formatTimeTo12h (HHmm a b c d)
  = pretty (hour12 h) +:+ ":" +:+ String c (String d EmptyString)
    +:+ " " +:+ (if 12 <=? h then "PM" else "AM")
  /\ 1 <= hour12 h <= 12
  /\ (h <= 23 -> h = hour12 h mod 12 + (if 12 <=? h then 12 else 0)).
Proof.
  intros Ha Hb Hc Hd h. split; [|split].
  - pose proof to12_table as Ht.
    rewrite forallb_forall in Ht.
    specialize (Ht a (proj1 (list_elem_of_In _ _) (is_digit_elem a Ha))).
    rewrite forallb_forall in Ht.
    specialize (Ht b (proj1 (list_elem_of_In _ _) (is_digit_elem b Hb))).
    rewrite forallb_forall in Ht.
    specialize (Ht c (proj1 (list_elem_of_In _ _) (is_digit_elem c Hc))).
    rewrite forallb_forall in Ht.
    specialize (Ht d (proj1 (list_elem_of_In _ _) (is_digit_elem d Hd))).
    by apply String.eqb_eq in Ht.
  - unfold hour12. pose proof (Z.mod_pos_bound h 12 ltac:(lia)).
    destruct (Z.eqb_spec (h mod 12) 0); lia.
  - intros H23.
    assert (0 <= h) as H0.
    { unfold h, two_digit_value, is_digit in *.
      destruct (JS.digit_val a) eqn:Ea; [|done]. destruct (JS.digit_val b) eqn:Eb; [|done].
      apply digit_val_range in Ea, Eb. simpl. lia. }
    unfold hour12.
    destruct (Z.eqb_spec (h mod 12) 0); destruct (Z.leb_spec 12 h);
      Z.div_mod_to_equations; lia.
Qed.

Lemma formatTimeTo12h_HHmm_witness :
  UtilsTime.formatTimeTo12h "13:45" = "1:45 PM"
  /\ 1 <= hour12 13 <= 12
  /\ (13 <= 23 -> 13 = hour12 13 mod 12 + 12).
Proof.
  exact (formatTimeTo12h_HHmm "1" "3" "4" "5" eq_refl eq_refl eq_refl eq_refl).
Defined.

Lemma append_assoc_string (a b c : string) : (a +:+ b) +:+ c = a +:+ (b +:+ c).
Proof.
  induction a as [|x a IH]; [done|].
  change (String x ((a +:+ b) +:+ c) = String x (a +:+ (b +:+ c))). by rewrite IH.
Qed.

Lemma append_empty_r (a : string) : a +:+ "" = a.
Proof.
  induction a as [|x a IH]; [done|].
  change (String x (a +:+ "") = String x a). by rewrite IH.
Qed.

Lemma split_go_no_colon (cur s : string) :
  JS.includes ":" s = false -> JS.split_go [":"] O cur s = [cur +:+ s].
Proof.
  revert cur. induction s as [|c s IH]; intros cur Hs.
  - simpl. by rewrite append_empty_r.
  - cbn [JS.includes JS.starts_with] in Hs. cbn [JS.split_go JS.match_any JS.starts_with].
    destruct (Ascii.eqb ":" c); [done|]. simpl in Hs.
    rewrite IH by done. by rewrite append_assoc_string.
Qed.

(** X2.  [formatTimeTo12h] answers on every string.  The empty string gives
    the empty string.  A non-empty string without a colon has no minutes
    field, and the word "undefined" is written where the minutes go.  A
    string that starts with the colon has no hour: 12 and AM are
    written. *)
Theorem formatTimeTo12h_edges :
  UtilsTime.formatTimeTo12h "" = ""
  /\ (forall s, s <> "" -> JS.includes ":" s = false ->
        exists hour half,
          UtilsTime.formatTimeTo12h s = hour +:+ ":undefined " +:+ half
          /\ (half = "AM" \/ half = "PM"))
  /\ (forall rest, JS.includes ":" rest = false ->
        UtilsTime.formatTimeTo12h (":" +:+ rest) = "12:" +:+ rest +:+ " AM").
Proof.
  split; [done|]. split.
  - intros s Hne Hs. unfold UtilsTime.formatTimeTo12h, JS.truthy.
    destruct (String.eqb_spec s ""); [done|]. cbn [negb].
    unfold JS.split. rewrite split_go_no_colon by done.
    cbn [lookup list_lookup default from_option id].
    exists (pretty (match (fun v => Z.rem v 12) <$> UtilsTime.parseInt10 (s +:+ "") with
                    | Some v => if v =? 0 then 12 else v
                    | None => 12
                    end)),
           (match UtilsTime.parseInt10 (s +:+ "") with
            | Some v => if 12 <=? v then "PM" else "AM"
            | None => "AM"
            end).
    change ("" +:+ s) with s. rewrite append_empty_r.
    split; [reflexivity|].
    destruct (UtilsTime.parseInt10 s) as [v|]; [|by left].
    destruct (12 <=? v); [by right|by left].
  - intros rest Hs. unfold UtilsTime.formatTimeTo12h.
    change (JS.truthy (":" +:+ rest)) with true. cbn [negb].
    change (JS.split [":"] (":" +:+ rest)) with ("" :: JS.split_go [":"] O "" rest).
    rewrite split_go_no_colon by done. reflexivity.
Qed.

Lemma formatTimeTo12h_edges_witness :
  (exists hour half,
      UtilsTime.formatTimeTo12h "8" = hour +:+ ":undefined " +:+ half
      /\ (half = "AM" \/ half = "PM"))
  /\ UtilsTime.formatTimeTo12h ":30" = "12:30 AM".
Proof.
  split.
  - apply (proj1 (proj2 formatTimeTo12h_edges) "8"); [discriminate|reflexivity].
  - apply (proj2 (proj2 formatTimeTo12h_edges) "30"). reflexivity.
Defined.

(** *** Choosing a job on the dashboard *)

Lemma unselected_selected (extra : list string) (prev : gmap string string) (p : string) :
  negb (Dashboard.selected extra prev p) = true <-> unselected extra prev p.
Proof.
  unfold unselected, Dashboard.selected, JS.truthy.
  destruct (prev !! p) as [s|].
  - rewrite negb_involutive. destruct (String.eqb_spec s "") as [->|Hne].
    + split; [by left|done].
    + split; [done|]. intros [[= ?]|[? _]]; done.
  - rewrite negb_true_iff. split; [by right|]. by intros [?|[_ ?]].
Qed.

Lemma propagate_lookup (extra : list string) (prev : gmap string string)
    (personName jobName : string) (people : list string) (next : gmap string string)
    (p : string) :
  fold_left
    (fun next p =>
       if negb (Dashboard.selected extra prev p) && negb (String.eqb p personName)
       then <[p := jobName]> next else next)
    people next !! p
  = if decide (p ∈ people /\ unselected extra prev p /\ p <> personName)
    then Some jobName else next !! p.
Proof.
  revert next. induction people as [|q people IH]; intros next.
  - cbn [fold_left].
    destruct (decide (p ∈ [] /\ unselected extra prev p /\ p <> personName))
      as [[Hin _]|]; [by apply elem_of_nil in Hin|done].
  - cbn [fold_left]. rewrite IH.
    destruct (decide (p ∈ people /\ unselected extra prev p /\ p <> personName))
      as [(Hin & Hun & Hne)|Hno].
    + rewrite decide_True; [done|]. split; [by right|done].
    + destruct (negb (Dashboard.selected extra prev q) && negb (String.eqb q personName))
        eqn:E.
      * apply andb_true_iff in E as [Hq%unselected_selected Hneq%negb_true_iff].
        apply String.eqb_neq in Hneq.
        destruct (decide (p = q)) as [->|Hpq].
        -- rewrite lookup_insert_eq. rewrite decide_True; [done|].
           split; [by left|done].
        -- rewrite lookup_insert_ne by done.
           rewrite decide_False; [done|].
           intros ([?|?]%elem_of_cons & ? & ?); [done|]. by apply Hno.
      * rewrite decide_False; [done|].
        intros ([->|?]%elem_of_cons & Hun & Hne); [|by apply Hno].
        apply unselected_selected in Hun. rewrite Hun in E. simpl in E.
        apply negb_false_iff, String.eqb_eq in E. done.
Qed.

(** X5.  Choosing [jobName] for [personName] records it for that person.
    When the choice is not the empty one it is also recorded for every
    listed worker who had nothing selected: the empty string, or no
    property at all, own or inherited from [Object.prototype]; a worker
    with a selection, and anyone not listed, keeps what was recorded.  So
    a listed worker called constructor, or by any other name that
    [Object.prototype] holds, is not given the job unless the empty
    string was recorded for that worker.  Clearing the choice (the empty
    string) touches nobody else. *)
Theorem handleJobChange_spec (extra people : list string) (personName jobName : string)
    (prev : gmap string string) :
  let next := Dashboard.handleJobChange extra people personName jobName prev in
  next !! personName = Some jobName
  /\ (forall p, p <> personName ->
        next !! p
        = if decide (jobName <> "" /\ p ∈ people /\ unselected extra prev p)
          then Some jobName else prev !! p)
  /\ (forall p, p <> personName -> JS.inherited extra p = true -> prev !! p = None ->
        next !! p = None).
Proof.
  intros next.
  assert (next !! personName = Some jobName
          /\ (forall p, p <> personName ->
                next !! p
                = if decide (jobName <> "" /\ p ∈ people /\ unselected extra prev p)
                  then Some jobName else prev !! p)) as [Hown Hothers].
  { unfold next, Dashboard.handleJobChange. cbv zeta. unfold JS.truthy.
    destruct (String.eqb_spec jobName "") as [->|Hjob]; cbn [negb]; cbv iota.
    - split; [apply lookup_insert_eq|]. intros p Hp.
      rewrite lookup_insert_ne by done. rewrite decide_False; [done|]. by intros [? _].
    - split.
      + rewrite propagate_lookup. rewrite decide_False by (by intros (_ & _ & ?)).
        apply lookup_insert_eq.
      + intros p Hp. rewrite propagate_lookup, lookup_insert_ne by done.
        destruct (decide (p ∈ people /\ unselected extra prev p /\ p <> personName))
          as [(? & ? & ?)|Hno].
        * by rewrite decide_True.
        * rewrite decide_False; [done|]. intros (_ & ? & ?). by apply Hno. }
  split; [done|]. split; [done|].
  intros p Hp Hinh Hnone. rewrite (Hothers p Hp).
  rewrite decide_False; [done|].
  intros (_ & _ & [Hsome|[_ Hplain]]); congruence.
Qed.

(** *** Searching the history *)

Lemma includes_empty (s : string) : JS.includes "" s = true.
Proof. by destruct s. Qed.

Lemma toLowerCase_idem (s : string) : JS.toLowerCase (JS.toLowerCase s) = JS.toLowerCase s.
Proof.
  induction s as [|c s IH]; [done|]. cbn [JS.toLowerCase]. rewrite IH. f_equal.
  destruct c as [[] [] [] [] [] [] [] []]; reflexivity.
Qed.

(** X6.  With no search term and the person filter on "All" the history
    shows every entry, in order.  Choosing a person other than "All" shows
    exactly the entries of the "All" view that are that person's.  The
    search term is read without regard to the case of its ASCII letters:
    a term and its lower-case form select the same entries. *)
Theorem filteredEntries_spec (entries : list TimeEntry.t) (searchTerm person : string) :
  EntriesList.filteredEntries entries "" "All" = entries
  /\ (person <> "All" ->
        EntriesList.filteredEntries entries searchTerm person
        = filter (fun e => TimeEntry.person_name e = person)
            (EntriesList.filteredEntries entries searchTerm "All"))
  /\ EntriesList.filteredEntries entries (JS.toLowerCase searchTerm) person
     = EntriesList.filteredEntries entries searchTerm person.
Proof.
  split; [|split].
  - unfold EntriesList.filteredEntries.
    match goal with |- List.filter ?f _ = _ => set (shown := f) end.
    assert (forall e, shown e = true) as Hshown.
    { intros e. unfold shown. change (JS.toLowerCase "") with "".
      by rewrite includes_empty. }
    induction entries as [|e l IH]; [done|].
    cbn [List.filter]. by rewrite Hshown, IH.
  - intros Hne. unfold EntriesList.filteredEntries.
    match goal with |- List.filter ?f _ = filter _ (List.filter ?g _) =>
      set (shown := f); set (found := g) end.
    assert (forall e, shown e
                      = found e && String.eqb (TimeEntry.person_name e) person) as Hshown.
    { intros e. unfold shown, found. change (String.eqb "All" "All") with true.
      destruct (String.eqb_spec person "All"); [done|].
      cbn [orb]. by rewrite andb_true_r. }
    induction entries as [|e l IH]; [done|].
    cbn [List.filter]. rewrite Hshown, IH.
    destruct (found e); cbn [andb]; [|done].
    destruct (String.eqb_spec (TimeEntry.person_name e) person).
    + by rewrite filter_cons_True.
    + by rewrite filter_cons_False.
  - unfold EntriesList.filteredEntries. by rewrite toLowerCase_idem.
Qed.

Lemma filteredEntries_spec_witness :
  EntriesList.filteredEntries [alice_morning; alice_noon; bob_morning] "SITE" "Bob"
  = filter (fun e => TimeEntry.person_name e = "Bob")
      (EntriesList.filteredEntries [alice_morning; alice_noon; bob_morning] "SITE" "All").
Proof.
  apply (proj1 (proj2 (filteredEntries_spec [alice_morning; alice_noon; bob_morning]
                         "SITE" "Bob"))).
  discriminate.
Defined.

(** *** Entries kept in the component: saving, deleting, approving *)

(** X7.  Saving while editing replaces, in place, every entry that carries
    the identifier of the saved one: the list keeps its length and its
    identifiers in order, and an entry with another identifier is not
    touched; when no entry carries that identifier the list is unchanged
    (the edit is dropped without notice).  Saving while not editing puts the
    entry first and keeps the rest. *)
Theorem saveEntry_spec (entry : TimeEntry.t) (prev : list TimeEntry.t) :
  ids_of (LocalApp.saveEntry true entry prev) = ids_of prev
  /\ (forall i e, prev !! i = Some e ->
        LocalApp.saveEntry true entry prev !! i
        = Some (if decide (TimeEntry.id e = TimeEntry.id entry) then entry else e))
  /\ (TimeEntry.id entry ∉ ids_of prev -> LocalApp.saveEntry true entry prev = prev)
  /\ LocalApp.saveEntry false entry prev = entry :: prev.
Proof.
  unfold LocalApp.saveEntry, ids_of. split; [|split; [|split]].
  - induction prev as [|e l IH]; [done|]. cbn [List.map]. rewrite IH. f_equal.
    by destruct (String.eqb_spec (TimeEntry.id e) (TimeEntry.id entry)) as [->|].
  - intros i e Hi. revert i Hi. induction prev as [|e0 l IH]; intros i Hi; [done|].
    destruct i as [|i]; cbn [List.map] in *.
    + simpl in Hi. simplify_eq. simpl. f_equal.
      destruct (String.eqb_spec (TimeEntry.id e) (TimeEntry.id entry));
        [by rewrite decide_True|by rewrite decide_False].
    + simpl in Hi. simpl. by apply IH.
  - intros Hnotin. induction prev as [|e l IH]; [done|]. cbn [List.map] in *.
    apply not_elem_of_cons in Hnotin as [Hne Hnotin]. rewrite IH by done.
    by destruct (String.eqb_spec (TimeEntry.id e) (TimeEntry.id entry)).
  - done.
Qed.

Lemma saveEntry_spec_witness :
  LocalApp.saveEntry true bob_morning [alice_morning; alice_noon]
  = [alice_morning; alice_noon].
Proof.
  apply (proj1 (proj2 (proj2 (saveEntry_spec bob_morning [alice_morning; alice_noon])))).
  intros Hin. by repeat (apply elem_of_cons in Hin as [Hin|Hin]; [discriminate|]);
    apply elem_of_nil in Hin.
Defined.

Lemma deleteEntry_filter (id : string) (prev : list TimeEntry.t) :
  LocalApp.deleteEntry true id prev = filter (fun e => TimeEntry.id e <> id) prev.
Proof.
  unfold LocalApp.deleteEntry. induction prev as [|e l IH]; [done|].
  cbn [List.filter]. rewrite IH.
  destruct (String.eqb_spec (TimeEntry.id e) id); cbn [negb].
  - rewrite filter_cons_False; [done|]. by intros Hne.
  - by rewrite filter_cons_True.
Qed.

Lemma approveEntries_filter (ids : list string) (prev : list TimeEntry.t) :
  LocalApp.approveEntries ids prev = filter (fun e => TimeEntry.id e ∉ ids) prev.
Proof.
  unfold LocalApp.approveEntries. induction prev as [|e l IH]; [done|].
  cbn [List.filter]. rewrite IH.
  destruct (decide (TimeEntry.id e ∈ ids)) as [Hin|Hnotin].
  - rewrite bool_decide_true by done. cbn [negb].
    rewrite filter_cons_False; [done|]. by intros Hne.
  - rewrite bool_decide_false by done. cbn [negb]. by rewrite filter_cons_True.
Qed.

(** X8.  In the variant that keeps the entries in the component, approving
    a list of identifiers keeps exactly the entries whose identifier is not
    listed, in their order, with no dialog; it is what deleting the
    identifiers one after the other (each deletion confirmed) leaves, so
    the order of the identifiers does not matter; approving identifiers
    that no entry carries changes nothing, and a deletion that is declined
    changes nothing. *)
Theorem local_approve_spec (ids : list string) (prev : list TimeEntry.t) :
  LocalApp.approveEntries ids prev = filter (fun e => TimeEntry.id e ∉ ids) prev
  /\ LocalApp.approveEntries ids prev
     = fold_left (fun acc i => LocalApp.deleteEntry true i acc) ids prev
  /\ (forall ids', ids' ≡ₚ ids ->
        LocalApp.approveEntries ids' prev = LocalApp.approveEntries ids prev)
  /\ ((forall e, e ∈ prev -> TimeEntry.id e ∉ ids) ->
        LocalApp.approveEntries ids prev = prev)
  /\ (forall i, LocalApp.deleteEntry false i prev = prev).
Proof.
  split; [apply approveEntries_filter|]. split; [|split; [|split]].
  - revert prev. induction ids as [|i ids IH]; intros prev.
    + rewrite approveEntries_filter. cbn [fold_left].
      induction prev as [|e l IHl]; [done|].
      rewrite filter_cons_True by apply not_elem_of_nil. by rewrite IHl.
    + cbn [fold_left]. rewrite <- IH, deleteEntry_filter, !approveEntries_filter.
      rewrite list_filter_filter. apply list_filter_iff. intros e.
      rewrite not_elem_of_cons. tauto.
  - intros ids' Hperm. rewrite !approveEntries_filter.
    apply list_filter_iff. intros e. by rewrite Hperm.
  - intros Hnone. rewrite approveEntries_filter.
    induction prev as [|e l IH]; [done|].
    rewrite filter_cons_True by (apply Hnone; by left).
    rewrite IH; [done|]. intros e' He'. apply Hnone. by right.
  - done.
Qed.

Lemma local_approve_spec_witness :
  LocalApp.approveEntries ["id2"; "id1"] [alice_morning; alice_noon; bob_morning]
  = LocalApp.approveEntries ["id1"; "id2"] [alice_morning; alice_noon; bob_morning].
Proof.
  apply (proj1 (proj2 (proj2 (local_approve_spec ["id1"; "id2"]
                                [alice_morning; alice_noon; bob_morning])))).
  apply Permutation_swap.
Defined.

(** *** Entries kept in the synchronised collection *)

(** X9.  For a signed-in user, saving an entry and reading the collection
    under its identifier gives the entry back, and no other identifier is
    affected; saving again under the same identifier replaces the entry
    and leaves the number of entries as it was; deleting after saving
    leaves the collection without that identifier, equal to the collection
    before when the identifier was new.  With nobody signed in, or the
    deletion declined, nothing is written. *)
Theorem store_round_trip (uid : string) (e e' : TimeEntry.t)
    (docs : gmap string TimeEntry.t) :
  App.run_writes (AppStore.saveEntry (Some uid) e) docs !! TimeEntry.id e = Some e
  /\ (forall i, i <> TimeEntry.id e ->
        App.run_writes (AppStore.saveEntry (Some uid) e) docs !! i = docs !! i)
  /\ (TimeEntry.id e' = TimeEntry.id e ->
        App.run_writes (AppStore.saveEntry (Some uid) e ++ AppStore.saveEntry (Some uid) e')
          docs
        = App.run_writes (AppStore.saveEntry (Some uid) e') docs
        /\ size (App.run_writes (AppStore.saveEntry (Some uid) e') 
                   (App.run_writes (AppStore.saveEntry (Some uid) e) docs))
           = size (App.run_writes (AppStore.saveEntry (Some uid) e) docs))
  /\ App.run_writes (AppStore.saveEntry (Some uid) e
                     ++ AppStore.deleteEntry true (Some uid) (TimeEntry.id e)) docs
     = delete (TimeEntry.id e) docs
  /\ (docs !! TimeEntry.id e = None ->
        App.run_writes (AppStore.saveEntry (Some uid) e
                        ++ AppStore.deleteEntry true (Some uid) (TimeEntry.id e)) docs
        = docs)
  /\ AppStore.saveEntry None e = []
  /\ (forall confirmed i, AppStore.deleteEntry confirmed None i = [])
  /\ (forall user i, AppStore.deleteEntry false user i = []).
Proof.
  unfold AppStore.saveEntry, AppStore.deleteEntry, App.upsertEntry, App.removeEntry.
  cbn [app App.run_writes fold_left App.apply_write].
  split; [apply lookup_insert_eq|].
  split; [intros i Hi; by apply lookup_insert_ne|].
  split.
  { intros Heq. rewrite Heq. split; [apply insert_insert_eq|].
    rewrite insert_insert_eq.
    by rewrite !map_size_insert. }
  split; [apply delete_insert_eq|].
  split.
  { intros Hnone. rewrite delete_insert_eq. by apply delete_id. }
  split; [done|]. split; [by intros []|done].
Qed.

Lemma store_round_trip_witness :
  App.run_writes (AppStore.saveEntry (Some "u") alice_noon
                  ++ AppStore.deleteEntry true (Some "u") (TimeEntry.id alice_noon))
    sample_docs
  = sample_docs.
Proof.
  apply (proj1 (proj2 (proj2 (proj2 (proj2
           (store_round_trip "u" alice_noon alice_noon sample_docs)))))).
  reflexivity.
Defined.

(** *** The form: validation, duration, submission *)

Section Form.
Context `{Host}.

Lemma validateEntry_None_after (entry : PartialEntry.t) :
  Utils.validateEntry entry = None ->
  exists s e,
    JSDate.parse ("2000-01-01T" +:+ default "" (PartialEntry.clock_in entry)) = Some s
    /\ JSDate.parse ("2000-01-01T" +:+ default "" (PartialEntry.clock_out entry)) = Some e
    /\ s < e.
Proof.
  unfold Utils.validateEntry.
  repeat (destruct (negb _); [done|]).
  destruct (JSDate.parse _) as [s|]; [|done].
  destruct (JSDate.parse _) as [e|]; [|done].
  destruct (Z.leb_spec e s); [done|]. intros _. by exists s, e.
Qed.

Lemma minutes_positive (d : Z) : 0 < d -> (0 < inject_Z d / inject_Z (1000 * 60))%Q.
Proof. intros Hd. unfold Qlt, Qdiv, Qmult, Qinv, inject_Z. simpl. lia. Qed.

Lemma minutes_nonpositive (d : Z) : d <= 0 -> (inject_Z d / inject_Z (1000 * 60) <= 0)%Q.
Proof. intros Hd. unfold Qle, Qdiv, Qmult, Qinv, inject_Z. simpl. lia. Qed.

(** X11.  The validator and the duration agree.  An entry the validator
    accepts has a strictly positive duration when no lunch is taken off, and
    with lunch its duration is that one less 30, floored at 0 (so an
    accepted shift of half an hour or less with lunch counts for nothing).
    Whatever the validator says, a clock-out that is not after the clock-in
    gives the duration 0, lunch or not. *)
Theorem validated_duration (entry : TimeEntry.t) :
  (Utils.validateEntry (PartialEntry.of_entry entry) = None ->
     (0 < Utils.getDurationMinutes (TimeEntry.clock_in entry) (TimeEntry.clock_out entry)
            false)%Q
     /\ (Utils.getDurationMinutes (TimeEntry.clock_in entry) (TimeEntry.clock_out entry) true
         == Qmax 0 (Utils.getDurationMinutes (TimeEntry.clock_in entry)
                      (TimeEntry.clock_out entry) false - 30))%Q)
  /\ (forall s e lunch,
        JSDate.parse ("2000-01-01T" +:+ TimeEntry.clock_in entry) = Some s ->
        JSDate.parse ("2000-01-01T" +:+ TimeEntry.clock_out entry) = Some e ->
        e <= s ->
        (Utils.getDurationMinutes (TimeEntry.clock_in entry) (TimeEntry.clock_out entry)
           lunch == 0)%Q).
Proof.
  split.
  - intros (s & e & Hs & He & Hlt)%validateEntry_None_after.
    cbn [PartialEntry.of_entry PartialEntry.clock_in PartialEntry.clock_out
         default from_option id] in Hs, He.
    rewrite !(getDurationMinutes_parsed _ _ _ s e) by done.
    assert (0 < inject_Z (e - s) / inject_Z (1000 * 60))%Q as Hpos
      by (apply minutes_positive; lia).
    rewrite (Q.max_r 0 (inject_Z (e - s) / inject_Z (1000 * 60)))
      by by apply Qlt_le_weak.
    split; [done|reflexivity].
  - intros s e lunch Hs He Hle.
    rewrite (getDurationMinutes_parsed _ _ _ s e) by done.
    pose proof (minutes_nonpositive (e - s) ltac:(lia)) as Hneg.
    apply Q.max_l. destruct lunch; [|done].
    apply Qle_trans with (inject_Z (e - s) / inject_Z (1000 * 60))%Q; [|done].
    rewrite <- (Qplus_0_r (inject_Z (e - s) / inject_Z (1000 * 60))) at 2.
    apply Qplus_le_r. done.
Qed.

Lemma sync_duration_fields (formData : TimeEntry.t) :
  TimeEntry.clock_in (AddEntry.sync_duration formData) = TimeEntry.clock_in formData
  /\ TimeEntry.clock_out (AddEntry.sync_duration formData) = TimeEntry.clock_out formData
  /\ TimeEntry.lunch_30_min (AddEntry.sync_duration formData)
     = TimeEntry.lunch_30_min formData.
Proof. unfold AddEntry.sync_duration. cbv zeta. by destruct (negb _). Qed.

(** X12.  After the effect that follows the times and the lunch flag has
    run, the minutes stored in the form are those of its times and lunch
    flag; running it again changes nothing; and only the minutes can have
    changed. *)
Theorem sync_duration_spec (formData : TimeEntry.t) :
  let synced := AddEntry.sync_duration formData in
  (TimeEntry.duration_mins synced
   == Utils.getDurationMinutes (TimeEntry.clock_in synced) (TimeEntry.clock_out synced)
        (TimeEntry.lunch_30_min synced))%Q
  /\ AddEntry.sync_duration synced = synced
  /\ PartialEntry.of_entry synced
     = PartialEntry.mk (Some (TimeEntry.id formData)) (Some (TimeEntry.person_name formData))
         (Some (TimeEntry.job_name formData)) (Some (TimeEntry.date formData))
         (Some (TimeEntry.clock_in formData)) (Some (TimeEntry.clock_out formData))
         (Some (TimeEntry.lunch_30_min formData)) (Some (TimeEntry.notes formData))
         (Some (TimeEntry.created_at formData)) (Some (TimeEntry.duration_mins synced)).
Proof.
  cbv zeta.
  assert (TimeEntry.duration_mins (AddEntry.sync_duration formData)
          == Utils.getDurationMinutes (TimeEntry.clock_in (AddEntry.sync_duration formData))
               (TimeEntry.clock_out (AddEntry.sync_duration formData))
               (TimeEntry.lunch_30_min (AddEntry.sync_duration formData)))%Q as Hsync.
  { destruct (sync_duration_fields formData) as (-> & -> & ->).
    unfold AddEntry.sync_duration. cbv zeta.
    destruct (Qeq_bool _ _) eqn:E; cbn [negb].
    - by apply Qeq_bool_iff in E.
    - reflexivity. }
  split; [done|]. split.
  - apply Qeq_bool_iff in Hsync.
    unfold AddEntry.sync_duration at 1. cbv zeta. by rewrite Hsync.
  - unfold AddEntry.sync_duration. cbv zeta. by destruct (negb _).
Qed.

(** X10.  Submitting the form never passes on an entry the validator
    rejects: when the validator reports an error nothing is saved, the
    form is kept and that error is shown; otherwise the entry saved is
    accepted by the validator, carries the form's identifier, or the fresh
    one when the form has none, and the form's creation time, or the
    clock's when the form has none, and the error is cleared. *)
Theorem handleSubmit_spec (uuid : string) (now : Z) (isoDate : string) (now0 : Z)
    (editing : bool) (formData : TimeEntry.t) :
  let out := AddEntry.handleSubmit uuid now isoDate now0 editing formData in
  (forall msg, Utils.validateEntry (PartialEntry.of_entry formData) = Some msg ->
     AddEntry.saved out = None /\ AddEntry.formData' out = formData
     /\ AddEntry.error' out = Some msg)
  /\ (Utils.validateEntry (PartialEntry.of_entry formData) = None ->
        exists entry,
          AddEntry.saved out = Some entry
          /\ Utils.validateEntry (PartialEntry.of_entry entry) = None
          /\ TimeEntry.id entry
             = (if decide (TimeEntry.id formData = "") then uuid else TimeEntry.id formData)
          /\ TimeEntry.created_at entry
             = (if decide (TimeEntry.created_at formData = 0) then now
                else TimeEntry.created_at formData)
          /\ TimeEntry.person_name entry = TimeEntry.person_name formData
          /\ TimeEntry.date entry = TimeEntry.date formData
          /\ TimeEntry.duration_mins entry = TimeEntry.duration_mins formData
          /\ AddEntry.error' out = None
          /\ (editing = true -> AddEntry.formData' out = formData))
  /\ (forall entry, AddEntry.saved out = Some entry ->
        Utils.validateEntry (PartialEntry.of_entry entry) = None).
Proof.
  intros out. unfold out, AddEntry.handleSubmit. cbv zeta.
  assert (Utils.validateEntry (PartialEntry.of_entry formData) = None ->
          forall i c,
            Utils.validateEntry
              (PartialEntry.of_entry
                 (TimeEntry.mk i (TimeEntry.person_name formData)
                    (TimeEntry.job_name formData) (TimeEntry.date formData)
                    (TimeEntry.clock_in formData) (TimeEntry.clock_out formData)
                    (TimeEntry.lunch_30_min formData) (TimeEntry.notes formData) c
                    (TimeEntry.duration_mins formData))) = None) as Hsame.
  { intros Hv i c. exact Hv. }
  destruct (Utils.validateEntry (PartialEntry.of_entry formData)) as [msg|] eqn:Ev.
  - assert (JS.truthy_opt (Some msg) = true) as ->.
    { apply validateEntry_message_nonempty in Ev. simpl. unfold JS.truthy.
      by destruct (String.eqb_spec msg ""). }
    split; [|split]; [|done|done]. intros msg' [= <-]. done.
  - cbn [JS.truthy_opt]. split; [done|]. split.
    + intros _. eexists. split; [reflexivity|].
      cbn [TimeEntry.id TimeEntry.created_at TimeEntry.person_name TimeEntry.date
           TimeEntry.duration_mins AddEntry.error' AddEntry.formData'].
      split; [by apply Hsame|]. split.
      { unfold JS.truthy. destruct (String.eqb_spec (TimeEntry.id formData) "");
          [by rewrite decide_True|by rewrite decide_False]. }
      split.
      { destruct (Z.eqb_spec (TimeEntry.created_at formData) 0);
          [by rewrite decide_True|by rewrite decide_False]. }
      repeat split; try done. by intros ->.
    + intros entry [= <-]. by apply Hsame.
Qed.

End Form.

Lemma validated_duration_witness :
  (0 < @Utils.getDurationMinutes sample_host "08:00" "09:00" false)%Q
  /\ (@Utils.getDurationMinutes sample_host "08:00" "09:00" true
      == Qmax 0 (@Utils.getDurationMinutes sample_host "08:00" "09:00" false - 30))%Q.
Proof.
  apply (proj1 (@validated_duration sample_host alice_morning)). reflexivity.
Defined.

Lemma handleSubmit_spec_witness :
  AddEntry.saved (@AddEntry.handleSubmit sample_host "fresh" 7 "2024-01-01" 5 false
                    backwards_entry) = None
  /\ AddEntry.error' (@AddEntry.handleSubmit sample_host "fresh" 7 "2024-01-01" 5 false
                        backwards_entry)
     = Some "Clock-out must be after clock-in".
Proof.
  destruct (proj1 (@handleSubmit_spec sample_host "fresh" 7 "2024-01-01" 5 false
                     backwards_entry)
              "Clock-out must be after clock-in" eq_refl) as (Hsaved & _ & Herr).
  by split.
Defined.

(** *** Clocking in and out again *)

(** X13.  Clocking a worker in and then out sends one entry to
    [upsertEntry], for the job clocked in on, whose minutes times 60000
    are the clock reading at the clock-out less the one at the clock-in,
    and whose notes name that job; the sessions afterwards are the earlier
    ones without that worker, hence the earlier ones themselves when the
    worker had no session. *)
Theorem clock_in_then_out (today : string) (now : Z) (entries : list TimeEntry.t)
    (person job : string) (prev : gmap string ActiveSession.t)
    (user : option string) (r : App.readings) :
  let opened := App.handleClockIn today now entries person job prev in
  exists e,
    App.handleClockOut user r person opened = (App.upsertEntry user e, delete person prev)
    /\ TimeEntry.person_name e = person
    /\ TimeEntry.job_name e = job
    /\ TimeEntry.notes e = "Session: " +:+ job
    /\ TimeEntry.lunch_30_min e = false
    /\ (TimeEntry.duration_mins e * 60000 == inject_Z (App.endTime r - now))%Q
    /\ (prev !! person = None ->
          snd (App.handleClockOut user r person opened) = prev).
Proof.
  intros opened. unfold opened, App.handleClockIn, App.handleClockOut. cbv zeta.
  rewrite lookup_insert_eq. cbn [ActiveSession.startTime ActiveSession.job_name].
  eexists. split; [by rewrite delete_insert_eq|].
  cbn [TimeEntry.person_name TimeEntry.job_name TimeEntry.notes TimeEntry.lunch_30_min
       TimeEntry.duration_mins snd].
  repeat split.
  - unfold Qeq, Qdiv, Qmult, Qinv, inject_Z. simpl. lia.
  - intros Hnone. rewrite delete_insert_eq. by apply delete_id.
Qed.

(** *** The report counts every entry once *)

Lemma Qsum_app (l1 l2 : list Q) : (Qsum (l1 ++ l2) == Qsum l1 + Qsum l2)%Q.
Proof.
  induction l1 as [|x l1 IH]; simpl.
  - by rewrite Qplus_0_l.
  - rewrite IH. by rewrite Qplus_assoc.
Qed.

Lemma Qsum_Permutation (l1 l2 : list Q) : l1 ≡ₚ l2 -> (Qsum l1 == Qsum l2)%Q.
Proof.
  induction 1 as [|x l1 l2 _ IH|x y l|l1 l2 l3 _ IH1 _ IH2]; simpl.
  - reflexivity.
  - by rewrite IH.
  - ring.
  - by rewrite IH1.
Qed.

Lemma keyed_cons_absent {A} (key : A -> string) (ks : list string) (x : A) (L : list A) :
  key x ∉ ks ->
  List.map (fun k => keyed key k (x :: L)) ks = List.map (fun k => keyed key k L) ks.
Proof.
  induction ks as [|k ks IH]; [done|].
  intros [Hne Hnotin]%not_elem_of_cons. cbn [List.map]. rewrite IH by done. f_equal.
  unfold keyed. by rewrite filter_cons_False.
Qed.

Lemma keyed_cons_present {A} (key : A -> string) (ks : list string) (x : A) (L : list A) :
  NoDup ks -> key x ∈ ks ->
  concat (List.map (fun k => keyed key k (x :: L)) ks)
  ≡ₚ x :: concat (List.map (fun k => keyed key k L) ks).
Proof.
  induction ks as [|k ks IH]; intros Hnd Hin; [by apply elem_of_nil in Hin|].
  apply NoDup_cons in Hnd as [Hk Hnd]. cbn [List.map concat].
  destruct (decide (key x = k)) as [<-|Hne].
  - rewrite keyed_cons_absent by done. unfold keyed at 1.
    by rewrite filter_cons_True.
  - apply elem_of_cons in Hin as [?|Hin]; [done|].
    rewrite IH by done. unfold keyed at 1 3.
    rewrite filter_cons_False by done. by rewrite Permutation_middle.
Qed.

(** Splitting a list by a key, over a duplicate-free list of the keys that
    occur, loses and repeats nothing. *)
Lemma keyed_partition {A} (key : A -> string) (ks : list string) (L : list A) :
  NoDup ks -> (forall x, x ∈ L -> key x ∈ ks) ->
  concat (List.map (fun k => keyed key k L) ks) ≡ₚ L.
Proof.
  intros Hnd. induction L as [|x L IH]; intros Hks.
  - clear Hks Hnd. induction ks as [|k ks IH]; [done|]. cbn [List.map concat]. by rewrite IH.
  - rewrite keyed_cons_present; [|done|apply Hks; by left].
    rewrite IH; [done|]. intros y Hy. apply Hks. by right.
Qed.

Lemma entries_of_keyed (p d : string) (L : list TimeEntry.t) :
  entries_of p d L = keyed TimeEntry.date d (entries_of_person p L).
Proof.
  unfold entries_of, entries_of_person, keyed. rewrite list_filter_filter.
  apply list_filter_iff. tauto.
Qed.

Section Conservation.
Context `{Host}.
Import Report.
Import Grouped.

Lemma days_entries (p : string) (L : list TimeEntry.t) (days : JS.Obj DailySummary.t) :
  days_inv p L days ->
  Forall (fun kv => kv.2 = summary_of p kv.1 L) days
  /\ concat (List.map (fun d => entries_of p d L) days.*1) ≡ₚ entries_of_person p L.
Proof.
  intros [Hnd Hinv]. split.
  - apply Forall_forall. intros [d day] Hin.
    specialize (Hinv d). rewrite (obj_elem_get d day days Hnd Hin) in Hinv.
    by destruct Hinv.
  - erewrite map_ext; [|intros d; apply entries_of_keyed].
    apply keyed_partition; [done|].
    intros e He. specialize (Hinv (TimeEntry.date e)).
    destruct (JS.obj_get (TimeEntry.date e) days) as [day|] eqn:E.
    + apply obj_get_Some_elem in E. apply list_elem_of_fmap. by exists (TimeEntry.date e, day).
    + exfalso. simpl in Hinv.
      assert (e ∈ entries_of p (TimeEntry.date e) L) as Hin.
      { rewrite entries_of_keyed. unfold keyed. by apply list_elem_of_filter. }
      rewrite Hinv in Hin. by apply elem_of_nil in Hin.
Qed.

Lemma person_report_conserves (p : string) (L : list TimeEntry.t)
    (days : JS.Obj DailySummary.t) :
  days_inv p L days ->
  PersonReport.allIds (person_report (p, days)) ≡ₚ ids_of (entries_of_person p L)
  /\ (PersonReport.totalMins (person_report (p, days))
      == Qsum (List.map TimeEntry.duration_mins (entries_of_person p L)))%Q.
Proof.
  intros Hinv. destruct (days_entries p L days Hinv) as [Hall Hpart].
  unfold person_report. cbv zeta. cbn [PersonReport.allIds PersonReport.totalMins].
  set (sorted := JS.Array_sort (JS.before_of date_diff) (JS.Object_values days)).
  assert (sorted ≡ₚ List.map (fun d => summary_of p d L) days.*1) as Hperm.
  { unfold sorted, JS.Object_values. rewrite Array_sort_Permutation.
    rewrite (Permutation_map snd (Object_entries_Permutation days)).
    clear -Hall. induction Hall as [|[d day] l Hd _ IH]; [done|].
    csimpl. simpl in Hd. by rewrite Hd, IH. }
  clearbody sorted. revert Hperm Hpart. generalize (days.*1). intros ds Hperm Hpart.
  split.
  - rewrite (Permutation_map DailySummary.entryIds Hperm), map_map.
    cbn [summary_of DailySummary.entryIds]. unfold ids_of.
    rewrite <- Hpart. rewrite concat_map, map_map. done.
  - rewrite fold_left_Qplus, Qplus_0_l.
    rewrite (Qsum_Permutation _ _ (Permutation_map DailySummary.duration_mins Hperm)).
    rewrite map_map. cbn [summary_of DailySummary.duration_mins].
    rewrite <- (Qsum_Permutation _ _ (Permutation_map TimeEntry.duration_mins Hpart)).
    clear. induction ds as [|d ds IH]; [reflexivity|].
    cbn [List.map concat]. rewrite map_app, Qsum_app. cbn [Qsum foldr].
    fold (Qsum (List.map (fun x => fold_left Qplus
             (List.map TimeEntry.duration_mins (entries_of p x L)) 0%Q) ds)).
    rewrite IH, fold_left_Qplus_list, Qplus_0_l. reflexivity.
Qed.

(** The reports, before they are put in order of name, are the reports of
    the properties of the object filled by the loop. *)
Lemma reportData_elem (entries : list TimeEntry.t) (fp fs fe : string)
    (r : PersonReport.t) :
  r ∈ reportData entries fp fs fe ->
  exists days,
    r = person_report (PersonReport.person_name r, days)
    /\ days <> []
    /\ days_inv (PersonReport.person_name r) (List.filter (matches fp fs fe) entries) days.
Proof.
  unfold reportData. cbv zeta.
  set (F := List.filter (matches fp fs fe) entries).
  destruct (map_inv_grouped F) as [Hnd Hpm].
  rewrite Array_sort_Permutation.
  rewrite (Permutation_map person_report (Object_entries_Permutation _)).
  intros ([p days] & <- & Hin%list_elem_of_In)%list_elem_of_In%in_map_iff.
  specialize (Hpm p). rewrite (obj_elem_get p days _ Hnd Hin) in Hpm.
  exists days. by destruct Hpm.
Qed.

Lemma report_entries_of_person (entries : list TimeEntry.t) (fp fs fe : string)
    (r : PersonReport.t) :
  r ∈ reportData entries fp fs fe ->
  let mine :=
    entries_of_person (PersonReport.person_name r)
      (List.filter (matches fp fs fe) entries) in
  mine <> []
  /\ PersonReport.allIds r ≡ₚ ids_of mine
  /\ (PersonReport.totalMins r == Qsum (List.map TimeEntry.duration_mins mine))%Q.
Proof.
  intros (days & Hr & Hne & Hinv)%reportData_elem mine.
  destruct (person_report_conserves _ _ days Hinv) as [Hids Htotal].
  rewrite <- Hr in Hids, Htotal. split; [|done].
  destruct days as [|[d day] days]; [done|].
  destruct Hinv as [Hnd Hinv]. specialize (Hinv d).
  rewrite (obj_elem_get d day _ Hnd (list_elem_of_here _ _)) in Hinv.
  destruct Hinv as [_ Hsome]. rewrite entries_of_keyed in Hsome.
  intros Hnil. fold mine in Hsome. by rewrite Hnil in Hsome.
Qed.

Lemma same_id_same_entry (l : list TimeEntry.t) (e e' : TimeEntry.t) :
  NoDup (ids_of l) -> e ∈ l -> e' ∈ l -> TimeEntry.id e = TimeEntry.id e' -> e = e'.
Proof.
  unfold ids_of. induction l as [|x l IH]; intros Hnd He He' Hid.
  - by apply elem_of_nil in He.
  - cbn [List.map] in Hnd. apply NoDup_cons in Hnd as [Hx Hnd].
    assert (forall y, y ∈ l -> TimeEntry.id y <> TimeEntry.id x) as Hfresh.
    { intros y Hy Heq. apply Hx. rewrite <- Heq.
      apply list_elem_of_In, in_map, list_elem_of_In, Hy. }
    apply elem_of_cons in He as [->|He]; apply elem_of_cons in He' as [->|He'].
    + done.
    + exfalso. by apply (Hfresh e').
    + exfalso. by apply (Hfresh e).
    + by apply IH.
Qed.

Lemma grouped_approve_clears (entries : list TimeEntry.t) (fp fs fe : string)
    (r : PersonReport.t) :
  r ∈ reportData entries fp fs fe ->
  let remaining := LocalApp.approveEntries (PersonReport.allIds r) entries in
  (forall r', r' ∈ reportData remaining fp fs fe ->
     PersonReport.person_name r' <> PersonReport.person_name r)
  /\ (forall e, e ∈ entries -> TimeEntry.id e ∉ PersonReport.allIds r -> e ∈ remaining)
  /\ (NoDup (ids_of entries) ->
        forall e, e ∈ entries ->
          TimeEntry.person_name e <> PersonReport.person_name r -> e ∈ remaining).
Proof.
  intros Hr remaining.
  destruct (report_entries_of_person entries fp fs fe r Hr) as (_ & Hids & _).
  assert (forall e, e ∈ remaining <-> e ∈ entries /\ TimeEntry.id e ∉ PersonReport.allIds r)
    as Hrem.
  { intros e. unfold remaining. rewrite approveEntries_filter, list_elem_of_filter. tauto. }
  assert (forall e, e ∈ entries -> matches fp fs fe e = true ->
            TimeEntry.person_name e = PersonReport.person_name r ->
            TimeEntry.id e ∈ PersonReport.allIds r) as Hmine.
  { intros e He Hm Hp. rewrite Hids. unfold ids_of.
    apply list_elem_of_In, in_map, list_elem_of_In.
    unfold entries_of_person, keyed. apply list_elem_of_filter. split; [done|].
    apply list_elem_of_In, filter_In. split; [by apply list_elem_of_In|done]. }
  split; [|split].
  - intros r' Hr' Hsame.
    destruct (report_entries_of_person remaining fp fs fe r' Hr') as (Hne & _ & _).
    revert Hne.
    destruct (entries_of_person (PersonReport.person_name r')
                (List.filter (matches fp fs fe) remaining)) as [|e l] eqn:E;
      [done|intros _].
    assert (e ∈ entries_of_person (PersonReport.person_name r')
                  (List.filter (matches fp fs fe) remaining)) as He
      by (rewrite E; apply list_elem_of_here).
    unfold entries_of_person, keyed in He.
    apply list_elem_of_filter in He as [Hp He].
    apply list_elem_of_In, filter_In in He as [He%list_elem_of_In Hm].
    apply Hrem in He as [He Hid]. apply Hid, Hmine; [done..|]. by rewrite Hp.
  - intros e He Hid. by apply Hrem.
  - intros Hnd e He Hp. apply Hrem. split; [done|]. intros Hid.
    rewrite Hids in Hid. unfold ids_of in Hid.
    apply list_elem_of_In, in_map_iff in Hid as (e' & Heq & He'%list_elem_of_In).
    unfold entries_of_person, keyed in He'.
    apply list_elem_of_filter in He' as [Hp' He'].
    apply list_elem_of_In, filter_In in He' as [He'%list_elem_of_In _].
    apply Hp. rewrite <- Hp'. f_equal. by apply (same_id_same_entry entries).
Qed.

(** X14.  When no person and no date that passes the filter is the name
    of something inherited from [Object.prototype], a person's report
    counts each entry of that person that passes the filter exactly once:
    there is at least one such entry, the identifiers handed to the
    approval are those of these entries, each as often as it occurs among
    them, and the person's total is the sum of their minutes;
    [Object.prototype] is left as it was. *)
Theorem report_counts_each_entry_once (extra extra' : list string)
    (entries : list TimeEntry.t) (fp fs fe : string) (R : list PersonReport.t)
    (r : PersonReport.t) :
  ordinary_keys extra (List.filter (matches fp fs fe) entries) = true ->
  Report.reportData extra entries fp fs fe = Done (R, extra') ->
  r ∈ R ->
  let mine :=
    entries_of_person (PersonReport.person_name r)
      (List.filter (matches fp fs fe) entries) in
  mine <> []
  /\ PersonReport.allIds r ≡ₚ ids_of mine
  /\ (PersonReport.totalMins r == Qsum (List.map TimeEntry.duration_mins mine))%Q
  /\ extra' = extra.
Proof.
  intros Hord Hrun Hr mine. rewrite grouped_run in Hrun by done.
  injection Hrun as <- <-.
  destruct (report_entries_of_person entries fp fs fe r Hr) as (? & ? & ?). done.
Qed.

(** X15.  In the variant that keeps the entries in the component, and
    when no person and no date that passes the filter is the name of
    something inherited from [Object.prototype]: approving the
    identifiers of a person's report clears that person from the report,
    that is, with the same filter the run on the remaining entries returns
    a report that has no person-report for that person.  Every entry whose
    identifier is not among those approved is kept; when the entries carry
    distinct identifiers, every entry of another person is kept. *)
Theorem approve_clears_person (extra extra' : list string) (entries : list TimeEntry.t)
    (fp fs fe : string) (R : list PersonReport.t) (r : PersonReport.t) :
  ordinary_keys extra (List.filter (matches fp fs fe) entries) = true ->
  Report.reportData extra entries fp fs fe = Done (R, extra') ->
  r ∈ R ->
  let remaining := LocalApp.approveEntries (PersonReport.allIds r) entries in
  (exists R',
      Report.reportData extra' remaining fp fs fe = Done (R', extra')
      /\ forall r', r' ∈ R' -> PersonReport.person_name r' <> PersonReport.person_name r)
  /\ (forall e, e ∈ entries -> TimeEntry.id e ∉ PersonReport.allIds r -> e ∈ remaining)
  /\ (NoDup (ids_of entries) ->
        forall e, e ∈ entries ->
          TimeEntry.person_name e <> PersonReport.person_name r -> e ∈ remaining).
Proof.
  intros Hord Hrun Hr remaining. rewrite grouped_run in Hrun by done.
  injection Hrun as <- <-.
  destruct (grouped_approve_clears entries fp fs fe r Hr) as (Hclear & Hkept & Hothers).
  split; [|done].
  exists (Grouped.reportData remaining fp fs fe). split; [|done].
  apply grouped_run.
  apply (ordinary_keys_sublist extra (List.filter (matches fp fs fe) entries)); [|done].
  intros e [He Hm]%list_elem_of_In%filter_In.
  apply list_elem_of_In, filter_In. split; [|done].
  apply list_elem_of_In. apply list_elem_of_In in He.
  unfold remaining in He. rewrite approveEntries_filter in He.
  by apply list_elem_of_filter in He as [_ He].
Qed.

End Conservation.

Lemma sample_run_all :
  @Report.reportData sample_host [] [alice_morning; alice_noon; bob_morning] "All" "" ""
  = Report.Done ([alice_report; bob_report], []).
Proof. reflexivity. Qed.

Lemma report_counts_each_entry_once_witness :
  PersonReport.allIds alice_report
  ≡ₚ ids_of (entries_of_person "Alice"
               (List.filter (@Report.matches sample_host "All" "" "")
                  [alice_morning; alice_noon; bob_morning])).
Proof.
  apply (@report_counts_each_entry_once sample_host [] []
           [alice_morning; alice_noon; bob_morning] "All" "" ""
           [alice_report; bob_report] alice_report eq_refl sample_run_all).
  apply list_elem_of_here.
Defined.

Lemma approve_clears_person_witness :
  bob_morning ∈ LocalApp.approveEntries (PersonReport.allIds alice_report)
                  [alice_morning; alice_noon; bob_morning].
Proof.
  apply (proj1 (proj2 (@approve_clears_person sample_host [] []
                         [alice_morning; alice_noon; bob_morning] "All" "" ""
                         [alice_report; bob_report] alice_report eq_refl sample_run_all
                         ltac:(apply list_elem_of_here)))).
  - by repeat (first [apply list_elem_of_here | apply list_elem_of_further]).
  - intros Hin. by repeat (apply elem_of_cons in Hin as [Hin|Hin]; [discriminate|]);
      apply elem_of_nil in Hin.
Defined.

(** *** The lunch marker of a bulk line *)

Lemma starts_with_30_lower (s : string) :
  JS.starts_with "30" (JS.toLowerCase s) = JS.starts_with "30" s.
Proof.
  destruct s as [|c1 [|c2 s]].
  - done.
  - cbn [JS.toLowerCase JS.starts_with].
    by destruct c1 as [[] [] [] [] [] [] [] []].
  - cbn [JS.toLowerCase JS.starts_with].
    assert (Ascii.eqb "3" (JS.lower_ascii c1) = Ascii.eqb "3" c1) as ->
      by by destruct c1 as [[] [] [] [] [] [] [] []].
    assert (Ascii.eqb "0" (JS.lower_ascii c2) = Ascii.eqb "0" c2) as ->
      by by destruct c2 as [[] [] [] [] [] [] [] []].
    done.
Qed.

Lemma includes_30_lower (s : string) :
  JS.includes "30" (JS.toLowerCase s) = JS.includes "30" s.
Proof.
  induction s as [|c s IH]; [done|].
  change (JS.includes "30" (JS.toLowerCase (String c s)))
    with (JS.starts_with "30" (JS.toLowerCase (String c s))
          || JS.includes "30" (JS.toLowerCase s)).
  change (JS.includes "30" (String c s))
    with (JS.starts_with "30" (String c s) || JS.includes "30" s).
  by rewrite starts_with_30_lower, IH.
Qed.

Section LunchMarker.
Context `{Host}.

(** X16.  A line with at least three fields in which the digits 30 occur
    anywhere, in the date or in a time as well as in a marker, is parsed
    with the lunch flag set, and its minutes are computed with the lunch
    taken off. *)
Theorem lunch_flag_on_any_30 (uuid : string) (now : Z) (line : string) :
  BulkImport.well_formed line = true ->
  JS.includes "30" line = true ->
  exists e,
    BulkImport.entry (BulkImport.parse_line uuid now line) = PartialEntry.of_entry e
    /\ TimeEntry.lunch_30_min e = true
    /\ TimeEntry.duration_mins e
       = Utils.getDurationMinutes (TimeEntry.clock_in e) (TimeEntry.clock_out e) true.
Proof.
  intros Hwf H30. rewrite parse_line_cases, Hwf. cbn [BulkImport.entry].
  exists (candidate uuid now line). split; [done|].
  assert (BulkImport.lunch_test (JS.toLowerCase line) = true) as Hlunch.
  { apply lunch_test_iff. exists "30". split.
    - by repeat (first [apply list_elem_of_here | apply list_elem_of_further]).
    - by rewrite includes_30_lower. }
  unfold candidate. cbv zeta.
  cbn [TimeEntry.lunch_30_min TimeEntry.duration_mins TimeEntry.clock_in
       TimeEntry.clock_out].
  by rewrite Hlunch.
Qed.

End LunchMarker.

Lemma lunch_flag_on_any_30_witness :
  exists e,
    BulkImport.entry (@BulkImport.parse_line sample_host "u" 0 half_past_line)
    = PartialEntry.of_entry e
    /\ TimeEntry.lunch_30_min e = true
    /\ TimeEntry.duration_mins e
       = @Utils.getDurationMinutes sample_host (TimeEntry.clock_in e)
           (TimeEntry.clock_out e) true.
Proof.
  exact (@lunch_flag_on_any_30 sample_host "u" 0 half_past_line eq_refl eq_refl).
Defined.

(** *** The clipboard table *)

Lemma length_append (a b : string) :
  String.length (a +:+ b) = (String.length a + String.length b)%nat.
Proof.
  induction a as [|x a IH]; [done|].
  change (S (String.length (a +:+ b)) = S (String.length a + String.length b)).
  by rewrite IH.
Qed.

Lemma length_spaces (n : nat) :
  String.length (String.string_of_list_ascii (List.repeat " "%char n)) = n.
Proof. induction n as [|n IH]; [done|]. simpl. by rewrite IH. Qed.

Lemma length_padEnd (n : nat) (s : string) :
  String.length (ReportText.padEnd n s) = Nat.max n (String.length s).
Proof. unfold ReportText.padEnd. rewrite length_append, length_spaces. lia. Qed.

Lemma length_substring0 (n : nat) (s : string) :
  String.length (JS.substring0 n s) = Nat.min n (String.length s).
Proof.
  revert s. induction n as [|n IH]; intros [|c s]; simpl; try done. by rewrite IH.
Qed.

Lemma substring0_append_long (n : nat) (a b : string) :
  (n <= String.length a)%nat -> JS.substring0 n (a +:+ b) = JS.substring0 n a.
Proof.
  revert a. induction n as [|n IH]; intros a Hn.
  - by destruct (a +:+ b), a.
  - destruct a as [|c a]; [simpl in Hn; lia|].
    change (String c a +:+ b) with (String c (a +:+ b)). cbn [JS.substring0].
    rewrite IH; [done|]. simpl in Hn. lia.
Qed.

Lemma substring0_all (n : nat) (s : string) :
  (String.length s <= n)%nat -> JS.substring0 n s = s.
Proof.
  revert s. induction n as [|n IH]; intros [|c s] Hn; simpl in *; try done; try lia.
  rewrite IH by lia. done.
Qed.

(** X17.  In the table copied to the clipboard the column of the job sites
    is exactly 20 wide whatever the names: names that fit are followed by
    spaces, longer text is cut after its first 20 characters.  The column
    of the date is at least 10 wide, and exactly 10 for a date of ten
    characters.  Names and date are taken of one-byte characters, for which
    the length counted here is the length JavaScript counts. *)
Theorem table_columns (d : DailySummary.t) :
  let names := ReportText.join (DailySummary.job_names d) in
  ascii_only names = true ->
  ascii_only (DailySummary.date d) = true ->
  String.length (ReportText.job_column d) = 20%nat
  /\ ((String.length names <= 20)%nat ->
        ReportText.job_column d = ReportText.padEnd 20 names
        /\ JS.starts_with names (ReportText.job_column d) = true)
  /\ ((20 <= String.length names)%nat ->
        ReportText.job_column d = JS.substring0 20 names)
  /\ (10 <= String.length (ReportText.padEnd 10 (DailySummary.date d)))%nat
  /\ (String.length (DailySummary.date d) = 10%nat ->
        ReportText.padEnd 10 (DailySummary.date d) = DailySummary.date d).
Proof.
  intros names _ _. unfold ReportText.job_column. fold names.
  split; [|split; [|split; [|split]]].
  - rewrite length_substring0, length_padEnd. lia.
  - intros Hfit.
    assert (JS.substring0 20 (ReportText.padEnd 20 names) = ReportText.padEnd 20 names)
      as -> by (apply substring0_all; rewrite length_padEnd; lia).
    split; [done|]. unfold ReportText.padEnd.
    generalize (String.string_of_list_ascii (List.repeat " "%char (20 - String.length names))).
    intros tail. clear. induction names as [|c s IH]; [done|].
    change (String c s +:+ tail) with (String c (s +:+ tail)).
    cbn [JS.starts_with]. by rewrite Ascii.eqb_refl.
  - intros Hlong. unfold ReportText.padEnd. by apply substring0_append_long.
  - rewrite length_padEnd. lia.
  - intros Hten. unfold ReportText.padEnd. rewrite Hten. simpl. apply append_empty_r.
Qed.

Lemma table_columns_witness :
  ReportText.job_column (DailySummary.mk "2024-01-01" 90 ["Site A"; "Site B"] ["id1"; "id2"])
  = ReportText.padEnd 20 "Site A, Site B"
  /\ JS.starts_with "Site A, Site B"
       (ReportText.job_column
          (DailySummary.mk "2024-01-01" 90 ["Site A"; "Site B"] ["id1"; "id2"])) = true.
Proof.
  apply (proj1 (proj2 (table_columns
           (DailySummary.mk "2024-01-01" 90 ["Site A"; "Site B"] ["id1"; "id2"])
           eq_refl eq_refl))).
  simpl. lia.
Defined.

(** *** What the display of minutes tells apart *)

Lemma append_cancel_length (a a' b b' : string) :
  String.length b = String.length b' -> a +:+ b = a' +:+ b' -> a = a' /\ b = b'.
Proof.
  intros Hlen. revert a'. induction a as [|c a IH]; intros [|c' a'] Heq.
  - done.
  - exfalso. apply (f_equal String.length) in Heq.
    change ("" +:+ b) with b in Heq. rewrite length_append in Heq. simpl in Heq. lia.
  - exfalso. apply (f_equal String.length) in Heq.
    change ("" +:+ b') with b' in Heq. rewrite length_append in Heq. simpl in Heq. lia.
  - change (String c (a +:+ b) = String c' (a' +:+ b')) in Heq.
    injection Heq as -> Heq. by destruct (IH _ Heq) as [-> ->].
Qed.

Lemma two_digits_table :
  Forall (fun r => Forall (fun r' => two_digits r = two_digits r' -> r = r') (seqZ 0 60))
         (seqZ 0 60).
Proof. apply (bool_decide_unpack _). by vm_compute. Qed.

Lemma two_digits_inj (r r' : Z) :
  0 <= r < 60 -> 0 <= r' < 60 -> two_digits r = two_digits r' -> r = r'.
Proof.
  intros Hr Hr'.
  assert (r ∈ seqZ 0 60) as Hin by (apply elem_of_seqZ; lia).
  assert (r' ∈ seqZ 0 60) as Hin' by (apply elem_of_seqZ; lia).
  exact (proj1 (Forall_forall _ _)
           (proj1 (Forall_forall _ _) two_digits_table r Hin) r' Hin').
Qed.

Lemma unsigned_display_no_dash (t : Z) (s : string) :
  0 <= t -> pretty (t / 60) +:+ ":" +:+ two_digits (t mod 60) ≠ "-" +:+ s.
Proof.
  intros Ht Hs.
  assert (0 <= t / 60) as Hh by (apply Z.div_pos; lia).
  destruct (t / 60) as [|p|p] eqn:Eh; [done| |lia].
  revert Hs. unfold pretty at 1, pretty_Z, pretty, pretty_positive, pretty, pretty_N.
  case_decide; [done|].
  destruct (pretty_N_go (N.pos p) "") as [|c r] eqn:Ego; [done|].
  simpl. intros [= -> _].
  by apply (pretty_N_go_ne_dash (N.pos p) "" r).
Qed.

Lemma unsigned_display_inj (t t' : Z) :
  0 <= t -> 0 <= t' ->
  pretty (t / 60) +:+ ":" +:+ two_digits (t mod 60)
  = pretty (t' / 60) +:+ ":" +:+ two_digits (t' mod 60) ->
  t = t'.
Proof.
  intros Ht Ht' Heq.
  apply append_cancel_length in Heq as [Hh Hr]; [|done].
  apply (inj pretty) in Hh.
  change (String ":" (two_digits (t mod 60)) = String ":" (two_digits (t' mod 60))) in Hr.
  assert (two_digits (t mod 60) = two_digits (t' mod 60)) as Hr' by congruence.
  apply two_digits_inj in Hr'; [|apply Z.mod_pos_bound; lia..].
  rewrite (Z.div_mod t 60), (Z.div_mod t' 60) by lia. by rewrite Hh, Hr'.
Qed.

Lemma Qtrunc_sign (m : Q) :
  ((m < 0)%Q -> Qtrunc m <= 0) /\ (¬ (m < 0)%Q -> 0 <= Qtrunc m).
Proof.
  destruct m as [n d]. unfold Qtrunc, Qlt. simpl. rewrite Z.mul_1_r. split.
  - intros Hn. apply Z.quot_le_upper_bound; lia.
  - intros Hn. apply Z.quot_pos; lia.
Qed.

(** X18.  Two amounts of minutes are displayed by the same text exactly when
    they have the same whole minutes (truncated toward zero) and are both
    negative or both not: the display loses the fraction of a minute and
    nothing else.  In particular an amount strictly between -1 and 0 is shown
    with a minus sign and so differs from the display of 0. *)
Theorem formatMinutesToHMM_same_display (m m' : Q) :
  Utils.formatMinutesToHMM m = Utils.formatMinutesToHMM m'
  <-> (((m < 0)%Q <-> (m' < 0)%Q) /\ Qtrunc m = Qtrunc m').
Proof.
  rewrite !formatMinutesToHMM_unfold.
  pose proof (Qtrunc_sign m) as [Hneg Hpos].
  pose proof (Qtrunc_sign m') as [Hneg' Hpos'].
  pose proof (Qltb_spec m 0) as Hm. pose proof (Qltb_spec m' 0) as Hm'.
  set (t := Z.abs (Qtrunc m)) in *. set (t' := Z.abs (Qtrunc m')) in *.
  assert (0 <= t) as Ht by (unfold t; lia).
  assert (0 <= t') as Ht' by (unfold t'; lia).
  split.
  - intros Heq.
    destruct (Utils.Qltb m 0) eqn:E, (Utils.Qltb m' 0) eqn:E'.
    + change (String "-" (pretty (t / 60) +:+ ":" +:+ two_digits (t mod 60))
              = String "-" (pretty (t' / 60) +:+ ":" +:+ two_digits (t' mod 60))) in Heq.
      injection Heq as Heq. apply unsigned_display_inj in Heq; [|done..].
      split; [tauto|]. unfold t, t' in Heq.
      pose proof (Hneg (proj1 Hm eq_refl)). pose proof (Hneg' (proj1 Hm' eq_refl)). lia.
    + exfalso. symmetry in Heq.
      by apply (unsigned_display_no_dash t' _ Ht') in Heq.
    + exfalso. by apply (unsigned_display_no_dash t _ Ht) in Heq.
    + change (pretty (t / 60) +:+ ":" +:+ two_digits (t mod 60)
              = pretty (t' / 60) +:+ ":" +:+ two_digits (t' mod 60)) in Heq.
      apply unsigned_display_inj in Heq; [|done..].
      assert (¬ (m < 0)%Q) as Hn by (intros Hlt; apply Hm in Hlt; congruence).
      assert (¬ (m' < 0)%Q) as Hn' by (intros Hlt; apply Hm' in Hlt; congruence).
      split; [tauto|]. unfold t, t' in Heq.
      pose proof (Hpos Hn). pose proof (Hpos' Hn'). lia.
  - intros [Hsign Htr].
    assert (Utils.Qltb m 0 = Utils.Qltb m' 0) as ->.
    { destruct (Utils.Qltb m 0), (Utils.Qltb m' 0); try done.
      - symmetry. apply Hm', Hsign, Hm. done.
      - apply Hm, Hsign, Hm'. done. }
    unfold t, t'. by rewrite Htr.
Qed.

(** Two and a half minutes are shown as two. *)
Lemma formatMinutesToHMM_same_display_witness :
  Utils.formatMinutesToHMM (5 # 2) = Utils.formatMinutesToHMM 2.
Proof.
  apply (proj2 (formatMinutesToHMM_same_display (5 # 2) 2)).
  split; [|reflexivity]. split; intros Hlt; discriminate Hlt.
Defined.

(** Ann picks a site: Cy, who had none, gets it too. *)
Lemma handleJobChange_spec_witness :
  Dashboard.handleJobChange [] ["Ann"; "Bob"; "Cy"] "Ann" "Site A" {["Bob" := "Site B"]}
    !! "Cy"
  = Some "Site A".
Proof.
  pose proof (proj1 (proj2 (handleJobChange_spec [] ["Ann"; "Bob"; "Cy"] "Ann" "Site A"
                              {["Bob" := "Site B"]})) "Cy" ltac:(discriminate)) as Hcy.
  rewrite decide_True in Hcy; [exact Hcy|].
  split; [discriminate|]. split.
  - by repeat (first [apply list_elem_of_here | apply list_elem_of_further]).
  - right. split; reflexivity.
Defined.

(** Alice, with no session, clocks in and out: no session is left. *)
Lemma clock_in_then_out_witness :
  snd (App.handleClockOut None sample_readings "Alice"
         (App.handleClockIn "2024-01-01" 0 [] "Alice" "Site A" ∅))
  = ∅.
Proof.
  destruct (clock_in_then_out "2024-01-01" 0 [] "Alice" "Site A" ∅ None sample_readings)
    as (e & _ & _ & _ & _ & _ & _ & Hprev).
  exact (Hprev eq_refl).
Defined.
